(* ===== verification/_CoqProject ===== *)
-Q . S2P
Prelude.v
JsString.v
JsDate.v
IsoRoundtrip.v
Json.v
Mongoose.v
Schemas.v
Db.v
Lifecycle.v
LifecycleProps.v
Safety.v
Concurrency.v
Availability.v
Notify.v
Routes.v
Api.v
Navigation.v
Calendar.v
Client.v
Session.v
