(* ===== verification/Prelude.v ===== *)
(** * Medqueue: a verification development of the Medqueue clinic back end
      and its browser controller

    The repository is a small appointment-booking web application.  Its
    back end ([src/backend]) is an Express server whose routes
    ([routes/appointments.js]) call seven asynchronous service functions
    ([core-functions-db.js]); these read and write three Mongoose
    collections declared in [models/Appointment.js], [models/Doctor.js]
    and [models/Notification.js].  Its front end is one of two near
    identical browser controllers ([public/js/app.js] with sample data,
    [public/js/somefile.js] against live endpoints) that keep a page
    navigation stack and a booking form in global variables.

    ** How the program is modelled

    - Every service function is a computation of the state and exception
      monad [M] of this file over a [World] (file [Db.v]): the three
      collections as [gmap string _] keyed by their unique business id
      (the schemas declare [unique: true] on it), the wall clock read by
      [new Date()] / [Date.now()], the local time-zone offset used by
      [getDate()], and the stream of [Math.random()] draws.  A [throw]
      inside the monad is a JavaScript exception; [try_catch] is the
      [try { } catch (error) { }] that every service wraps around its body.
    - Mongoose documents are modelled as they behave (file [Mongoose.v]):
      [findOne] returns a fresh in-memory copy of the stored record, an
      assignment [doc.path = v] marks [path] modified only when the value
      changes, and [save()] of a loaded document writes only its modified
      paths back ([$set]), stamps [updatedAt] ([timestamps: true]) and
      does nothing when no path is modified; [save()] of a new document
      validates it and fails on a duplicate unique key.  This is what makes
      [checkInPatient] correct: it holds a stale copy of the appointment
      while [generateQueueNumber] saves the queue number through a second
      copy, and its own save must not erase that number.
    - The JavaScript primitives the services depend on are modelled from
      their ECMAScript definitions: [Number.prototype.toString] on
      integers, [String.prototype.padStart] and [trim] ([JsString.v]);
      [Date] values as milliseconds with [NaN] for an invalid date, the
      civil calendar, [getDate], [toISOString] and the ISO date-time
      parser of [new Date(string)] ([JsDate.v]).

    ** Files, in dependency order

    - [Prelude.v] (this file): the monad [M], its notation in
      [medqueue_scope], the hint databases [medqueue] and [medqueue_rw],
      the tactic [bd_simpl], generic lemmas on the monad and strings, and
      the postcondition logic [Post] with its tactic [post_auto].
    - [JsString.v]: [Number.prototype.toString], [padStart], [trim].
    - [JsDate.v]: the proleptic Gregorian calendar on day numbers,
      [getDate], [toISOString], the ISO parser of [new Date(string)]; the
      civil round trip [days_from_civil_from_days].
    - [IsoRoundtrip.v]: fixed-width decimal printing read back by the
      parser; [toISOString().split('T')[0]] parses back to its day; the
      digit loop of [Number.prototype.toString] never runs out of fuel.
    - [Json.v]: JSON values, JavaScript truthiness, [typeof], property
      lookup, [new Date(v)] on any value.
    - [Mongoose.v]: the [Model] interface (a type class) every schema
      implements, in-memory documents with modified paths, [find_one] and
      [save_doc] with their laws, the [String] and [Boolean] casts.
    - [Schemas.v]: [models/Appointment.js], [models/Doctor.js] and
      [models/Notification.js] as records with their [Model] instances.
    - [Db.v]: the [World] and the effects [now], [random_below], [find_*]
      and [save_*] lifted to the monad; the sample world of the examples.
    - [Lifecycle.v]: [bookAppointment], [cancelAppointment],
      [modifyAppointment], [generateQueueNumber], [checkInPatient] and
      [generateAppointmentId], statement by statement.
    - [LifecycleProps.v]: the result and the written store of each of
      these on every branch (guards, not found, storage fault, duplicate
      id, invalid date), the queue-number format, the scenarios "cancel
      twice" and "generate twice".
    - [Safety.v]: the invariant [world_wf] of the appointment collection,
      the abstract machine [astep] on (status, queue number, checked in),
      the step relation [step] of whole service calls interleaved with
      changes of the environment, and the refinement theorem with its
      consequences (a cancellation, a queue number, a check-in are never
      undone); check-in reports the queue number it stored.
    - [Concurrency.v]: the same five services split at their [await]s
      ([Task]: done, or waiting with the code that runs when it
      resumes), a pool of requests resumed one at a time in any order,
      the proof that a handler run alone is its service of
      [Lifecycle.v], and the race of two [generateQueueNumber] requests.
    - [Availability.v]: [updateDoctorAvailability]: upsert of a schedule
      entry by date, provisioning of unknown doctors, the invariant
      "distinct dates per doctor" for string dates and its failure for
      numeric dates; the key check [schedule.hasOwnProperty(field)] and
      its [TypeError] when the body shadows [hasOwnProperty].
    - [Notify.v]: [sendNotification] and [generateNotificationId].
    - [Routes.v]: the route table of [routes/appointments.js] under the
      application stack of [server.js], first-match dispatch, and the
      handlers with their status codes.
    - [Api.v]: the boundary between the two halves: the type class
      [HttpServer] the browser code is written against, its instance
      [express_server] ([dispatch] then [handle], Express's 404 page for
      no route), the URL path Express routes on, and the contract of the
      service results, proved with [Post].
    - [Navigation.v]: the page stack of [showPage] / [goBackToPrevious] /
      [resetBookingForm] of both browser scripts, with the profile
      redirect of [somefile.js].
    - [Calendar.v]: [generateCalendar], [changeMonth], the form checks and
      request of [confirmAppointment], the queue list of [loadQueueList].
    - [Client.v]: the browser as state ([Browser]: overlay, modal,
      alerts, timers, containers, globals) and its handlers as
      computations of [CM St] over the browser and any [HttpServer]:
      [fetch], the Cancel / Modify / Check In buttons, the booking request,
      the appointment cards and the searches of both scripts, the lists
      of [somefile.js]; the tactic [client_run] executes a handler on a
      symbolic server.
    - [Session.v]: log-in, sign-up, log-out and the page load of
      [somefile.js] with [localStorage], and the stub handlers of
      [app.js].

    ** What the theorems show

    - Appointments ([Safety.v], [LifecycleProps.v]): every reachable world
      satisfies the invariant and refines the abstract machine, so a
      cancellation, an assigned queue number and a check-in are never
      undone by any interleaving of calls; a successful check-in reports
      the number stored on the record; booking rejects past times,
      duplicate ids and unparsable dates without writing; cancelling
      twice and generating a queue number twice behave as the design
      describes; [generateQueueNumber] stores and reports a number of
      the form [Q] + day of the month + suffix drawn in 1..99.
    - Overlapping requests ([Concurrency.v]): split at its [await]s and
      run alone, every appointment handler is its sequential service; two
      [generateQueueNumber] requests on one appointment that interleave
      between [findOne] and [save()] both succeed with different numbers,
      and the later save overwrites the number the first patient was
      told, a step the abstract machine forbids.
    - Availability: for string dates each doctor keeps one entry per date
      and an update overwrites it; a date sent as a JSON number never
      matches and duplicates entries (a defect of the code); a body with
      its own [hasOwnProperty] key is answered with a [TypeError].
    - Notifications: blank and non-string messages are rejected; a valid
      one stores the trimmed message under a fresh id.
    - HTTP: each documented endpoint reaches its handler; the result of
      every service is an object with a boolean [success] and a string
      [message], and the status, 200 (201 for a booking) or 400, agrees
      with [success] ([api_contract]).
    - Browser and server together ([Client.v], [Session.v]): the Cancel
      button cancels on the server and reports it, and a second press
      reports the server's refusal; for every server, the action buttons
      and the booking always end with the overlay hidden and a modal
      open; the buttons of a card follow the status; a log-in survives a
      reload; an answer without a patient leaves the page "logged in"
      with no patient (a defect); and against this server, whose routes
      do not include the log-in and sign-up paths of [somefile.js], no
      one can ever log in.
    - Front end: the navigation stack invariant and the back-button round
      trip, for both scripts; the back-button loop of [somefile.js] for a
      visitor who is not logged in; the month arrows; the calendar grid size; and the
      time-zone defect that books the previous day east of UTC, through
      the print/parse round trip of ISO dates.

    ** Bounds and approximations
    - Time is an integer number of milliseconds ([Z]); within one service
      call every [new Date()] reads the same clock value (the real calls
      are microseconds apart; no property depends on their difference).
      The time-zone offset is fixed (no daylight-saving changes).
    - [Math.random()] is a draw [k / 2^53] with [0 <= k < 2^53] (the
      granularity of V8's generator), and [Math.floor(Math.random() * n)]
      is [k * n / 2^53] computed exactly.  The floating-point rounding of the
      product is not modelled; for the factors 99 and 1000 used by the code
      the rounded product never reaches the next integer.
    - Decimal printing uses fuel [Z.log2 n + 1], which [IsoRoundtrip.v]
      proves is at least the number of decimal digits of [n]
      ([ndig_go_bounds]), so printing is exact on every integer
      ([nat_digits_fixed]).
    - The browser's [fetch] is synchronous in the model: each handler runs
      to its end before the next event; [confirm] and [prompt] answers
      are arguments; [setTimeout] callbacks are recorded, not run.
    - Strings are ASCII strings: [trim] knows the white space below code
      point 256; the date round trip is proved for the years 0 to 9999.

    ** Not modelled
    HTTP parsing ([express.json()] is taken to return the JSON the
    browser sent, [cors()], percent decoding of paths), the MongoDB
    driver's connection life cycle and [server.js] start-up,
    [process.uptime()] (a parameter of the health check), the DOM beyond
    the values the scripts display (styling, [toggleHeader], the text of
    [updateSelectedDoctorInfo], [showDoctorInfo] and [loadProfile],
    [toLocaleString] formats), and the [console].  The step relation of
    [Safety.v] interleaves whole service calls; [Concurrency.v]
    interleaves the five appointment services at their [await]s, but
    [updateDoctorAvailability] and [sendNotification] run whole, and
    the browser's requests are answered at once. *)

From stdpp Require Export base gmap strings list.
From Stdlib Require Export ZArith Lia Ascii String.

Declare Scope medqueue_scope.
Delimit Scope medqueue_scope with mq.
Open Scope Z_scope.

Create HintDb medqueue discriminated.
Create Rewrite HintDb medqueue_rw.

(** ** The state and exception monad *)

(** The outcome of a computation: a value, or a thrown JavaScript error
    carrying its [message]. *)
Inductive outcome (A : Type) : Type :=
| Ok (a : A)
| Throw (msg : string).
Arguments Ok {A} a.
Arguments Throw {A} msg.

(** A computation over the state [S]: writes performed before an
    exception stay performed, as in the real database. *)
Definition M (S A : Type) : Type := S -> outcome A * S.

Section Monad.
Context {S : Type}.

Definition ret {A} (a : A) : M S A := fun s => (Ok a, s).

Definition bind {A B} (m : M S A) (k : A -> M S B) : M S B :=
  fun s => match m s with
           | (Ok a, s') => k a s'
           | (Throw e, s') => (Throw e, s')
           end.

Definition throw {A} (e : string) : M S A := fun s => (Throw e, s).

Definition get_st : M S S := fun s => (Ok s, s).

Definition put_st (s : S) : M S unit := fun _ => (Ok tt, s).

(** [try { m } catch (error) { h(error.message) }] *)
Definition try_catch {A} (m : M S A) (h : string -> M S A) : M S A :=
  fun s => match m s with
           | (Ok a, s') => (Ok a, s')
           | (Throw e, s') => h e s'
           end.

(** Running a computation and keeping only its value or its state. *)
Definition eval {A} (m : M S A) (s : S) : outcome A := fst (m s).
Definition exec {A} (m : M S A) (s : S) : S := snd (m s).
End Monad.

Notation "x <- m ;; k" := (bind m (fun x => k))
  (at level 100, m at next level, right associativity) : medqueue_scope.
Notation "m ;;; k" := (bind m (fun _ => k))
  (at level 100, right associativity) : medqueue_scope.

Open Scope medqueue_scope.

Section MonadLaws.
Context {S : Type}.

Lemma bind_ret_l {A B} (a : A) (k : A -> M S B) : bind (ret a) k = k a.
Proof. reflexivity. Qed.

Lemma bind_throw {A B} (e : string) (k : A -> M S B) : bind (throw e) k = throw e.
Proof. reflexivity. Qed.

Lemma bind_assoc {A B C} (m : M S A) (k : A -> M S B) (h : B -> M S C) s :
  bind (bind m k) h s = bind m (fun a => bind (k a) h) s.
Proof. unfold bind. by destruct (m s) as [[a|e] s']. Qed.

(** Running a bind is running its first part and continuing in the
    state it leaves. *)
Lemma run_bind_ok {A B} (m : M S A) (k : A -> M S B) s a s' :
  m s = (Ok a, s') -> bind m k s = k a s'.
Proof. intros H. unfold bind. by rewrite H. Qed.

Lemma run_bind_throw {A B} (m : M S A) (k : A -> M S B) s e s' :
  m s = (Throw e, s') -> bind m k s = (Throw e, s').
Proof. intros H. unfold bind. by rewrite H. Qed.

Lemma run_try_ok {A} (m : M S A) h s a s' :
  m s = (Ok a, s') -> try_catch m h s = (Ok a, s').
Proof. intros H. unfold try_catch. by rewrite H. Qed.

Lemma run_try_throw {A} (m : M S A) h s e s' :
  m s = (Throw e, s') -> try_catch m h s = h e s'.
Proof. intros H. unfold try_catch. by rewrite H. Qed.
(** A computation whose handler always returns a value returns a value,
    whatever its body does: the shape of every service. *)
Lemma try_catch_total {A} (m : M S A) (h : string -> M S A) s :
  (forall e s1, exists a s2, h e s1 = (Ok a, s2)) ->
  exists a s', try_catch m h s = (Ok a, s').
Proof.
  intros Hh. unfold try_catch. destruct (m s) as [[a|e] s']; eauto.
Qed.
End MonadLaws.

#[export] Hint Rewrite @bind_ret_l @bind_throw @bind_assoc : medqueue_rw.

(** ** Postconditions

    [Post P m]: every value [m] returns, from any state, satisfies [P]
    (a computation that throws satisfies every postcondition).  The rules
    follow the structure of the code, so a shape property of a service is
    proved by walking its body. *)

Section Post.
Context {S : Type}.

Definition Post {A} (P : A -> Prop) (m : M S A) : Prop :=
  forall s a s', m s = (Ok a, s') -> P a.

Lemma post_ret {A} (P : A -> Prop) (a : A) : P a -> Post P (ret a).
Proof. intros Ha s b s' [= <- _]. done. Qed.

Lemma post_throw {A} (P : A -> Prop) (e : string) : Post P (throw e).
Proof. intros s b s' [=]. Qed.

Lemma post_true {A} (m : M S A) : Post (fun _ => True) m.
Proof. done. Qed.

Lemma post_weaken {A} (P Q : A -> Prop) (m : M S A) :
  (forall a, P a -> Q a) -> Post P m -> Post Q m.
Proof. intros HPQ Hm s a s' Hr. eapply HPQ, Hm, Hr. Qed.

(** The continuation may rely on what the first part guarantees. *)
Lemma post_bind {A B} (Q : A -> Prop) (P : B -> Prop) (m : M S A) (k : A -> M S B) :
  Post Q m -> (forall a, Q a -> Post P (k a)) -> Post P (bind m k).
Proof.
  intros Hm Hk s b s'. unfold bind. destruct (m s) as [[a|e] s1] eqn:E; [|done].
  apply (Hk a (Hm _ _ _ E)).
Qed.

Lemma post_bind_any {A B} (P : B -> Prop) (m : M S A) (k : A -> M S B) :
  (forall a, Post P (k a)) -> Post P (bind m k).
Proof. intros Hk. apply (post_bind (fun _ => True)); [apply post_true | auto]. Qed.

Lemma post_try {A} (P : A -> Prop) (m : M S A) (h : string -> M S A) :
  Post P m -> (forall e, Post P (h e)) -> Post P (try_catch m h).
Proof.
  intros Hm Hh s a s'. unfold try_catch. destruct (m s) as [[b|e] s1] eqn:E.
  - intros [= <- _]. eapply Hm, E.
  - apply Hh.
Qed.
End Post.

(** Walk a computation: binds, handlers, conditionals and matches, until
    the goals are the postcondition on the values returned. *)
Ltac post_auto :=
  repeat match goal with
  | |- Post _ (try_catch _ _) => apply post_try; [|intros ?]
  | |- Post _ (bind _ _) => apply post_bind_any; intros ?
  | |- Post _ (ret _) => apply post_ret
  | |- Post _ (throw _) => apply post_throw
  | |- Post _ (if ?b then _ else _) => destruct b
  | |- Post _ (match ?x with _ => _ end) => destruct x
  | |- Post _ (let _ := _ in _) => cbv zeta
  end.

(** ** Generic lemmas on strings *)

(** stdpp declares [String.append] [simpl never]; these two equations are
    its computation rules. *)
Lemma string_app_nil_l (s : string) : "" +:+ s = s.
Proof. reflexivity. Qed.

Lemma string_app_cons (c : ascii) (s1 s2 : string) :
  String c s1 +:+ s2 = String c (s1 +:+ s2).
Proof. reflexivity. Qed.

Lemma string_length_app (s1 s2 : string) :
  String.length (s1 +:+ s2) = (String.length s1 + String.length s2)%nat.
Proof. induction s1 as [|c s1 IH]; [done|]. rewrite string_app_cons; simpl; by rewrite IH. Qed.

Lemma string_app_assoc (s1 s2 s3 : string) :
  (s1 +:+ s2) +:+ s3 = s1 +:+ (s2 +:+ s3).
Proof. induction s1 as [|c s1 IH]; [done|]. by rewrite !string_app_cons, IH. Qed.

Lemma string_app_nil_r (s : string) : s +:+ "" = s.
Proof. induction s as [|c s IH]; [done|]. by rewrite string_app_cons, IH. Qed.

#[export] Hint Rewrite string_app_nil_l string_app_nil_r : medqueue_rw.

(** ** Tactics *)

(** Unfold one step of monadic code whose first action is known to
    succeed or throw, given the equation of that action. *)
Ltac mq_step H :=
  first [ rewrite (run_bind_ok _ _ _ _ _ H)
        | rewrite (run_bind_throw _ _ _ _ _ H)
        | rewrite (run_try_ok _ _ _ _ _ H)
        | rewrite (run_try_throw _ _ _ _ _ H) ].

(** Decide the [bool_decide] tests of guards whose outcome the context
    settles. *)
Ltac bd_simpl :=
  repeat match goal with
  | |- context [bool_decide ?P] =>
      (rewrite (bool_decide_eq_true_2 P) by (assumption || congruence)) ||
      (rewrite (bool_decide_eq_false_2 P) by (assumption || discriminate || congruence))
  end.
