(* ===== verification/JsString.v ===== *)
(** * JsString: the JavaScript string primitives the services use

    [Number.prototype.toString()] on integers (used by [generateQueueNumber]
    and by the template literals of [generateAppointmentId] and
    [generateNotificationId]), [String.prototype.padStart(2, '0')] and
    [String.prototype.trim()] (used by [sendNotification]).  Strings are
    Rocq byte strings: the characters the code handles (digits, letters,
    ASCII and Latin-1 white space) are all below code point 256. *)

From S2P Require Import Prelude.

(** ** Decimal printing of integers *)

Definition digit_char (d : Z) : ascii := ascii_of_nat (48 + Z.to_nat d).

(** [digits_go fuel n acc] prepends the decimal digits of [n >= 0] to
    [acc], least significant digit first, for at most [fuel] digits. *)
Fixpoint digits_go (fuel : nat) (n : Z) (acc : string) : string :=
  match fuel with
  | O => acc
  | S f =>
      let acc' := String (digit_char (n mod 10)) acc in
      if n <? 10 then acc' else digits_go f (n / 10) acc'
  end.

(** The fuel [log2 n + 1] is at least the number of decimal digits. *)
Definition nat_digits (n : Z) : string :=
  digits_go (S (Z.to_nat (Z.log2 n))) n "".

(** [Number.prototype.toString()] on an integral number (radix 10). *)
Definition number_to_string (n : Z) : string :=
  if n <? 0 then "-" +:+ nat_digits (- n) else nat_digits n.

(** ** [String.prototype.padStart(maxLength, fillString)] *)

Fixpoint repeat_string (s : string) (k : nat) : string :=
  match k with
  | O => ""
  | S k' => s +:+ repeat_string s k'
  end.

(** ECMAScript StringPad with placement start: no padding when the string
    is already long enough or the filler is empty; otherwise the filler
    repeated and truncated to the missing length, then the string. *)
Definition padStart (s : string) (maxLength : nat) (fillString : string) : string :=
  let len := String.length s in
  if decide (maxLength <= len)%nat then s
  else if decide (fillString = "") then s
  else String.substring 0 (maxLength - len)
         (repeat_string fillString (maxLength - len)) +:+ s.

(** [n.toString().padStart(2, '0')] *)
Definition pad2 (n : Z) : string := padStart (number_to_string n) 2 "0".

(** ** [String.prototype.trim()] *)

(** White space and line terminators of ECMAScript below code point 256:
    TAB, LF, VT, FF, CR, SPACE and NO-BREAK SPACE. *)
Definition is_js_space (c : ascii) : bool :=
  match nat_of_ascii c with
  | 9 | 10 | 11 | 12 | 13 | 32 | 160 => true
  | _ => false
  end%nat.

Fixpoint trim_start (s : string) : string :=
  match s with
  | EmptyString => EmptyString
  | String c s' => if is_js_space c then trim_start s' else s
  end.

Definition trim_end (s : string) : string := String.rev (trim_start (String.rev s)).

Definition trim (s : string) : string := trim_end (trim_start s).

Fixpoint all_space (s : string) : bool :=
  match s with
  | EmptyString => true
  | String c s' => is_js_space c && all_space s'
  end.

(** ** Digits *)

Definition is_digit (c : ascii) : bool :=
  let n := nat_of_ascii c in (48 <=? n)%nat && (n <=? 57)%nat.

Definition digit_value (c : ascii) : Z := Z.of_nat (nat_of_ascii c) - 48.

(** ** Lemmas *)

Lemma digit_char_digit (d : Z) : 0 <= d < 10 -> is_digit (digit_char d) = true.
Proof.
  intros Hd. unfold is_digit, digit_char.
  assert (d = 0 \/ d = 1 \/ d = 2 \/ d = 3 \/ d = 4 \/ d = 5 \/ d = 6 \/ d = 7
          \/ d = 8 \/ d = 9) as Hc by lia.
  repeat destruct Hc as [-> | Hc]; subst; reflexivity.
Qed.

Lemma digit_value_char (d : Z) : 0 <= d < 10 -> digit_value (digit_char d) = d.
Proof.
  intros Hd. unfold digit_value, digit_char.
  rewrite nat_ascii_embedding by lia. lia.
Qed.

#[export] Hint Resolve digit_char_digit : medqueue.
#[export] Hint Rewrite digit_value_char using lia : medqueue_rw.

Lemma nat_digits_small (n : Z) : 0 <= n < 10 -> nat_digits n = String (digit_char n) "".
Proof.
  intros Hn. unfold nat_digits.
  destruct (Z.to_nat (Z.log2 n)); simpl;
    (destruct (Z.ltb_spec n 10); [| lia]); by rewrite Z.mod_small by lia.
Qed.

Lemma nat_digits_two (n : Z) :
  10 <= n < 100 ->
  nat_digits n = String (digit_char (n / 10)) (String (digit_char (n mod 10)) "").
Proof.
  intros Hn. unfold nat_digits.
  assert (3 <= Z.log2 n) by (apply Z.log2_le_pow2; lia).
  destruct (Z.to_nat (Z.log2 n)) as [|k] eqn:Ek; [lia|].
  assert (1 <= n / 10 < 10).
  { split; [apply Z.div_le_lower_bound | apply Z.div_lt_upper_bound]; lia. }
  simpl. destruct (Z.ltb_spec n 10); [lia|].
  destruct (Z.ltb_spec (n / 10) 10); [|lia].
  by rewrite (Z.mod_small (n / 10)) by lia.
Qed.

Lemma number_to_string_nonneg (n : Z) : 0 <= n -> number_to_string n = nat_digits n.
Proof. intros Hn. unfold number_to_string. destruct (Z.ltb_spec n 0); [lia | done]. Qed.

(** [pad2] on the integers the queue-number code prints: two digits. *)
Lemma pad2_spec (n : Z) :
  0 <= n < 100 ->
  pad2 n = String (digit_char (n / 10)) (String (digit_char (n mod 10)) "").
Proof.
  intros Hn. unfold pad2. rewrite number_to_string_nonneg by lia.
  destruct (Z.ltb_spec n 10).
  - rewrite nat_digits_small by lia. rewrite Z.div_small, Z.mod_small by lia.
    reflexivity.
  - rewrite nat_digits_two by lia. reflexivity.
Qed.

Lemma trim_start_all_space (s : string) : trim_start s = "" <-> all_space s = true.
Proof.
  induction s as [|c s IH]; simpl; [done|].
  destruct (is_js_space c); simpl; [done|]. split; discriminate.
Qed.

Lemma trim_start_all_space_fix (s : string) :
  all_space (trim_start s) = true -> trim_start s = "".
Proof.
  induction s as [|c s IH]; simpl; [done|].
  destruct (is_js_space c) eqn:Ec; simpl; [done|]. by rewrite Ec.
Qed.

Lemma rev_app_all_space (s1 s2 : string) :
  all_space (String.rev_app s1 s2) = all_space s1 && all_space s2.
Proof.
  revert s2. induction s1 as [|c s1 IH]; intros s2; simpl; [done|].
  rewrite IH. simpl. by destruct (is_js_space c), (all_space s1), (all_space s2).
Qed.

Lemma rev_app_empty (s1 s2 : string) : String.rev_app s1 s2 = "" -> s1 = "" /\ s2 = "".
Proof.
  revert s2. induction s1 as [|c s1 IH]; intros s2 H; simpl in H; [done|].
  by destruct (IH _ H).
Qed.

(** [message.trim().length === 0] holds exactly when the message is made
    of white space only. *)
Lemma trim_empty_iff (s : string) : trim s = "" <-> all_space s = true.
Proof.
  unfold trim, trim_end. split.
  - intros H. apply rev_app_empty in H as [H _]. apply trim_start_all_space in H.
    unfold String.rev in H. rewrite rev_app_all_space, andb_true_r in H.
    apply trim_start_all_space, trim_start_all_space_fix, H.
  - intros H. apply trim_start_all_space in H. by rewrite H.
Qed.

Arguments number_to_string : simpl never.
Arguments pad2 : simpl never.
Arguments trim : simpl never.
