(* ===== verification/JsDate.v ===== *)
(** * JsDate: JavaScript [Date] values

    A time value is an integer number of milliseconds since the epoch, or
    [NaN] for an Invalid Date; here [jsdate := option Z] with [None] for
    [NaN].  The calendar is the proleptic Gregorian one of ECMAScript
    (section "Date Objects"), computed on day numbers with the civil
    conversions; local time is UTC shifted by a constant offset [tz] in
    milliseconds (the time-zone of the server process; daylight saving is
    not modelled).  The file gives [getDate()] (used by
    [generateQueueNumber] for the queue-number prefix), [toISOString()]
    (every result timestamp) and the ISO date-time parser of
    [new Date(string)] (used on [dateTime] and [newDateTime]). *)

From S2P Require Import Prelude JsString.

Definition jsdate := option Z.

Definition ms_per_day : Z := 86400000.

(** ** Civil calendar on day numbers (day 0 is 1970-01-01) *)

Definition civil_from_days (z0 : Z) : Z * Z * Z :=
  let z := z0 + 719468 in
  let era := z / 146097 in
  let doe := z - era * 146097 in
  let yoe := (doe - doe / 1460 + doe / 36524 - doe / 146096) / 365 in
  let y := yoe + era * 400 in
  let doy := doe - (365 * yoe + yoe / 4 - yoe / 100) in
  let mp := (5 * doy + 2) / 153 in
  let d := doy - (153 * mp + 2) / 5 + 1 in
  let m := if mp <? 10 then mp + 3 else mp - 9 in
  (if m <=? 2 then y + 1 else y, m, d).

(** [MakeDay(y, m - 1, d)]: linear in [d], so an out-of-range day
    overflows into the next month as in ECMAScript. *)
Definition days_from_civil (y0 m d : Z) : Z :=
  let y := if m <=? 2 then y0 - 1 else y0 in
  let era := y / 400 in
  let yoe := y - era * 400 in
  let doy := (153 * (if 2 <? m then m - 3 else m + 9) + 2) / 5 + d - 1 in
  let doe := yoe * 365 + yoe / 4 - yoe / 100 + doy in
  era * 146097 + doe - 719468.

Definition day_of (t : Z) : Z := t / ms_per_day.
Definition time_within_day (t : Z) : Z := t mod ms_per_day.

(** [LocalTime(t)] for the offset [tz]. *)
Definition local_time (tz t : Z) : Z := t + tz.

(** [Date.prototype.getDate()] on a valid date. *)
Definition get_date (tz t : Z) : Z :=
  let '(_, _, d) := civil_from_days (day_of (local_time tz t)) in d.

(** [TimeClip]: time values beyond 8.64e15 ms are [NaN]. *)
Definition time_clip (t : Z) : jsdate :=
  if Z.abs t <=? 8640000000000000 then Some t else None.

(** ** [Date.prototype.toISOString()] *)

Definition pad_n (k : nat) (n : Z) : string := padStart (number_to_string n) k "0".

Definition iso_year (y : Z) : string :=
  if (0 <=? y) && (y <=? 9999) then pad_n 4 y
  else if y <? 0 then "-" +:+ pad_n 6 (- y) else "+" +:+ pad_n 6 y.

(** "YYYY-MM-DDTHH:mm:ss.sssZ" of a valid time value (the code only calls
    it on dates it has just created, never on an Invalid Date). *)
Definition to_iso_string (t : Z) : string :=
  let '(y, m, d) := civil_from_days (day_of t) in
  let ms := time_within_day t in
  iso_year y +:+ "-" +:+ pad_n 2 m +:+ "-" +:+ pad_n 2 d +:+ "T" +:+
  pad_n 2 (ms / 3600000) +:+ ":" +:+ pad_n 2 (ms / 60000 mod 60) +:+ ":" +:+
  pad_n 2 (ms / 1000 mod 60) +:+ "." +:+ pad_n 3 (ms mod 1000) +:+ "Z".

(** ** The ISO date-time format of [Date.parse] *)

(** Read exactly [k] decimal digits. *)
Fixpoint read_digits (k : nat) (acc : Z) (s : string) : option (Z * string) :=
  match k with
  | O => Some (acc, s)
  | S k' =>
      match s with
      | String c s' =>
          if is_digit c then read_digits k' (acc * 10 + digit_value c) s' else None
      | EmptyString => None
      end
  end.

Definition read_char (c : ascii) (s : string) : option string :=
  match s with
  | String c' s' => if decide (c = c') then Some s' else None
  | EmptyString => None
  end.

(** The date part: [YYYY], [YYYY-MM] or [YYYY-MM-DD]; missing fields are 1. *)
Definition parse_date_part (s : string) : option (Z * Z * Z * string) :=
  '(y, r) ← read_digits 4 0 s;
  match read_char "-"%char r with
  | None => Some (y, 1, 1, r)
  | Some r1 =>
      '(m, r2) ← read_digits 2 0 r1;
      match read_char "-"%char r2 with
      | None => Some (y, m, 1, r2)
      | Some r3 => '(d, r4) ← read_digits 2 0 r3; Some (y, m, d, r4)
      end
  end.

(** [THH:mm], [THH:mm:ss] or [THH:mm:ss.sss]: milliseconds of the day. *)
Definition parse_time_part (s : string) : option (Z * Z * Z * Z * string) :=
  r0 ← read_char "T"%char s;
  '(h, r1) ← read_digits 2 0 r0;
  r2 ← read_char ":"%char r1;
  '(mi, r3) ← read_digits 2 0 r2;
  match read_char ":"%char r3 with
  | None => Some (h, mi, 0, 0, r3)
  | Some r4 =>
      '(sec, r5) ← read_digits 2 0 r4;
      match read_char "."%char r5 with
      | None => Some (h, mi, sec, 0, r5)
      | Some r6 => '(ms, r7) ← read_digits 3 0 r6; Some (h, mi, sec, ms, r7)
      end
  end.

(** The offset suffix: [Z], [+HH:mm], [-HH:mm], or nothing. *)
Definition parse_offset (s : string) : option (option Z) :=
  match s with
  | EmptyString => Some None
  | String sg r =>
      if decide (sg = "Z"%char) then
        if decide (r = "") then Some (Some 0) else None
      else if bool_decide (sg = "+"%char) || bool_decide (sg = "-"%char) then
        '(oh, r1) ← read_digits 2 0 r;
        r2 ← read_char ":"%char r1;
        '(om, r3) ← read_digits 2 0 r2;
        if decide (r3 = "") then
          Some (Some ((if decide (sg = "+"%char) then 1 else -1) * (oh * 60 + om) * 60000))
        else None
      else None
  end.

Definition valid_date_fields (m d : Z) : bool := (1 <=? m) && (m <=? 12) && (1 <=? d) && (d <=? 31).

Definition valid_time_fields (h mi sec : Z) (ms : Z) : bool :=
  ((h <? 24) && (mi <=? 59) && (sec <=? 59)) ||
  ((h =? 24) && (mi =? 0) && (sec =? 0) && (ms =? 0)).

(** A date-only form is UTC; a date-time form without offset is local time. *)
Definition parse_iso (tz : Z) (s : string) : option jsdate :=
  '(y, m, d, r) ← parse_date_part s;
  if negb (valid_date_fields m d) then None else
  let day := days_from_civil y m d in
  match r with
  | EmptyString => Some (time_clip (day * ms_per_day))
  | _ =>
      '(h, mi, sec, ms, r') ← parse_time_part r;
      if negb (valid_time_fields h mi sec ms) then None else
      off ← parse_offset r';
      let t := day * ms_per_day + h * 3600000 + mi * 60000 + sec * 1000 + ms in
      match off with
      | None => Some (time_clip (t - tz))
      | Some o => Some (time_clip (t - o))
      end
  end.

(** [new Date(string)]: a string of the ISO format is parsed by
    [parse_iso]; any other string goes to the engine's implementation
    specific fallback parser, which the environment supplies. *)
Definition date_parse (tz : Z) (legacy : string -> jsdate) (s : string) : jsdate :=
  match parse_iso tz s with
  | Some t => t
  | None => legacy s
  end.

(** ** Lemmas *)

Lemma doy_bounds (doe : Z) : 0 <= doe < 146097 ->
  let yoe := (doe - doe / 1460 + doe / 36524 - doe / 146096) / 365 in
  0 <= doe - (365 * yoe + yoe / 4 - yoe / 100) <= 365.
Proof. intros H yoe. subst yoe. Z.div_mod_to_equations; lia. Qed.

Lemma yoe_bounds (doe : Z) : 0 <= doe < 146097 ->
  let yoe := (doe - doe / 1460 + doe / 36524 - doe / 146096) / 365 in
  0 <= yoe <= 399 /\
  yoe * 365 + yoe / 4 - yoe / 100 + (doe - (365 * yoe + yoe / 4 - yoe / 100)) = doe.
Proof. intros H yoe. subst yoe. Z.div_mod_to_equations; lia. Qed.

Lemma month_day_bounds (doy : Z) : 0 <= doy <= 365 ->
  let mp := (5 * doy + 2) / 153 in
  0 <= mp <= 11 /\ 1 <= doy - (153 * mp + 2) / 5 + 1 <= 31 /\
  (153 * mp + 2) / 5 + (doy - (153 * mp + 2) / 5 + 1) - 1 = doy.
Proof. intros H mp. subst mp. Z.div_mod_to_equations; lia. Qed.

Lemma era_doe_bounds (z : Z) :
  0 <= z + 719468 - (z + 719468) / 146097 * 146097 < 146097.
Proof. Z.div_mod_to_equations; lia. Qed.

(** The civil date of every day number has a month in 1..12 and a day in
    1..31. *)
Lemma civil_from_days_bounds (z : Z) :
  let '(_, m, d) := civil_from_days z in 1 <= m <= 12 /\ 1 <= d <= 31.
Proof.
  unfold civil_from_days.
  set (era := (z + 719468) / 146097).
  set (doe := z + 719468 - era * 146097).
  assert (Hdoe : 0 <= doe < 146097) by apply era_doe_bounds.
  pose proof (doy_bounds doe Hdoe) as Hd. cbv zeta in Hd.
  set (yoe := (doe - doe / 1460 + doe / 36524 - doe / 146096) / 365) in *.
  set (doy := doe - (365 * yoe + yoe / 4 - yoe / 100)) in *.
  pose proof (month_day_bounds doy Hd) as [Hm [Hdd _]]. cbv zeta in Hm, Hdd.
  set (mp := (5 * doy + 2) / 153) in *.
  destruct (Z.ltb_spec mp 10);
    [destruct (Z.leb_spec (mp + 3) 2) | destruct (Z.leb_spec (mp - 9) 2)]; lia.
Qed.

(** The day of the month [getDate()] returns is between 1 and 31. *)
Lemma get_date_bounds (tz t : Z) : 1 <= get_date tz t <= 31.
Proof.
  unfold get_date. pose proof (civil_from_days_bounds (day_of (local_time tz t))).
  destruct (civil_from_days _) as [[y m] d]. tauto.
Qed.

#[export] Hint Resolve get_date_bounds : medqueue.

(** Converting a day number to its civil date and back gives the day
    number: the calendar used by [getDate] and [toISOString] is the one
    [new Date(string)] inverts. *)
Lemma days_from_civil_from_days (z : Z) :
  let '(y, m, d) := civil_from_days z in days_from_civil y m d = z.
Proof.
  unfold civil_from_days, days_from_civil.
  set (era := (z + 719468) / 146097).
  set (doe := z + 719468 - era * 146097).
  assert (Hdoe : 0 <= doe < 146097) by apply era_doe_bounds.
  pose proof (yoe_bounds doe Hdoe) as [Hy Hy2]. cbv zeta in Hy, Hy2.
  set (yoe := (doe - doe / 1460 + doe / 36524 - doe / 146096) / 365) in *.
  pose proof (doy_bounds doe Hdoe) as Hd. cbv zeta in Hd. fold yoe in Hd.
  set (doy := doe - (365 * yoe + yoe / 4 - yoe / 100)) in *.
  pose proof (month_day_bounds doy Hd) as [Hm [Hdd Hrec]]. cbv zeta in Hm, Hdd, Hrec.
  set (mp := (5 * doy + 2) / 153) in *.
  assert (Hera : (yoe + era * 400) / 400 = era) by (Z.div_mod_to_equations; lia).
  destruct (Z.ltb_spec mp 10).
  - destruct (Z.leb_spec (mp + 3) 2); [lia|].
    destruct (Z.leb_spec (mp + 3) 2); [lia|].
    destruct (Z.ltb_spec 2 (mp + 3)); [|lia].
    replace (mp + 3 - 3) with mp by lia. rewrite Hera.
    replace (yoe + era * 400 - era * 400) with yoe by lia. lia.
  - destruct (Z.leb_spec (mp - 9) 2); [|lia].
    destruct (Z.leb_spec (mp - 9) 2); [|lia].
    destruct (Z.ltb_spec 2 (mp - 9)); [lia|].
    replace (mp - 9 + 9) with mp by lia.
    replace (yoe + era * 400 + 1 - 1) with (yoe + era * 400) by lia.
    rewrite Hera. replace (yoe + era * 400 - era * 400) with yoe by lia. lia.
Qed.

Arguments to_iso_string : simpl never.
Arguments get_date : simpl never.
Arguments date_parse : simpl never.
