(* ===== verification/IsoRoundtrip.v ===== *)
(** * IsoRoundtrip: printing numbers and dates, and reading them back

    [toISOString] prints each field of a date with [padStart]; the date
    parser reads fixed numbers of digits back.  This file proves that the
    two agree: [pad_n k n] is the [k]-digit decimal representation of
    [n < 10^k] and [read_digits k] reads it back.  The date part of
    [toISOString()] (what the browser code keeps with [.split('T')[0]])
    is the [YYYY-MM-DD] of the UTC day ([split_to_iso_string]), and a
    date-time [YYYY-MM-DDTHH:mm:00] without offset is parsed as local
    time ([parse_iso_local]); [Calendar.v] composes the two.  The digit
    loop [digits_go] of [Number.prototype.toString] prints all the digits
    within the fuel [nat_digits] gives it ([ndig_go_bounds],
    [nat_digits_fixed]). *)

From S2P Require Import Prelude JsString JsDate.

(** [s.split(c)[0]]: the part of [s] before the first [c]. *)
Fixpoint split_first (c : ascii) (s : string) : string :=
  match s with
  | EmptyString => EmptyString
  | String c' s' => if bool_decide (c = c') then EmptyString else String c' (split_first c s')
  end.

(** The last [k] decimal digits of [n], most significant first. *)
Fixpoint fixed_digits (k : nat) (n : Z) : string :=
  match k with
  | O => ""
  | S k' => String (digit_char ((n / 10 ^ Z.of_nat k') mod 10)) (fixed_digits k' n)
  end.

(** The number of digits [digits_go] prints with the given fuel. *)
Fixpoint ndig_go (fuel : nat) (n : Z) : nat :=
  match fuel with
  | O => O
  | S f => if n <? 10 then 1%nat else S (ndig_go f (n / 10))
  end.

(** ** Digits *)

Lemma fixed_digits_length (k : nat) (n : Z) : String.length (fixed_digits k n) = k.
Proof. induction k as [|k IH]; simpl; congruence. Qed.

Lemma fixed_digits_snoc (k : nat) (n : Z) : 0 <= n ->
  fixed_digits (S k) n = fixed_digits k (n / 10) +:+ String (digit_char (n mod 10)) "".
Proof.
  intros Hn. induction k as [|k IH]; [simpl; by rewrite Z.div_1_r|].
  change (fixed_digits (S (S k)) n) with
    (String (digit_char ((n / 10 ^ Z.of_nat (S k)) mod 10)) (fixed_digits (S k) n)).
  rewrite IH. simpl. rewrite string_app_cons. do 2 f_equal.
  rewrite Z.div_div by (try apply Z.pow_pos_nonneg; lia).
  rewrite Nat2Z.inj_succ, Z.pow_succ_r by lia. by rewrite Z.mul_comm.
Qed.

Lemma digits_go_fixed (fuel : nat) (n : Z) (acc : string) : 0 <= n ->
  digits_go fuel n acc = fixed_digits (ndig_go fuel n) n +:+ acc.
Proof.
  revert n acc. induction fuel as [|f IH]; intros n acc Hn; simpl; [done|].
  destruct (Z.ltb_spec n 10).
  - simpl. by rewrite Z.div_1_r.
  - rewrite IH by (apply Z.div_pos; lia).
    rewrite (fixed_digits_snoc _ n Hn), string_app_assoc. done.
Qed.

(** The fuel of [nat_digits] is enough: the digits printed are all of them. *)
Lemma ndig_go_bounds (fuel : nat) (n : Z) :
  0 <= n < 2 ^ Z.of_nat fuel ->
  n < 10 ^ Z.of_nat (ndig_go fuel n) /\
  (ndig_go fuel n = 1%nat \/ 10 ^ (Z.of_nat (ndig_go fuel n) - 1) <= n) /\
  (1 <= ndig_go fuel n \/ fuel = O)%nat.
Proof.
  revert n. induction fuel as [|f IH]; intros n Hn; simpl.
  - simpl in Hn. lia.
  - destruct (Z.ltb_spec n 10); [simpl; lia|].
    rewrite Nat2Z.inj_succ, Z.pow_succ_r in Hn by lia.
    destruct (IH (n / 10)) as (Hlt & Hge & Hpos).
    { split; [apply Z.div_pos; lia|]. apply Z.div_lt_upper_bound; lia. }
    assert (Hnd : (1 <= ndig_go f (n / 10))%nat).
    { destruct Hpos as [? | ->]; [done|]. simpl in Hn. lia. }
    rewrite Nat2Z.inj_succ, Z.pow_succ_r by lia.
    split; [|split; [right|lia]].
    + assert (n / 10 + 1 <= 10 ^ Z.of_nat (ndig_go f (n / 10))) by lia.
      Z.div_mod_to_equations. lia.
    + replace (Z.succ (Z.of_nat (ndig_go f (n / 10))) - 1) with (Z.of_nat (ndig_go f (n / 10))) by lia.
      destruct Hge as [Hone | Hge].
      * rewrite Hone. simpl. lia.
      * assert (10 ^ Z.of_nat (ndig_go f (n / 10)) = 10 * 10 ^ (Z.of_nat (ndig_go f (n / 10)) - 1)) as ->.
        { rewrite <- Z.pow_succ_r by lia. f_equal. lia. }
        Z.div_mod_to_equations. lia.
Qed.

Definition ndig (n : Z) : nat := ndig_go (S (Z.to_nat (Z.log2 n))) n.

Lemma nat_digits_fixed (n : Z) : 0 <= n -> nat_digits n = fixed_digits (ndig n) n.
Proof.
  intros Hn. unfold nat_digits, ndig. rewrite digits_go_fixed by done. apply string_app_nil_r.
Qed.

Lemma ndig_bounds (n : Z) : 0 <= n ->
  n < 10 ^ Z.of_nat (ndig n) /\ (ndig n = 1%nat \/ 10 ^ (Z.of_nat (ndig n) - 1) <= n) /\
  (1 <= ndig n)%nat.
Proof.
  intros Hn. unfold ndig.
  assert (Hfuel : 0 <= n < 2 ^ Z.of_nat (S (Z.to_nat (Z.log2 n)))).
  { rewrite Nat2Z.inj_succ, Z2Nat.id by apply Z.log2_nonneg.
    destruct (Z.eq_dec n 0) as [->|Hn0]; [simpl; lia|].
    pose proof (Z.log2_spec n ltac:(lia)). rewrite Z.pow_succ_r in * by apply Z.log2_nonneg. lia. }
  destruct (ndig_go_bounds _ n Hfuel) as (H1 & H2 & [H3 | H3]); [done | done].
Qed.

Lemma ndig_le (n : Z) (k : nat) : 0 <= n < 10 ^ Z.of_nat k -> (1 <= k)%nat -> (ndig n <= k)%nat.
Proof.
  intros Hn Hk. destruct (ndig_bounds n (proj1 Hn)) as (_ & [-> | Hge] & _); [done|].
  assert (Z.of_nat (ndig n) - 1 < Z.of_nat k); [|lia].
  apply (Z.pow_lt_mono_r_iff 10); [lia | lia | lia].
Qed.

Lemma substring_full (s : string) : String.substring 0 (String.length s) s = s.
Proof. induction s as [|c s IH]; simpl; congruence. Qed.

Lemma repeat_zero_fixed (j : nat) : repeat_string "0" j = fixed_digits j 0.
Proof.
  induction j as [|j IH]; simpl; [done|]. rewrite IH, Z.div_0_l; [done|].
  apply Z.pow_nonzero; lia.
Qed.

Lemma zeros_app_fixed (z j : nat) (n : Z) : 0 <= n < 10 ^ Z.of_nat j ->
  fixed_digits z 0 +:+ fixed_digits j n = fixed_digits (z + j) n.
Proof.
  intros Hn. induction z as [|z IH]; [done|]. simpl. rewrite string_app_cons, IH.
  rewrite Z.div_0_l by (apply Z.pow_nonzero; lia).
  rewrite (Z.div_small n) by (split; [lia|]; eapply Z.lt_le_trans; [apply Hn|];
                              apply Z.pow_le_mono_r; lia).
  done.
Qed.

(** [n.toString().padStart(k, '0')] is the [k]-digit representation of
    [0 <= n < 10^k]. *)
Lemma pad_n_fixed (k : nat) (n : Z) : 0 <= n < 10 ^ Z.of_nat k -> (1 <= k)%nat ->
  pad_n k n = fixed_digits k n.
Proof.
  intros Hn Hk. unfold pad_n, padStart.
  rewrite number_to_string_nonneg, nat_digits_fixed, fixed_digits_length by lia.
  pose proof (ndig_le n k Hn Hk) as Hle. destruct (ndig_bounds n (proj1 Hn)) as (Hlt & _ & _).
  case_decide.
  - by replace k with (ndig n) by lia.
  - rewrite decide_False by done.
    rewrite <- (fixed_digits_length (k - ndig n) 0) at 1.
    rewrite repeat_zero_fixed, substring_full, zeros_app_fixed by lia.
    f_equal. lia.
Qed.

Lemma read_digits_cons (k : nat) (acc : Z) (c : ascii) (s : string) :
  read_digits (S k) acc (String c s) =
    if is_digit c then read_digits k (acc * 10 + digit_value c) s else None.
Proof. reflexivity. Qed.

(** Reading [k] digits back. *)
Lemma read_digits_fixed (k : nat) (acc n : Z) (r : string) : 0 <= n ->
  read_digits k acc (fixed_digits k n +:+ r) = Some (acc * 10 ^ Z.of_nat k + n mod 10 ^ Z.of_nat k, r).
Proof.
  intros Hn. revert acc. induction k as [|k IH]; intros acc.
  - simpl. rewrite Z.mod_1_r. f_equal. f_equal. lia.
  - simpl fixed_digits. rewrite string_app_cons, read_digits_cons.
    pose proof (Z.mod_pos_bound (n / 10 ^ Z.of_nat k) 10 ltac:(lia)) as Hd.
    rewrite digit_char_digit, digit_value_char, IH by lia. do 2 f_equal.
    rewrite Nat2Z.inj_succ, Z.pow_succ_r by lia.
    rewrite (Z.mul_comm 10 (10 ^ Z.of_nat k)), Z.rem_mul_r by (try apply Z.pow_nonzero; lia).
    lia.
Qed.

Arguments fixed_digits : simpl never.
Arguments digit_char : simpl never.

(** ** The date part of [toISOString()] *)

(** "YYYY-MM-DD" *)
Definition iso_date_part (y m d : Z) : string :=
  fixed_digits 4 y +:+ "-" +:+ fixed_digits 2 m +:+ "-" +:+ fixed_digits 2 d.

Lemma digit_char_not_T (x : Z) : 0 <= x < 10 -> digit_char x <> "T"%char.
Proof. intros Hx Heq. pose proof (digit_char_digit x Hx) as Hd. rewrite Heq in Hd. discriminate. Qed.

Lemma split_first_cons (c : ascii) (s : string) : c <> "T"%char ->
  split_first "T" (String c s) = String c (split_first "T" s).
Proof. intros Hc. simpl. rewrite bool_decide_eq_false_2 by congruence. done. Qed.

Lemma split_first_T (s : string) : split_first "T" (String "T" s) = "".
Proof. reflexivity. Qed.

Lemma split_first_fixed (k : nat) (n : Z) (r : string) :
  split_first "T" (fixed_digits k n +:+ r) = fixed_digits k n +:+ split_first "T" r.
Proof.
  induction k as [|k IH]; [done|]. unfold fixed_digits; fold fixed_digits.
  rewrite !string_app_cons, split_first_cons, IH; [done|].
  apply digit_char_not_T, Z.mod_pos_bound. lia.
Qed.

(** [date.toISOString().split('T')[0]] is the UTC civil date of [date],
    for the years [toISOString] prints with four digits. *)
Lemma split_to_iso_string (t y m d : Z) :
  civil_from_days (day_of t) = (y, m, d) -> 0 <= y <= 9999 ->
  split_first "T" (to_iso_string t) = iso_date_part y m d.
Proof.
  intros Hc Hy. pose proof (civil_from_days_bounds (day_of t)) as Hb. rewrite Hc in Hb.
  unfold to_iso_string. rewrite Hc. unfold iso_year.
  rewrite (proj2 (andb_true_iff _ _) (conj (proj2 (Z.leb_le _ _) (proj1 Hy)) (proj2 (Z.leb_le _ _) (proj2 Hy)))).
  rewrite !pad_n_fixed by (simpl; lia).
  unfold iso_date_part.
  repeat first [ rewrite split_first_fixed | rewrite string_app_cons | rewrite string_app_nil_l
               | rewrite split_first_cons by discriminate ].
  rewrite split_first_T, string_app_nil_r. reflexivity.
Qed.

Lemma read_char_cons (c : ascii) (s : string) : read_char c (String c s) = Some s.
Proof. unfold read_char. by rewrite decide_True. Qed.

Lemma read_digits_fixed_small (k : nat) (n : Z) (r : string) :
  0 <= n < 10 ^ Z.of_nat k -> read_digits k 0 (fixed_digits k n +:+ r) = Some (n, r).
Proof. intros Hn. rewrite read_digits_fixed by lia. by rewrite Z.mod_small. Qed.

(** Reading back "YYYY-MM-DD". *)
Lemma parse_date_part_iso (y m d : Z) (r : string) :
  0 <= y < 10000 -> 0 <= m < 100 -> 0 <= d < 100 ->
  parse_date_part (iso_date_part y m d +:+ r) = Some (y, m, d, r).
Proof.
  intros Hy Hm Hd. unfold parse_date_part, iso_date_part. rewrite !string_app_assoc.
  rewrite read_digits_fixed_small by (simpl; lia). cbv beta iota delta [mbind option_bind].
  rewrite string_app_cons, read_char_cons, string_app_nil_l.
  rewrite read_digits_fixed_small by (simpl; lia).
  rewrite string_app_cons, read_char_cons, string_app_nil_l.
  rewrite read_digits_fixed_small by (simpl; lia). reflexivity.
Qed.

Lemma valid_date_fields_true (m d : Z) : 1 <= m <= 12 -> 1 <= d <= 31 -> valid_date_fields m d = true.
Proof. intros Hm Hd. unfold valid_date_fields. repeat (apply andb_true_iff; split); apply Z.leb_le; lia. Qed.

(** "YYYY-MM-DDTHH:mm:00", a date-time without offset, is local time:
    the parser subtracts the time-zone offset. *)
Lemma parse_iso_local (tz y m d h mi : Z) :
  0 <= y <= 9999 -> 1 <= m <= 12 -> 1 <= d <= 31 -> 0 <= h < 24 -> 0 <= mi < 60 ->
  parse_iso tz (iso_date_part y m d +:+ "T" +:+ fixed_digits 2 h +:+ ":" +:+ fixed_digits 2 mi +:+ ":00") =
    Some (time_clip (days_from_civil y m d * ms_per_day + h * 3600000 + mi * 60000 - tz)).
Proof.
  intros Hy Hm Hd Hh Hmi. unfold parse_iso. rewrite parse_date_part_iso by lia.
  cbv beta iota delta [mbind option_bind]. rewrite valid_date_fields_true by lia. simpl negb. cbv iota.
  unfold parse_time_part. rewrite string_app_cons, string_app_nil_l, read_char_cons.
  cbv beta iota delta [mbind option_bind].
  rewrite read_digits_fixed_small by (simpl; lia).
  rewrite string_app_cons, read_char_cons, string_app_nil_l.
  rewrite read_digits_fixed_small by (simpl; lia).
  change (read_char ":" ":00") with (Some "00"). cbv beta iota.
  change (read_digits 2 0 "00") with (Some (0, "")). cbv beta iota.
  change (read_char "." "") with (@None string). cbv beta iota.
  replace (valid_time_fields h mi 0 0) with true.
  - simpl negb. cbv iota. change (parse_offset "") with (Some (@None Z)). cbv iota.
    apply (f_equal (fun x => Some (time_clip x))). lia.
  - symmetry. unfold valid_time_fields. apply orb_true_iff. left.
    repeat (apply andb_true_iff; split); first [apply Z.ltb_lt | apply Z.leb_le]; lia.
Qed.
