(* ===== verification/Json.v ===== *)
(** * Json: JavaScript values that cross the HTTP boundary

    Request bodies are parsed by [express.json()] ([JSON.parse]) and
    route parameters are strings; every service returns a plain object
    that the route serializes with [res.json].  Both are modelled by
    [jsval].  Numbers are integers (the code only compares, prints and
    stores them).  The file gives JavaScript truthiness ([!x]), [typeof],
    property access and [hasOwnProperty] on parsed objects (the last of
    duplicated keys wins, as in [JSON.parse]), [String(v)], and the
    conversion [new Date(v)] of one argument. *)

From S2P Require Import Prelude JsString JsDate.

Set Warnings "-register-all".

Inductive jsval : Type :=
| JUndefined
| JNull
| JBool (b : bool)
| JNum (n : Z)
| JStr (s : string)
| JArr (items : list jsval)
| JObj (fields : list (string * jsval)).

(** [!!v]: [false] for [undefined], [null], [false], [0] and [""]. *)
Definition truthy (v : jsval) : bool :=
  match v with
  | JUndefined | JNull => false
  | JBool b => b
  | JNum n => negb (n =? 0)
  | JStr s => negb (bool_decide (s = ""))
  | JArr _ | JObj _ => true
  end.

Definition typeof (v : jsval) : string :=
  match v with
  | JUndefined => "undefined"
  | JNull | JArr _ | JObj _ => "object"
  | JBool _ => "boolean"
  | JNum _ => "number"
  | JStr _ => "string"
  end.

(** The value of the last field named [k]. *)
Fixpoint assoc_last (k : string) (fs : list (string * jsval)) : option jsval :=
  match fs with
  | [] => None
  | (k', v) :: fs' =>
      match assoc_last k fs' with
      | Some w => Some w
      | None => if bool_decide (k = k') then Some v else None
      end
  end.

(** [obj.k], [undefined] when absent (non-index keys of arrays are absent). *)
Definition get_prop (v : jsval) (k : string) : jsval :=
  match v with
  | JObj fs => default JUndefined (assoc_last k fs)
  | _ => JUndefined
  end.

(** [obj.hasOwnProperty(k)] for a key that is neither an array index nor
    [length]. *)
Definition has_own_property (v : jsval) (k : string) : bool :=
  match v with
  | JObj fs => bool_decide (is_Some (assoc_last k fs))
  | _ => false
  end.

Definition bool_to_string (b : bool) : string := if b then "true" else "false".

(** [String(v)]: arrays join their elements with commas, [null] and
    [undefined] elements printing as empty. *)
Fixpoint js_to_string (v : jsval) : string :=
  match v with
  | JUndefined => "undefined"
  | JNull => "null"
  | JBool b => bool_to_string b
  | JNum n => number_to_string n
  | JStr s => s
  | JArr items =>
      let fix join (l : list jsval) : string :=
        match l with
        | [] => ""
        | [x] => match x with JUndefined | JNull => "" | _ => js_to_string x end
        | x :: l' =>
            (match x with JUndefined | JNull => "" | _ => js_to_string x end)
              +:+ "," +:+ join l'
        end in
      join items
  | JObj _ => "[object Object]"
  end.

(** [new Date(v)] with one argument: a primitive string is parsed, a
    number is clipped, other primitives are converted to numbers, objects
    are converted to strings first. *)
Definition new_date (tz : Z) (legacy : string -> jsdate) (v : jsval) : jsdate :=
  match v with
  | JStr s => date_parse tz legacy s
  | JNum n => time_clip n
  | JBool b => time_clip (if b then 1 else 0)
  | JNull => time_clip 0
  | JUndefined => None
  | JArr _ | JObj _ => date_parse tz legacy (js_to_string v)
  end.

(** The [success] flag of a service result. *)
Definition result_success (r : jsval) : bool := truthy (get_prop r "success").

Definition result_message (r : jsval) : jsval := get_prop r "message".

(** ** Lemmas *)

Lemma truthy_str (s : string) : truthy (JStr s) = true <-> s <> "".
Proof. simpl. rewrite negb_true_iff, bool_decide_eq_false. done. Qed.

Lemma assoc_last_snoc (k : string) (v : jsval) (fs : list (string * jsval)) :
  assoc_last k (fs ++ [(k, v)]) = Some v.
Proof.
  induction fs as [|[k' w] fs IH]; simpl.
  - by rewrite bool_decide_eq_true_2.
  - by rewrite IH.
Qed.

(** A key written last is the one read. *)
Lemma get_prop_last (k : string) (v : jsval) (fs : list (string * jsval)) :
  get_prop (JObj (fs ++ [(k, v)])) k = v.
Proof. simpl. by rewrite assoc_last_snoc. Qed.

#[export] Hint Rewrite get_prop_last : medqueue_rw.

Arguments new_date : simpl never.

(** [a === b]: primitives compare by value; two objects parsed from
    different requests are never the same object. *)
Definition js_strict_eq (a b : jsval) : bool :=
  match a, b with
  | JUndefined, JUndefined | JNull, JNull => true
  | JBool x, JBool y => bool_decide (x = y)
  | JNum x, JNum y => x =? y
  | JStr x, JStr y => bool_decide (x = y)
  | _, _ => false
  end.
