(* ===== verification/Mongoose.v ===== *)
(** * Mongoose: documents, casting, validation and [save]

    What the services rely on from the document-mapping library, modelled
    as it behaves:
    - a schema is an instance of the type class [Model]: its record type,
      its unique key, the paths the code assigns ([Field]), how to copy
      one path from a record into another, validation, and the
      [timestamps: true] stamping of [createdAt] / [updatedAt];
    - a document is a record together with [isNew] and the list of
      modified paths; [doc_set] is [doc.path = v], which marks the path
      only when the value changes;
    - [save_doc] of a new document validates it and inserts it, failing
      on a duplicate unique key; [save_doc] of a loaded document with no
      modified path does nothing; otherwise it validates and writes only
      the modified paths onto the stored record (the [$set] of
      [updateOne]) and stamps [updatedAt];
    - [find_one] returns a fresh loaded copy of the stored record;
    - [cast_string] is the [String] schema type's cast and [required]
      check.
    The error messages keep the shape of Mongoose's messages (model name,
    path, reason); the quoted value descriptions are left out. *)

From S2P Require Import Prelude JsString Json.

(** ** The interface a schema implements *)

Class Model (T : Type) := {
  model_name : string;
  key_of : T -> string;
  Field : Type;
  copy_field : Field -> T -> T -> T;
  field_equal : Field -> T -> T -> bool;
  validate : T -> option string;
  stamp : Z -> bool -> T -> T
}.

(** The laws the generic lemmas use: copying a path or stamping never
    changes the unique key. *)
Class ModelLaws (T : Type) `{Model T} := {
  key_copy_field f src dst : key_of (copy_field f src dst) = key_of dst;
  key_stamp now is_new v : key_of (stamp now is_new v) = key_of v
}.

(** ** Documents *)

Record Doc (T : Type) `{Model T} := mkDoc {
  doc_val : T;
  doc_is_new : bool;
  doc_modified : list Field
}.
Arguments mkDoc {T _} _ _ _.
Arguments doc_val {T _} _.
Arguments doc_is_new {T _} _.
Arguments doc_modified {T _} _.

Section Documents.
Context {T : Type} `{Model T}.

(** [new Model({...})] *)
Definition new_doc (v : T) : Doc T := mkDoc v true [].

(** A document as [findOne] hands it out. *)
Definition loaded_doc (v : T) : Doc T := mkDoc v false [].

(** [doc.path = value]: the path is marked modified only when the value
    differs from the document's current one. *)
Definition doc_set (f : Field) (upd : T -> T) (d : Doc T) : Doc T :=
  let v' := upd (doc_val d) in
  mkDoc v' (doc_is_new d)
    (if field_equal f (doc_val d) v' then doc_modified d else f :: doc_modified d).

(** [Model.findOne({ key })] *)
Definition find_one (k : string) (c : gmap string T) : option (Doc T) :=
  loaded_doc <$> c !! k.

Definition apply_modified (src : T) (fs : list Field) (stored : T) : T :=
  foldr (fun f acc => copy_field f src acc) stored fs.

Definition validation_message (e : string) : string :=
  model_name +:+ " validation failed: " +:+ e.

Definition duplicate_key_message (k : string) : string :=
  "E11000 duplicate key error collection: " +:+ model_name +:+ " dup key: " +:+ k.

Definition not_found_message (k : string) : string :=
  "No document found for query " +:+ k +:+ " on model " +:+ model_name.

(** [await doc.save()] at time [now] on the collection [c]. *)
Definition save_doc (now : Z) (d : Doc T) (c : gmap string T) :
    outcome (Doc T) * gmap string T :=
  if doc_is_new d then
    match validate (doc_val d) with
    | Some e => (Throw (validation_message e), c)
    | None =>
        let v := stamp now true (doc_val d) in
        match c !! key_of v with
        | Some _ => (Throw (duplicate_key_message (key_of v)), c)
        | None => (Ok (loaded_doc v), <[key_of v := v]> c)
        end
    end
  else
    match doc_modified d with
    | [] => (Ok d, c)
    | fs =>
        match validate (doc_val d) with
        | Some e => (Throw (validation_message e), c)
        | None =>
            let k := key_of (doc_val d) in
            match c !! k with
            | None => (Throw (not_found_message k), c)
            | Some stored =>
                (Ok (loaded_doc (stamp now false (doc_val d))),
                 <[k := stamp now false (apply_modified (doc_val d) fs stored)]> c)
            end
        end
    end.
End Documents.

(** ** Casting and the [required] validator of [String] paths *)

Inductive cast_res (A : Type) : Type :=
| CastOk (a : A)
| CastNull
| CastErr.
Arguments CastOk {A} a.
Arguments CastNull {A}.
Arguments CastErr {A}.

(** Mongoose's [castString]: [null] and [undefined] stay absent, a
    document-like object with a string [_id] gives that id, arrays and
    plain objects fail, other primitives use their [toString()]. *)
Definition cast_string (v : jsval) : cast_res string :=
  match v with
  | JUndefined | JNull => CastNull
  | JStr s => CastOk s
  | JNum n => CastOk (number_to_string n)
  | JBool b => CastOk (bool_to_string b)
  | JArr _ => CastErr
  | JObj _ =>
      match get_prop v "_id" with
      | JStr s => if bool_decide (s = "") then CastErr else CastOk s
      | _ => CastErr
      end
  end.

(** The stored value of a [required: true] string path, or the message
    of its validation error ([required] rejects the empty string). *)
Definition required_string (path : string) (v : jsval) : string + string :=
  match cast_string v with
  | CastOk s => if bool_decide (s = "") then inl ("Path " +:+ path +:+ " is required.") else inr s
  | CastNull => inl ("Path " +:+ path +:+ " is required.")
  | CastErr => inl ("Cast to string failed at path " +:+ path)
  end.

(** ** Laws of [save_doc] *)

Section SaveLaws.
Context {T : Type} `{ModelLaws T}.

Lemma find_one_Some (k : string) (c : gmap string T) (d : Doc T) :
  find_one k c = Some d <-> exists v, c !! k = Some v /\ d = loaded_doc v.
Proof.
  unfold find_one. rewrite fmap_Some. naive_solver.
Qed.

(** A valid new document with a fresh key is inserted. *)
Lemma save_new_fresh (now : Z) (v : T) (c : gmap string T) :
  validate v = None -> c !! key_of v = None ->
  save_doc now (new_doc v) c =
    (Ok (loaded_doc (stamp now true v)), <[key_of v := stamp now true v]> c).
Proof.
  intros Hv Hk. unfold save_doc. simpl. rewrite Hv, key_stamp, Hk. reflexivity.
Qed.

(** A new document whose key is taken is rejected and the collection is
    left as it was: [save] never overwrites through the unique index. *)
Lemma save_new_taken (now : Z) (v w : T) (c : gmap string T) :
  validate v = None -> c !! key_of v = Some w ->
  save_doc now (new_doc v) c = (Throw (duplicate_key_message (key_of v)), c).
Proof.
  intros Hv Hk. unfold save_doc. simpl. rewrite Hv, key_stamp, Hk. reflexivity.
Qed.

(** Saving a document with no modified path writes nothing. *)
Lemma save_unmodified (now : Z) (v : T) (c : gmap string T) :
  save_doc now (loaded_doc v) c = (Ok (loaded_doc v), c).
Proof. reflexivity. Qed.

(** Saving a loaded document with modified paths updates only its own
    key, by copying those paths onto the stored record. *)
Lemma save_loaded (now : Z) (v stored : T) (fs : list Field) (c : gmap string T) :
  fs <> [] -> validate v = None -> c !! key_of v = Some stored ->
  save_doc now (mkDoc v false fs) c =
    (Ok (loaded_doc (stamp now false v)),
     <[key_of v := stamp now false (apply_modified v fs stored)]> c).
Proof.
  intros Hfs Hv Hk. unfold save_doc. simpl.
  destruct fs as [|f fs]; [done|]. by rewrite Hv, Hk.
Qed.

Lemma key_apply_modified (src stored : T) (fs : list Field) :
  key_of (apply_modified src fs stored) = key_of stored.
Proof.
  induction fs as [|f fs IH]; simpl; [done|]. by rewrite key_copy_field.
Qed.

(** Whatever its outcome, a save changes at most the entry of the
    document's own key. *)
Lemma save_doc_other (now : Z) (d : Doc T) (c : gmap string T) (k : string) :
  k <> key_of (doc_val d) ->
  (snd (save_doc now d c)) !! k = c !! k.
Proof.
  intros Hk. unfold save_doc.
  destruct (doc_is_new d).
  - destruct (validate _); [done|]. rewrite key_stamp.
    destruct (c !! _); [done|]. simpl. by rewrite lookup_insert_ne.
  - destruct (doc_modified d); [done|]. destruct (validate _); [done|].
    destruct (c !! _); [|done]. simpl. by rewrite lookup_insert_ne.
Qed.
End SaveLaws.

#[export] Hint Resolve save_new_fresh save_new_taken save_loaded : medqueue.
#[export] Hint Rewrite @save_unmodified @key_apply_modified : medqueue_rw.

(** Mongoose's [castBoolean]: the values of [convertToTrue] and
    [convertToFalse], [null] kept, anything else a cast error. *)
Definition cast_boolean (path : string) (v : jsval) : string + option bool :=
  match v with
  | JBool b => inr (Some b)
  | JNum 1 => inr (Some true)
  | JNum 0 => inr (Some false)
  | JStr s =>
      if bool_decide (s = "true") || bool_decide (s = "1") || bool_decide (s = "yes")
      then inr (Some true)
      else if bool_decide (s = "false") || bool_decide (s = "0") || bool_decide (s = "no")
      then inr (Some false)
      else inl ("Cast to Boolean failed at path " +:+ path)
  | JNull | JUndefined => inr None
  | _ => inl ("Cast to Boolean failed at path " +:+ path)
  end.
