(* ===== verification/Schemas.v ===== *)
(** * Schemas: the three collections of [src/backend/models]

    Each schema is a record with one field per path, a [Model] instance
    (its unique key, the paths the services assign, validation and
    timestamps) and the [ModelLaws] the generic [save] lemmas need.  A
    path whose value came from a request and may fail to cast or to pass
    [required] holds [inl message] until validation rejects it; a stored
    record only ever holds [inr value] there. *)

From S2P Require Import Prelude JsString JsDate Json Mongoose.

(** A path value that either passed its cast or carries its error. *)
Definition checked (A : Type) : Type := (string + A)%type.

Definition first_error (l : list (option string)) : option string :=
  match omap id l with
  | [] => None
  | e :: _ => Some e
  end.

Definition check_error {A} (c : checked A) : option string :=
  match c with inl e => Some e | inr _ => None end.

(** ** [models/Appointment.js] *)

Inductive Status : Type := Confirmed | Cancelled | Completed | NoShow.

#[export] Instance Status_eq_dec : EqDecision Status.
Proof. solve_decision. Defined.

Definition status_to_string (s : Status) : string :=
  match s with
  | Confirmed => "confirmed"
  | Cancelled => "cancelled"
  | Completed => "completed"
  | NoShow => "no-show"
  end.

Record Appointment : Type := mkAppointment {
  appointmentId : string;
  patientId : checked string;
  doctorId : checked string;
  dateTime : jsdate;
  status : Status;
  queueNumber : option string;
  checkedIn : bool;
  checkedInAt : option Z;
  bookedAt : Z;
  modifiedAt : option Z;
  cancelledAt : option Z;
  a_createdAt : Z;
  a_updatedAt : Z
}.

(** The paths [core-functions-db.js] assigns on a loaded appointment. *)
Inductive AField : Type :=
| FDateTime | FStatus | FQueueNumber | FCheckedIn | FCheckedInAt
| FModifiedAt | FCancelledAt.

#[export] Instance AField_eq_dec : EqDecision AField.
Proof. solve_decision. Defined.

Definition with_dateTime (x : jsdate) (a : Appointment) : Appointment :=
  mkAppointment a.(appointmentId) a.(patientId) a.(doctorId) x a.(status)
    a.(queueNumber) a.(checkedIn) a.(checkedInAt) a.(bookedAt) a.(modifiedAt)
    a.(cancelledAt) a.(a_createdAt) a.(a_updatedAt).
Definition with_status (x : Status) (a : Appointment) : Appointment :=
  mkAppointment a.(appointmentId) a.(patientId) a.(doctorId) a.(dateTime) x
    a.(queueNumber) a.(checkedIn) a.(checkedInAt) a.(bookedAt) a.(modifiedAt)
    a.(cancelledAt) a.(a_createdAt) a.(a_updatedAt).
Definition with_queueNumber (x : option string) (a : Appointment) : Appointment :=
  mkAppointment a.(appointmentId) a.(patientId) a.(doctorId) a.(dateTime) a.(status)
    x a.(checkedIn) a.(checkedInAt) a.(bookedAt) a.(modifiedAt)
    a.(cancelledAt) a.(a_createdAt) a.(a_updatedAt).
Definition with_checkedIn (x : bool) (a : Appointment) : Appointment :=
  mkAppointment a.(appointmentId) a.(patientId) a.(doctorId) a.(dateTime) a.(status)
    a.(queueNumber) x a.(checkedInAt) a.(bookedAt) a.(modifiedAt)
    a.(cancelledAt) a.(a_createdAt) a.(a_updatedAt).
Definition with_checkedInAt (x : option Z) (a : Appointment) : Appointment :=
  mkAppointment a.(appointmentId) a.(patientId) a.(doctorId) a.(dateTime) a.(status)
    a.(queueNumber) a.(checkedIn) x a.(bookedAt) a.(modifiedAt)
    a.(cancelledAt) a.(a_createdAt) a.(a_updatedAt).
Definition with_modifiedAt (x : option Z) (a : Appointment) : Appointment :=
  mkAppointment a.(appointmentId) a.(patientId) a.(doctorId) a.(dateTime) a.(status)
    a.(queueNumber) a.(checkedIn) a.(checkedInAt) a.(bookedAt) x
    a.(cancelledAt) a.(a_createdAt) a.(a_updatedAt).
Definition with_cancelledAt (x : option Z) (a : Appointment) : Appointment :=
  mkAppointment a.(appointmentId) a.(patientId) a.(doctorId) a.(dateTime) a.(status)
    a.(queueNumber) a.(checkedIn) a.(checkedInAt) a.(bookedAt) a.(modifiedAt)
    x a.(a_createdAt) a.(a_updatedAt).
Definition with_a_timestamps (c u : Z) (a : Appointment) : Appointment :=
  mkAppointment a.(appointmentId) a.(patientId) a.(doctorId) a.(dateTime) a.(status)
    a.(queueNumber) a.(checkedIn) a.(checkedInAt) a.(bookedAt) a.(modifiedAt)
    a.(cancelledAt) c u.

Definition appt_copy_field (f : AField) (src dst : Appointment) : Appointment :=
  match f with
  | FDateTime => with_dateTime src.(dateTime) dst
  | FStatus => with_status src.(status) dst
  | FQueueNumber => with_queueNumber src.(queueNumber) dst
  | FCheckedIn => with_checkedIn src.(checkedIn) dst
  | FCheckedInAt => with_checkedInAt src.(checkedInAt) dst
  | FModifiedAt => with_modifiedAt src.(modifiedAt) dst
  | FCancelledAt => with_cancelledAt src.(cancelledAt) dst
  end.

Definition appt_field_equal (f : AField) (a b : Appointment) : bool :=
  match f with
  | FDateTime => bool_decide (a.(dateTime) = b.(dateTime))
  | FStatus => bool_decide (a.(status) = b.(status))
  | FQueueNumber => bool_decide (a.(queueNumber) = b.(queueNumber))
  | FCheckedIn => bool_decide (a.(checkedIn) = b.(checkedIn))
  | FCheckedInAt => bool_decide (a.(checkedInAt) = b.(checkedInAt))
  | FModifiedAt => bool_decide (a.(modifiedAt) = b.(modifiedAt))
  | FCancelledAt => bool_decide (a.(cancelledAt) = b.(cancelledAt))
  end.

(** [required] on [appointmentId], [patientId], [doctorId], [dateTime]
    (an Invalid Date fails its cast). *)
Definition appt_validate (a : Appointment) : option string :=
  first_error
    [ if bool_decide (a.(appointmentId) = "") then Some "Path appointmentId is required." else None;
      check_error a.(patientId);
      check_error a.(doctorId);
      match a.(dateTime) with
      | None => Some "dateTime: Cast to date failed at path dateTime"
      | Some _ => None
      end ].

Definition appt_stamp (now : Z) (is_new : bool) (a : Appointment) : Appointment :=
  if is_new then with_a_timestamps now now a else with_a_timestamps a.(a_createdAt) now a.

#[export] Instance Appointment_model : Model Appointment := {
  model_name := "Appointment";
  key_of := appointmentId;
  Field := AField;
  copy_field := appt_copy_field;
  field_equal := appt_field_equal;
  validate := appt_validate;
  stamp := appt_stamp
}.

#[export] Instance Appointment_laws : ModelLaws Appointment.
Proof.
  split.
  - by intros [] ? ?.
  - by intros ? [] ?.
Qed.

(** ** [models/Doctor.js] *)

Record Schedule : Type := mkSchedule {
  s_date : checked string;
  s_startTime : checked string;
  s_endTime : checked string;
  s_available : checked (option bool);
  s_updatedAt : Z
}.

Record Doctor : Type := mkDoctor {
  d_doctorId : string;
  d_name : string;
  d_specialization : string;
  schedules : list Schedule;
  d_createdAt : Z;
  d_updatedAt : Z
}.

(** The only path [updateDoctorAvailability] assigns. *)
Inductive DField : Type := FSchedules.

Definition with_schedules (x : list Schedule) (d : Doctor) : Doctor :=
  mkDoctor d.(d_doctorId) d.(d_name) d.(d_specialization) x d.(d_createdAt) d.(d_updatedAt).

Definition schedule_error (s : Schedule) : option string :=
  first_error [check_error s.(s_date); check_error s.(s_startTime);
               check_error s.(s_endTime); check_error s.(s_available)].

Definition doctor_validate (d : Doctor) : option string :=
  first_error
    ([ if bool_decide (d.(d_doctorId) = "") then Some "Path doctorId is required." else None;
       if bool_decide (d.(d_name) = "") then Some "Path name is required." else None;
       if bool_decide (d.(d_specialization) = "") then Some "Path specialization is required." else None ]
     ++ map schedule_error d.(schedules)).

Definition doctor_stamp (now : Z) (is_new : bool) (d : Doctor) : Doctor :=
  mkDoctor d.(d_doctorId) d.(d_name) d.(d_specialization) d.(schedules)
    (if is_new then now else d.(d_createdAt)) now.

#[export] Instance Doctor_model : Model Doctor := {
  model_name := "Doctor";
  key_of := d_doctorId;
  Field := DField;
  copy_field := fun _ src dst => with_schedules src.(schedules) dst;
  field_equal := fun _ _ _ => false;
  validate := doctor_validate;
  stamp := doctor_stamp
}.

#[export] Instance Doctor_laws : ModelLaws Doctor.
Proof. split; reflexivity. Qed.

(** ** [models/Notification.js] *)

Inductive NotificationType : Type :=
| AppointmentConfirmation | Reminder | Cancellation | QueueUpdate | General.
Inductive DeliveryMethod : Type := Console | Email | Sms | Push.
Inductive NotificationStatus : Type := Sent | Delivered | Failed.

Record Notification : Type := mkNotification {
  notificationId : string;
  n_patientId : checked string;
  n_message : string;
  n_type : NotificationType;
  deliveryMethod : DeliveryMethod;
  n_status : NotificationStatus;
  sentAt : Z;
  n_createdAt : Z;
  n_updatedAt : Z
}.

Definition notification_validate (n : Notification) : option string :=
  first_error
    [ if bool_decide (n.(notificationId) = "") then Some "Path notificationId is required." else None;
      check_error n.(n_patientId);
      if bool_decide (n.(n_message) = "") then Some "Path message is required." else None ].

Definition notification_stamp (now : Z) (is_new : bool) (n : Notification) : Notification :=
  mkNotification n.(notificationId) n.(n_patientId) n.(n_message) n.(n_type)
    n.(deliveryMethod) n.(n_status) n.(sentAt)
    (if is_new then now else n.(n_createdAt)) now.

(** The services never assign a path of a loaded notification. *)
#[export] Instance Notification_model : Model Notification := {
  model_name := "Notification";
  key_of := notificationId;
  Field := Empty_set;
  copy_field := fun f _ _ => match f with end;
  field_equal := fun f _ _ => match f with end;
  validate := notification_validate;
  stamp := notification_stamp
}.

#[export] Instance Notification_laws : ModelLaws Notification.
Proof. split; [by intros [] | reflexivity]. Qed.

(** [appointment.path = value] on a loaded appointment document. *)
Definition appt_set (f : AField) (upd : Appointment -> Appointment)
    (d : Doc Appointment) : Doc Appointment :=
  doc_set (T := Appointment) f upd d.

(** Assigning a path other than [dateTime] does not change validation. *)
Lemma appt_validate_with_status (x : Status) (a : Appointment) :
  appt_validate (with_status x a) = appt_validate a.
Proof. reflexivity. Qed.
Lemma appt_validate_with_queueNumber (x : option string) (a : Appointment) :
  appt_validate (with_queueNumber x a) = appt_validate a.
Proof. reflexivity. Qed.
Lemma appt_validate_with_checkedIn (x : bool) (a : Appointment) :
  appt_validate (with_checkedIn x a) = appt_validate a.
Proof. reflexivity. Qed.
Lemma appt_validate_with_checkedInAt (x : option Z) (a : Appointment) :
  appt_validate (with_checkedInAt x a) = appt_validate a.
Proof. reflexivity. Qed.
Lemma appt_validate_with_modifiedAt (x : option Z) (a : Appointment) :
  appt_validate (with_modifiedAt x a) = appt_validate a.
Proof. reflexivity. Qed.
Lemma appt_validate_with_cancelledAt (x : option Z) (a : Appointment) :
  appt_validate (with_cancelledAt x a) = appt_validate a.
Proof. reflexivity. Qed.
Lemma appt_validate_with_dateTime (t : Z) (a : Appointment) :
  appt_validate a = None -> appt_validate (with_dateTime (Some t) a) = None.
Proof.
  unfold appt_validate, first_error. simpl. intros H.
  destruct (dateTime a); [done|]. revert H. by repeat case_match.
Qed.

#[export] Hint Rewrite appt_validate_with_status appt_validate_with_queueNumber
  appt_validate_with_checkedIn appt_validate_with_checkedInAt appt_validate_with_modifiedAt
  appt_validate_with_cancelledAt : medqueue_rw.

Arguments appt_validate : simpl never.

(** A valid appointment has its request paths cast and a valid date. *)
Lemma appt_validate_inv (a : Appointment) :
  appt_validate a = None ->
  a.(appointmentId) <> "" /\ (exists ps, a.(patientId) = inr ps) /\
  (exists ds, a.(doctorId) = inr ds) /\ (exists t, a.(dateTime) = Some t).
Proof.
  unfold appt_validate, first_error. simpl.
  destruct (bool_decide (appointmentId a = "")) eqn:E1,
    (patientId a), (doctorId a), (dateTime a); simpl; try done.
  intros _. apply bool_decide_eq_false_1 in E1. eauto 10.
Qed.

Lemma appt_validate_with_a_timestamps (c u : Z) (a : Appointment) :
  appt_validate (with_a_timestamps c u a) = appt_validate a.
Proof. reflexivity. Qed.

Lemma appt_validate_stamp (now : Z) (b : bool) (a : Appointment) :
  appt_validate (appt_stamp now b a) = appt_validate a.
Proof. by destruct b. Qed.

(** An Invalid Date fails validation whatever the other paths hold. *)
Lemma appt_validate_invalid_date (a : Appointment) :
  exists e, appt_validate (with_dateTime None a) = Some e.
Proof.
  unfold appt_validate, first_error. simpl.
  destruct (bool_decide _), (patientId a), (doctorId a); simpl; eauto.
Qed.

#[export] Hint Rewrite appt_validate_with_a_timestamps appt_validate_stamp : medqueue_rw.

Lemma first_error_None (l : list (option string)) :
  first_error l = None <-> Forall (fun o => o = None) l.
Proof.
  unfold first_error. induction l as [|o l IH]; simpl.
  - split; [constructor | done].
  - rewrite Forall_cons. destruct o as [e|]; simpl.
    + split; [discriminate | intros [H _]; discriminate].
    + rewrite <- IH. split; [intros H; split; [done | exact H] | intros [_ H]; exact H].
Qed.

(** A doctor whose fixed paths are valid stays valid with any list of
    valid schedule entries. *)
Lemma doctor_validate_with_schedules (l : list Schedule) (d : Doctor) :
  doctor_validate d = None -> Forall (fun s => schedule_error s = None) l ->
  doctor_validate (with_schedules l d) = None.
Proof.
  unfold doctor_validate. rewrite !first_error_None, !Forall_app, !Forall_fmap.
  intros [H _] Hl. split; [exact H|]. simpl. by apply Forall_impl with (1 := Hl).
Qed.
