(* ===== verification/Db.v ===== *)
(** * Db: the world the services run in, and their effects

    [World] holds what the back end reads and writes: the three MongoDB
    collections (keyed by their unique business id), the clock read by
    [new Date()] and [Date.now()], the server's local time-zone offset,
    the engine's fallback date parser, the stream of [Math.random()]
    draws, and an optional storage fault ([w_db_fault = Some e] makes
    every [findOne] and [save] throw [e], the [PersistenceError] of the
    design notes).  The effects below are the only way the services touch
    it. *)

From S2P Require Import Prelude JsString JsDate Json Mongoose Schemas.

Record World : Type := mkWorld {
  w_appointments : gmap string Appointment;
  w_doctors : gmap string Doctor;
  w_notifications : gmap string Notification;
  w_clock : Z;
  w_tz : Z;
  w_legacy : string -> jsdate;
  w_rng : nat -> Z;
  w_draws : nat;
  w_db_fault : option string
}.

Definition with_appointments (c : gmap string Appointment) (w : World) : World :=
  mkWorld c w.(w_doctors) w.(w_notifications) w.(w_clock) w.(w_tz) w.(w_legacy)
    w.(w_rng) w.(w_draws) w.(w_db_fault).
Definition with_doctors (c : gmap string Doctor) (w : World) : World :=
  mkWorld w.(w_appointments) c w.(w_notifications) w.(w_clock) w.(w_tz) w.(w_legacy)
    w.(w_rng) w.(w_draws) w.(w_db_fault).
Definition with_notifications (c : gmap string Notification) (w : World) : World :=
  mkWorld w.(w_appointments) w.(w_doctors) c w.(w_clock) w.(w_tz) w.(w_legacy)
    w.(w_rng) w.(w_draws) w.(w_db_fault).
Definition with_draws (n : nat) (w : World) : World :=
  mkWorld w.(w_appointments) w.(w_doctors) w.(w_notifications) w.(w_clock) w.(w_tz)
    w.(w_legacy) w.(w_rng) n w.(w_db_fault).

Abbreviation Svc := (M World).

(** The world of the worked examples: empty collections, the clock at
    2025-11-09T00:00:00.000Z, a server in UTC, no fallback date format, a
    fixed stream of draws, and working storage. *)
Definition sample_world : World :=
  mkWorld ∅ ∅ ∅ 1762646400000 0 (fun _ => None)
    (fun k => (Z.of_nat k + 1) * 1234567890123) 0 None.

(** ** Time *)

(** [new Date()] / [Date.now()] *)
Definition now : Svc Z := fun w => (Ok w.(w_clock), w).

(** [new Date(v)] *)
Definition new_date_m (v : jsval) : Svc jsdate :=
  fun w => (Ok (new_date w.(w_tz) w.(w_legacy) v), w).

(** [d.getDate()] in the server's time zone. *)
Definition get_date_m (t : Z) : Svc Z := fun w => (Ok (get_date w.(w_tz) t), w).

(** [a <= b] on dates: a comparison with [NaN] is [false]. *)
Definition date_le (a : jsdate) (b : Z) : bool :=
  match a with Some x => x <=? b | None => false end.

(** ** Randomness *)

Definition two53 : Z := 2 ^ 53.

(** [Math.floor(Math.random() * n)] for the next draw [k / 2^53]. *)
Definition draw_below (n : Z) (w : World) : Z :=
  (w.(w_rng) w.(w_draws) mod two53) * n / two53.

Definition random_below (n : Z) : Svc Z :=
  fun w => (Ok (draw_below n w), with_draws (S w.(w_draws)) w).

(** ** Storage *)

Definition db_guard {A} (m : Svc A) : Svc A :=
  fun w => match w.(w_db_fault) with
           | Some e => (Throw e, w)
           | None => m w
           end.

Definition find_appointment (k : string) : Svc (option (Doc Appointment)) :=
  db_guard (fun w => (Ok (find_one k w.(w_appointments)), w)).

Definition save_appointment (d : Doc Appointment) : Svc (Doc Appointment) :=
  db_guard (fun w =>
    let '(o, c) := save_doc w.(w_clock) d w.(w_appointments) in
    (o, with_appointments c w)).

Definition find_doctor (k : string) : Svc (option (Doc Doctor)) :=
  db_guard (fun w => (Ok (find_one k w.(w_doctors)), w)).

Definition save_doctor (d : Doc Doctor) : Svc (Doc Doctor) :=
  db_guard (fun w =>
    let '(o, c) := save_doc w.(w_clock) d w.(w_doctors) in
    (o, with_doctors c w)).

Definition save_notification (d : Doc Notification) : Svc (Doc Notification) :=
  db_guard (fun w =>
    let '(o, c) := save_doc w.(w_clock) d w.(w_notifications) in
    (o, with_notifications c w)).

(** ** Lemmas *)

(** [Math.floor(Math.random() * n)] is in [0, n). *)
Lemma draw_below_bounds (n : Z) (w : World) : 0 < n -> 0 <= draw_below n w < n.
Proof.
  intros Hn. unfold draw_below.
  pose proof (Z.mod_pos_bound (w_rng w (w_draws w)) two53 ltac:(reflexivity)).
  unfold two53 in *. split.
  - apply Z.div_pos; [nia | lia].
  - apply Z.div_lt_upper_bound; [lia | nia].
Qed.

Lemma find_appointment_ok (k : string) (w : World) :
  w.(w_db_fault) = None ->
  find_appointment k w = (Ok (loaded_doc <$> w.(w_appointments) !! k), w).
Proof. intros H. unfold find_appointment, db_guard. by rewrite H. Qed.

Lemma save_appointment_ok (d : Doc Appointment) (w : World) :
  w.(w_db_fault) = None ->
  save_appointment d w =
    (fst (save_doc w.(w_clock) d w.(w_appointments)),
     with_appointments (snd (save_doc w.(w_clock) d w.(w_appointments))) w).
Proof.
  intros H. unfold save_appointment, db_guard. rewrite H.
  by destruct (save_doc _ _ _).
Qed.

Lemma with_appointments_id (w : World) : with_appointments w.(w_appointments) w = w.
Proof. by destruct w. Qed.

Lemma with_appointments_twice (c1 c2 : gmap string Appointment) (w : World) :
  with_appointments c2 (with_appointments c1 w) = with_appointments c2 w.
Proof. by destruct w. Qed.

#[export] Hint Rewrite with_appointments_id with_appointments_twice : medqueue_rw.

(** Unfold the effects of [Svc] so that [simpl] runs a service on a
    symbolic world. *)
Ltac svc_unfold :=
  unfold try_catch, bind, ret, throw, now, new_date_m, get_date_m, random_below,
    find_appointment, save_appointment, find_doctor, save_doctor, save_notification in *;
  unfold db_guard in *.
