(* ===== verification/Lifecycle.v ===== *)
(** * Lifecycle: the appointment services of [core-functions-db.js]

    [bookAppointment], [cancelAppointment], [modifyAppointment],
    [generateQueueNumber], [checkInPatient] and the helper
    [generateAppointmentId], each a computation of [Svc] that follows the
    source statement by statement: the input guards and their early
    returns, [findOne], the assignments on the loaded document (through
    [doc_set], so that Mongoose's modified paths are tracked), [save()],
    and the [try]/[catch] that turns every thrown error into a failed
    result.  Results are the plain objects the functions return, as
    [jsval] objects with their keys in source order.  Request values
    ([patientId], [doctorId], [dateTime], [newDateTime]) are [jsval]s;
    the appointment id comes from the route parameter and is a string. *)

From S2P Require Import Prelude JsString JsDate Json Mongoose Schemas Db.

Definition fail_obj (msg : string) (extra : list (string * jsval)) : jsval :=
  JObj ([("success", JBool false); ("message", JStr msg)] ++ extra).

(** [if (appointment.queueNumber)]: a missing or empty queue number is
    falsy. *)
Definition qn_truthy (q : option string) : bool :=
  match q with Some s => negb (bool_decide (s = "")) | None => false end.

Definition qn_json (q : option string) : jsval :=
  match q with Some s => JStr s | None => JNull end.

(** ** Helpers (lines 433-443) *)

(** [`APT${Date.now()}${Math.floor(Math.random() * 1000)}`] *)
Definition generateAppointmentId : Svc string :=
  timestamp <- now ;;
  random <- random_below 1000 ;;
  ret ("APT" +:+ number_to_string timestamp +:+ number_to_string random).

(** ** 1. [bookAppointment] (lines 9-69) *)

Definition new_appointment (appointmentId0 : string) (patientId0 doctorId0 : jsval)
    (appointmentDate : jsdate) (bookedAt0 : Z) : Appointment :=
  mkAppointment appointmentId0
    (required_string "patientId" patientId0) (required_string "doctorId" doctorId0)
    appointmentDate Confirmed None false None bookedAt0 None None 0 0.

Definition bookAppointment (patientId0 doctorId0 dateTime0 : jsval) : Svc jsval :=
  try_catch (
    if negb (truthy patientId0) || negb (truthy doctorId0) || negb (truthy dateTime0) then
      ret (fail_obj "Missing required fields: patientId, doctorId, or dateTime"
             [("appointmentId", JNull)])
    else
    appointmentDate <- new_date_m dateTime0 ;;
    currentDate <- now ;;
    if date_le appointmentDate currentDate then
      ret (fail_obj "Appointment time must be in the future" [("appointmentId", JNull)])
    else
    appointmentId0 <- generateAppointmentId ;;
    bookedAt0 <- now ;;
    save_appointment
      (new_doc (new_appointment appointmentId0 patientId0 doctorId0 appointmentDate bookedAt0)) ;;;
    ret (JObj [("success", JBool true);
               ("message", JStr "Appointment booked successfully");
               ("appointmentId", JStr appointmentId0);
               ("appointment", JObj [("id", JStr appointmentId0);
                                     ("patientId", patientId0);
                                     ("doctorId", doctorId0);
                                     ("dateTime", dateTime0);
                                     ("status", JStr "confirmed");
                                     ("queueNumber", JNull);
                                     ("bookedAt", JStr (to_iso_string bookedAt0))])])
  ) (fun e => ret (fail_obj ("Error booking appointment: " +:+ e) [("appointmentId", JNull)])).

(** ** 2. [cancelAppointment] (lines 72-117) *)

Definition cancelAppointment (appointmentId0 : string) : Svc jsval :=
  try_catch (
    if bool_decide (appointmentId0 = "") then ret (fail_obj "Appointment ID is required" [])
    else
    found <- find_appointment appointmentId0 ;;
    match found with
    | None => ret (fail_obj "Invalid appointment ID or appointment not found" [])
    | Some appointment =>
        if bool_decide ((doc_val appointment).(status) = Cancelled) then
          ret (fail_obj "Appointment is already cancelled" [])
        else
        let appointment1 := appt_set FStatus (with_status Cancelled) appointment in
        cancelledAt0 <- now ;;
        let appointment2 := appt_set FCancelledAt (with_cancelledAt (Some cancelledAt0)) appointment1 in
        save_appointment appointment2 ;;;
        ret (JObj [("success", JBool true);
                   ("message", JStr "Appointment cancelled successfully");
                   ("appointmentId", JStr appointmentId0);
                   ("cancelledAt", JStr (to_iso_string cancelledAt0))])
    end
  ) (fun e => ret (fail_obj ("Error cancelling appointment: " +:+ e) [])).

(** ** 3. [modifyAppointment] (lines 120-170) *)

Definition modifyAppointment (appointmentId0 : string) (newDateTime : jsval) : Svc jsval :=
  try_catch (
    if bool_decide (appointmentId0 = "") || negb (truthy newDateTime) then
      ret (fail_obj "Appointment ID and new date/time are required" [])
    else
    found <- find_appointment appointmentId0 ;;
    match found with
    | None => ret (fail_obj "Invalid appointment ID or appointment not found" [])
    | Some appointment =>
        newAppointmentDate <- new_date_m newDateTime ;;
        currentDate <- now ;;
        if date_le newAppointmentDate currentDate then
          ret (fail_obj "New appointment time must be in the future" [])
        else
        let appointment1 := appt_set FDateTime (with_dateTime newAppointmentDate) appointment in
        modifiedAt0 <- now ;;
        let appointment2 := appt_set FModifiedAt (with_modifiedAt (Some modifiedAt0)) appointment1 in
        save_appointment appointment2 ;;;
        ret (JObj [("success", JBool true);
                   ("message", JStr "Appointment modified successfully");
                   ("appointmentId", JStr appointmentId0);
                   ("newDateTime", newDateTime);
                   ("modifiedAt", JStr (to_iso_string modifiedAt0))])
    end
  ) (fun e => ret (fail_obj ("Error modifying appointment: " +:+ e) [])).

(** ** 4. [generateQueueNumber] (lines 173-231) *)

(** [`Q${datePrefix}${randomSuffix.toString().padStart(2, '0')}`] *)
Definition queue_number_of (day suffix : Z) : string :=
  "Q" +:+ pad2 day +:+ pad2 suffix.

Definition generateQueueNumber (appointmentId0 : string) : Svc jsval :=
  try_catch (
    if bool_decide (appointmentId0 = "") then
      ret (fail_obj "Appointment ID is required" [("queueNumber", JNull)])
    else
    found <- find_appointment appointmentId0 ;;
    match found with
    | None =>
        ret (fail_obj "Invalid appointment ID or appointment not found" [("queueNumber", JNull)])
    | Some appointment =>
        if qn_truthy (doc_val appointment).(queueNumber) then
          ret (JObj [("success", JBool true);
                     ("message", JStr "Queue number already exists");
                     ("queueNumber", qn_json (doc_val appointment).(queueNumber));
                     ("appointmentId", JStr appointmentId0);
                     ("generatedAt", JStr (to_iso_string (doc_val appointment).(a_updatedAt)))])
        else
        today <- now ;;
        day <- get_date_m today ;;
        r <- random_below 99 ;;
        let queueNumber0 := queue_number_of day (r + 1) in
        save_appointment (appt_set FQueueNumber (with_queueNumber (Some queueNumber0)) appointment) ;;;
        generatedAt <- now ;;
        ret (JObj [("success", JBool true);
                   ("message", JStr "Queue number generated successfully");
                   ("queueNumber", JStr queueNumber0);
                   ("appointmentId", JStr appointmentId0);
                   ("generatedAt", JStr (to_iso_string generatedAt))])
    end
  ) (fun e => ret (fail_obj ("Error generating queue number: " +:+ e) [("queueNumber", JNull)])).

(** ** 5. [checkInPatient] (lines 234-296) *)

Definition checkInPatient (appointmentId0 : string) : Svc jsval :=
  try_catch (
    if bool_decide (appointmentId0 = "") then
      ret (fail_obj "Appointment ID is required" [("status", JNull)])
    else
    found <- find_appointment appointmentId0 ;;
    match found with
    | None =>
        ret (fail_obj "Invalid appointment ID or appointment not found" [("status", JNull)])
    | Some appointment =>
        if (doc_val appointment).(checkedIn) then
          ret (fail_obj "Patient is already checked in" [("status", JStr "already-checked-in")])
        else
        q <- (if qn_truthy (doc_val appointment).(queueNumber)
              then ret (inr (qn_json (doc_val appointment).(queueNumber)))
              else queueResult <- generateQueueNumber appointmentId0 ;;
                   if negb (result_success queueResult) then ret (inl queueResult)
                   else ret (inr (get_prop queueResult "queueNumber"))) ;;
        match q with
        | inl queueResult => ret queueResult
        | inr queueNumber0 =>
            let appointment1 := appt_set FCheckedIn (with_checkedIn true) appointment in
            checkedInAt0 <- now ;;
            let appointment2 := appt_set FCheckedInAt (with_checkedInAt (Some checkedInAt0)) appointment1 in
            save_appointment appointment2 ;;;
            ret (JObj [("success", JBool true);
                       ("message", JStr "Patient checked in successfully");
                       ("appointmentId", JStr appointmentId0);
                       ("status", JStr "checked-in");
                       ("queueNumber", queueNumber0);
                       ("checkedInAt", JStr (to_iso_string checkedInAt0))])
        end
    end
  ) (fun e => ret (fail_obj ("Error checking in patient: " +:+ e) [("status", JNull)])).
