(* ===== verification/LifecycleProps.v ===== *)
(** * LifecycleProps: what the appointment services do, branch by branch

    For every service of [Lifecycle.v]: its result and its effect on the
    world on each path of the code (guards, missing record, conflict,
    success, storage errors), then the properties the design asks for:
    the queue-number format with its parsing round trip, idempotence of
    [generateQueueNumber], the double-cancel and double-check-in
    conflicts, the check-in that assigns a queue number through a second
    copy of the document, and the invariant of stored appointments that
    every service preserves.  The lemmas about one service call assume a
    world whose storage works ([w_db_fault = None]); the storage-fault
    path is stated separately. *)

From S2P Require Import Prelude JsString JsDate Json Mongoose Schemas Db Lifecycle.

(** ** Symbolic execution *)

Ltac rw_hyps :=
  repeat match goal with
  | H : w_db_fault _ = _ |- _ => progress rewrite H
  | H : _ !! _ = _ |- _ => progress rewrite H
  | H : appt_validate _ = _ |- _ => progress rewrite H
  | H : appointmentId _ = _ |- _ => progress rewrite H
  | H : new_date _ _ _ = _ |- _ => progress rewrite H
  | H : truthy _ = _ |- _ => progress rewrite H
  | H : qn_truthy _ = _ |- _ => progress rewrite H
  | H : checkedIn _ = _ |- _ => progress rewrite H
  end.

(** Run a service on a symbolic world, using the hypotheses on the
    stored record and the inputs. *)
Ltac svc_finish := repeat progress (simpl; rw_hyps; bd_simpl; autorewrite with medqueue_rw).

Ltac svc_exec := svc_unfold; unfold find_one, appt_set, doc_set, save_doc; svc_finish.

(** ** The records the services write *)

(** The id [generateAppointmentId] returns in world [w]. *)
Definition next_appointment_id (w : World) : string :=
  "APT" +:+ number_to_string w.(w_clock) +:+ number_to_string (draw_below 1000 w).

Definition booked_record (w : World) (ps ds : string) (t : Z) : Appointment :=
  appt_stamp w.(w_clock) true
    (mkAppointment (next_appointment_id w) (inr ps) (inr ds) (Some t) Confirmed None false
       None w.(w_clock) None None 0 0).

Definition cancel_record (now : Z) (a : Appointment) : Appointment :=
  appt_stamp now false (with_cancelledAt (Some now) (with_status Cancelled a)).

(** The rescheduled record before [updatedAt] is stamped: an assignment
    that changes no value marks no path, so a reschedule to the same time
    in the same millisecond saves nothing and keeps the old stamp. *)
Definition modify_record (now t : Z) (a : Appointment) : Appointment :=
  with_modifiedAt (Some now) (with_dateTime (Some t) a).

(** The queue number [generateQueueNumber] draws in world [w]. *)
Definition next_queue_number (w : World) : string :=
  queue_number_of (get_date w.(w_tz) w.(w_clock)) (draw_below 99 w + 1).

Definition queued_record (now : Z) (q : string) (a : Appointment) : Appointment :=
  appt_stamp now false (with_queueNumber (Some q) a).

Definition checked_in_record (now : Z) (a : Appointment) : Appointment :=
  appt_stamp now false (with_checkedInAt (Some now) (with_checkedIn true a)).

Definition booked_result (w : World) (p d dt : jsval) : jsval :=
  JObj [("success", JBool true);
        ("message", JStr "Appointment booked successfully");
        ("appointmentId", JStr (next_appointment_id w));
        ("appointment", JObj [("id", JStr (next_appointment_id w));
                              ("patientId", p); ("doctorId", d); ("dateTime", dt);
                              ("status", JStr "confirmed"); ("queueNumber", JNull);
                              ("bookedAt", JStr (to_iso_string w.(w_clock)))])].

(** ** [bookAppointment] *)

Section Book.
Context (w : World) (p d dt : jsval).

(** C14: A missing field is rejected before anything is read or written. *)
Lemma book_missing :
  truthy p && truthy d && truthy dt = false ->
  bookAppointment p d dt w =
    (Ok (fail_obj "Missing required fields: patientId, doctorId, or dateTime"
           [("appointmentId", JNull)]), w).
Proof.
  intros H. unfold bookAppointment. svc_unfold.
  destruct (truthy p), (truthy d), (truthy dt); done.
Qed.

Context (Hp : truthy p = true) (Hd : truthy d = true) (Hdt : truthy dt = true).

(** C6: A time that is not strictly after the clock is rejected, and the
    world is unchanged. *)
Lemma book_not_future (t : Z) :
  new_date w.(w_tz) w.(w_legacy) dt = Some t -> t <= w.(w_clock) ->
  bookAppointment p d dt w =
    (Ok (fail_obj "Appointment time must be in the future" [("appointmentId", JNull)]), w).
Proof.
  intros Ht Hle. unfold bookAppointment. svc_exec. unfold date_le.
  by destruct (Z.leb_spec t (w_clock w)); [|lia].
Qed.

Context (Hdb : w.(w_db_fault) = None).

(** C11: A valid booking with a fresh id inserts a confirmed appointment with
    no queue number, not checked in, and returns it. *)
Lemma book_ok (t : Z) (ps ds : string) :
  new_date w.(w_tz) w.(w_legacy) dt = Some t -> w.(w_clock) < t ->
  required_string "patientId" p = inr ps -> required_string "doctorId" d = inr ds ->
  w.(w_appointments) !! next_appointment_id w = None ->
  bookAppointment p d dt w =
    (Ok (booked_result w p d dt),
     with_appointments (<[next_appointment_id w := booked_record w ps ds t]> w.(w_appointments))
       (with_draws (S w.(w_draws)) w)).
Proof.
  intros Ht Hlt Hps Hds Hfresh. unfold bookAppointment, generateAppointmentId. svc_exec.
  unfold date_le. destruct (Z.leb_spec t (w_clock w)); [lia|]. simpl.
  unfold new_appointment. rewrite Hps, Hds. unfold appt_validate at 1. simpl.
  unfold next_appointment_id in Hfresh. svc_finish. reflexivity.
Qed.

(** C12: When the generated id is already taken, the unique index rejects the
    insert: the booking fails and no stored appointment changes. *)
Lemma book_taken (t : Z) (ps ds : string) (old : Appointment) :
  new_date w.(w_tz) w.(w_legacy) dt = Some t -> w.(w_clock) < t ->
  required_string "patientId" p = inr ps -> required_string "doctorId" d = inr ds ->
  w.(w_appointments) !! next_appointment_id w = Some old ->
  bookAppointment p d dt w =
    (Ok (fail_obj ("Error booking appointment: " +:+
                   duplicate_key_message (T := Appointment) (next_appointment_id w))
           [("appointmentId", JNull)]),
     with_appointments w.(w_appointments) (with_draws (S w.(w_draws)) w)).
Proof.
  intros Ht Hlt Hps Hds Htaken. unfold bookAppointment, generateAppointmentId. svc_exec.
  unfold date_le. destruct (Z.leb_spec t (w_clock w)); [lia|]. simpl.
  unfold new_appointment. rewrite Hps, Hds. unfold appt_validate at 1. simpl.
  unfold next_appointment_id in Htaken. svc_finish. reflexivity.
Qed.

(** C13: A date string that does not parse reaches [save()], whose date cast
    fails: the booking fails and nothing is stored. *)
Lemma book_invalid_date :
  new_date w.(w_tz) w.(w_legacy) dt = None ->
  exists msg, bookAppointment p d dt w =
    (Ok (fail_obj ("Error booking appointment: " +:+ msg) [("appointmentId", JNull)]),
     with_appointments w.(w_appointments) (with_draws (S w.(w_draws)) w)).
Proof.
  intros Ht. unfold bookAppointment, generateAppointmentId. svc_exec.
  unfold new_appointment, appt_validate at 1, first_error. simpl.
  destruct (required_string "patientId" p), (required_string "doctorId" d);
    simpl; eexists; reflexivity.
Qed.
End Book.

(** ** [cancelAppointment] *)

Section Cancel.
Context (w : World) (id : string) (Hdb : w.(w_db_fault) = None) (Hid : id <> "").

Lemma cancel_not_found :
  w.(w_appointments) !! id = None ->
  cancelAppointment id w =
    (Ok (fail_obj "Invalid appointment ID or appointment not found" []), w).
Proof. intros Hk. unfold cancelAppointment. svc_exec. reflexivity. Qed.

Lemma cancel_already (a : Appointment) :
  w.(w_appointments) !! id = Some a -> a.(status) = Cancelled ->
  cancelAppointment id w = (Ok (fail_obj "Appointment is already cancelled" []), w).
Proof. intros Hk Hst. unfold cancelAppointment. svc_exec. reflexivity. Qed.

(** Cancelling a live appointment sets its status and [cancelledAt],
    and touches no other path and no other appointment. *)
Lemma cancel_ok (a : Appointment) :
  w.(w_appointments) !! id = Some a -> a.(appointmentId) = id ->
  appt_validate a = None -> a.(status) <> Cancelled ->
  cancelAppointment id w =
    (Ok (JObj [("success", JBool true);
               ("message", JStr "Appointment cancelled successfully");
               ("appointmentId", JStr id);
               ("cancelledAt", JStr (to_iso_string w.(w_clock)))]),
     with_appointments (<[id := cancel_record w.(w_clock) a]> w.(w_appointments)) w).
Proof.
  intros Hk Hkey Hv Hst. unfold cancelAppointment. svc_exec.
  case_bool_decide as Hc; svc_finish; unfold cancel_record; [|done].
  destruct a; simpl in *; subst; done.
Qed.
End Cancel.

(** ** [modifyAppointment] *)

Section Modify.
Context (w : World) (id : string) (dt : jsval)
  (Hdb : w.(w_db_fault) = None) (Hid : id <> "") (Hdt : truthy dt = true).

Lemma modify_not_found :
  w.(w_appointments) !! id = None ->
  modifyAppointment id dt w =
    (Ok (fail_obj "Invalid appointment ID or appointment not found" []), w).
Proof. intros Hk. unfold modifyAppointment. svc_exec. reflexivity. Qed.

Lemma modify_not_future (a : Appointment) (t : Z) :
  w.(w_appointments) !! id = Some a ->
  new_date w.(w_tz) w.(w_legacy) dt = Some t -> t <= w.(w_clock) ->
  modifyAppointment id dt w =
    (Ok (fail_obj "New appointment time must be in the future" []), w).
Proof.
  intros Hk Ht Hle. unfold modifyAppointment. svc_exec. unfold date_le.
  by destruct (Z.leb_spec t (w_clock w)); [|lia].
Qed.

(** Rescheduling to a future time succeeds whatever the appointment's
    status, a cancelled one included: the code never reads [status]. *)
Lemma modify_ok (a : Appointment) (t : Z) :
  w.(w_appointments) !! id = Some a -> a.(appointmentId) = id ->
  appt_validate a = None ->
  new_date w.(w_tz) w.(w_legacy) dt = Some t -> w.(w_clock) < t ->
  exists u, (u = w.(w_clock) \/ u = a.(a_updatedAt)) /\
  modifyAppointment id dt w =
    (Ok (JObj [("success", JBool true);
               ("message", JStr "Appointment modified successfully");
               ("appointmentId", JStr id);
               ("newDateTime", dt);
               ("modifiedAt", JStr (to_iso_string w.(w_clock)))]),
     with_appointments
       (<[id := with_a_timestamps a.(a_createdAt) u (modify_record w.(w_clock) t a)]>
          w.(w_appointments)) w).
Proof.
  intros Hk Hkey Hv Ht Hlt. unfold modifyAppointment. svc_exec. unfold date_le.
  destruct (Z.leb_spec t (w_clock w)); [lia|]. simpl.
  case_bool_decide as Hc1; case_bool_decide as Hc2; svc_finish;
    try rewrite (appt_validate_with_dateTime t a Hv); svc_finish.
  - exists a.(a_updatedAt). split; [by right|].
    rewrite insert_id; [by rewrite with_appointments_id|].
    rewrite Hk. destruct a; simpl in *; subst; done.
  - exists (w_clock w). split; [by left|]. destruct a; simpl in *; subst; done.
  - exists (w_clock w). split; [by left|]. destruct a; simpl in *; subst; done.
  - exists (w_clock w). split; [by left|]. destruct a; simpl in *; subst; done.
Qed.
(** A new date that does not parse is assigned to the document, whose
    save then fails its date cast: a failed result, nothing written. *)
Lemma modify_invalid_date (a : Appointment) :
  w.(w_appointments) !! id = Some a -> appt_validate a = None ->
  new_date w.(w_tz) w.(w_legacy) dt = None ->
  exists msg, modifyAppointment id dt w =
    (Ok (fail_obj ("Error modifying appointment: " +:+ msg) []), w).
Proof.
  intros Hk Hv Ht. destruct (appt_validate_inv a Hv) as (_ & _ & _ & [t0 Ht0]).
  destruct (appt_validate_invalid_date a) as [e He].
  unfold modifyAppointment. svc_exec.
  case_bool_decide; svc_finish; rewrite ?He; simpl; eexists; reflexivity.
Qed.
End Modify.

(** ** [generateQueueNumber] *)

Lemma queue_number_of_nonempty (day suffix : Z) : queue_number_of day suffix <> "".
Proof. unfold queue_number_of. by rewrite string_app_cons. Qed.

Lemma qn_truthy_false_neq (q : option string) (s : string) :
  qn_truthy q = false -> s <> "" -> q <> Some s.
Proof. intros Hq Hs ->. simpl in Hq. by rewrite bool_decide_eq_false_2 in Hq. Qed.

Section Queue.
Context (w : World) (id : string) (Hdb : w.(w_db_fault) = None) (Hid : id <> "").

Lemma queue_not_found :
  w.(w_appointments) !! id = None ->
  generateQueueNumber id w =
    (Ok (fail_obj "Invalid appointment ID or appointment not found"
           [("queueNumber", JNull)]), w).
Proof. intros Hk. unfold generateQueueNumber. svc_exec. reflexivity. Qed.

(** An appointment that has a queue number keeps it: the same number is
    returned and nothing is written. *)
Lemma queue_existing (a : Appointment) :
  w.(w_appointments) !! id = Some a -> qn_truthy a.(queueNumber) = true ->
  generateQueueNumber id w =
    (Ok (JObj [("success", JBool true);
               ("message", JStr "Queue number already exists");
               ("queueNumber", qn_json a.(queueNumber));
               ("appointmentId", JStr id);
               ("generatedAt", JStr (to_iso_string a.(a_updatedAt)))]), w).
Proof. intros Hk Hq. unfold generateQueueNumber. svc_exec. reflexivity. Qed.

(** An appointment without a queue number gets the one drawn from
    today's day of the month and the next random draw. *)
Lemma queue_new (a : Appointment) :
  w.(w_appointments) !! id = Some a -> a.(appointmentId) = id ->
  appt_validate a = None -> qn_truthy a.(queueNumber) = false ->
  generateQueueNumber id w =
    (Ok (JObj [("success", JBool true);
               ("message", JStr "Queue number generated successfully");
               ("queueNumber", JStr (next_queue_number w));
               ("appointmentId", JStr id);
               ("generatedAt", JStr (to_iso_string w.(w_clock)))]),
     with_appointments
       (<[id := queued_record w.(w_clock) (next_queue_number w) a]> w.(w_appointments))
       (with_draws (S w.(w_draws)) w)).
Proof.
  intros Hk Hkey Hv Hq. unfold generateQueueNumber. svc_exec.
  pose proof (qn_truthy_false_neq _ _ Hq (queue_number_of_nonempty
                (get_date (w_tz w) (w_clock w)) (draw_below 99 w + 1))) as Hne.
  svc_finish. reflexivity.
Qed.
End Queue.

(** ** [checkInPatient] *)

Definition checked_in_result (id : string) (q : jsval) (now : Z) : jsval :=
  JObj [("success", JBool true);
        ("message", JStr "Patient checked in successfully");
        ("appointmentId", JStr id);
        ("status", JStr "checked-in");
        ("queueNumber", q);
        ("checkedInAt", JStr (to_iso_string now))].

Section CheckIn.
Context (w : World) (id : string) (Hdb : w.(w_db_fault) = None) (Hid : id <> "").

Lemma checkin_not_found :
  w.(w_appointments) !! id = None ->
  checkInPatient id w =
    (Ok (fail_obj "Invalid appointment ID or appointment not found" [("status", JNull)]), w).
Proof. intros Hk. unfold checkInPatient. svc_exec. reflexivity. Qed.

Lemma checkin_already (a : Appointment) :
  w.(w_appointments) !! id = Some a -> a.(checkedIn) = true ->
  checkInPatient id w =
    (Ok (fail_obj "Patient is already checked in" [("status", JStr "already-checked-in")]), w).
Proof. intros Hk Hc. unfold checkInPatient. svc_exec. reflexivity. Qed.

Context (a : Appointment) (Hk : w.(w_appointments) !! id = Some a)
  (Hkey : a.(appointmentId) = id) (Hv : appt_validate a = None)
  (Hc : a.(checkedIn) = false).

(** With a queue number already assigned, check-in sets [checkedIn] and
    [checkedInAt] and returns that queue number. *)
Lemma checkin_with_queue :
  qn_truthy a.(queueNumber) = true ->
  checkInPatient id w =
    (Ok (checked_in_result id (qn_json a.(queueNumber)) w.(w_clock)),
     with_appointments (<[id := checked_in_record w.(w_clock) a]> w.(w_appointments)) w).
Proof.
  intros Hq. unfold checkInPatient. svc_exec.
  case_bool_decide; svc_finish; unfold checked_in_record;
    destruct a; simpl in *; subst; done.
Qed.

(** Without a queue number, check-in first runs [generateQueueNumber],
    which saves the number through its own copy of the document; the
    check-in's save then writes only [checkedIn] and [checkedInAt], so
    the stored record keeps the number the result reports. *)
Lemma checkin_assigns_queue :
  qn_truthy a.(queueNumber) = false ->
  checkInPatient id w =
    (Ok (checked_in_result id (JStr (next_queue_number w)) w.(w_clock)),
     with_appointments
       (<[id := checked_in_record w.(w_clock) (queued_record w.(w_clock) (next_queue_number w) a)]>
          w.(w_appointments))
       (with_draws (S w.(w_draws)) w)).
Proof.
  intros Hq. unfold checkInPatient. svc_unfold. unfold find_one. svc_finish.
  rewrite (queue_new w id Hdb Hid a Hk Hkey Hv Hq). simpl.
  unfold appt_set, doc_set, save_doc. svc_finish.
  case_bool_decide; svc_finish; rewrite lookup_insert_eq; simpl;
    rewrite insert_insert_eq; unfold checked_in_record, queued_record;
    destruct a; simpl in *; subst; done.
Qed.
End CheckIn.

(** ** The queue-number format *)

(** Reading back [Q] + two digits of day + two digits of suffix. *)
Definition parse_queue_number (s : string) : option (Z * Z) :=
  match s with
  | String q (String a (String b (String c (String d EmptyString)))) =>
      if bool_decide (q = "Q"%char) && is_digit a && is_digit b && is_digit c && is_digit d
      then Some (digit_value a * 10 + digit_value b, digit_value c * 10 + digit_value d)
      else None
  | _ => None
  end.

(** The pattern [Q\d{4}] of the design, with a day of the month in 1..31
    and a suffix in 1..99. *)
Definition is_queue_number (s : string) : bool :=
  match parse_queue_number s with
  | Some (day, suffix) => (1 <=? day) && (day <=? 31) && (1 <=? suffix) && (suffix <=? 99)
  | None => false
  end.

Lemma pad2_digits (n : Z) :
  0 <= n < 100 ->
  exists c1 c2, pad2 n = String c1 (String c2 EmptyString) /\
    is_digit c1 = true /\ is_digit c2 = true /\ digit_value c1 * 10 + digit_value c2 = n.
Proof.
  intros Hn. rewrite pad2_spec by done.
  assert (0 <= n / 10 < 10) by (split; [apply Z.div_pos | apply Z.div_lt_upper_bound]; lia).
  pose proof (Z.mod_pos_bound n 10 ltac:(lia)).
  do 2 eexists. split; [reflexivity|].
  rewrite !digit_char_digit, !digit_value_char by lia.
  repeat split. pose proof (Z.div_mod n 10). lia.
Qed.

(** Printing a day and a suffix in the code's format and parsing the
    result gives them back. *)
Lemma parse_queue_number_of (day suffix : Z) :
  0 <= day < 100 -> 0 <= suffix < 100 ->
  parse_queue_number (queue_number_of day suffix) = Some (day, suffix).
Proof.
  intros Hd Hs. unfold queue_number_of.
  destruct (pad2_digits day Hd) as (a & b & -> & Ha & Hb & Hab).
  destruct (pad2_digits suffix Hs) as (c & d & -> & Hc & Hd' & Hcd).
  simpl. rewrite Ha, Hb, Hc, Hd'. simpl. by rewrite Hab, Hcd.
Qed.

Lemma next_queue_number_parse (w : World) :
  parse_queue_number (next_queue_number w) = Some (get_date w.(w_tz) w.(w_clock), draw_below 99 w + 1).
Proof.
  pose proof (get_date_bounds w.(w_tz) w.(w_clock)).
  pose proof (draw_below_bounds 99 w ltac:(lia)).
  unfold next_queue_number. rewrite parse_queue_number_of by lia. done.
Qed.

Lemma next_queue_number_valid (w : World) : is_queue_number (next_queue_number w) = true.
Proof.
  pose proof (get_date_bounds w.(w_tz) w.(w_clock)).
  pose proof (draw_below_bounds 99 w ltac:(lia)).
  unfold is_queue_number. rewrite next_queue_number_parse.
  repeat rewrite andb_true_iff. rewrite !Z.leb_le. lia.
Qed.

(** C9: the queue number [generateQueueNumber] assigns to an
    appointment that has none is the one it returns and the one it
    stores, and it has the format [Q\d{4}]: it reads back as the day
    prefix, [getDate()] of the current date in the server's zone
    (between 1 and 31), and the suffix [Math.floor(Math.random() * 99) + 1]
    of the draw (between 1 and 99). *)
Theorem generated_queue_number_format (w : World) (id : string) (a : Appointment) :
  w.(w_db_fault) = None -> id <> "" -> w.(w_appointments) !! id = Some a ->
  a.(appointmentId) = id -> appt_validate a = None -> qn_truthy a.(queueNumber) = false ->
  exists r w' q day suffix,
    generateQueueNumber id w = (Ok r, w') /\ get_prop r "queueNumber" = JStr q /\
    (queueNumber <$> w'.(w_appointments) !! id) = Some (Some q) /\
    parse_queue_number q = Some (day, suffix) /\
    day = get_date w.(w_tz) w.(w_clock) /\ suffix = draw_below 99 w + 1 /\
    1 <= day <= 31 /\ 1 <= suffix <= 99.
Proof.
  intros Hdb Hid Hk Hkey Hv Hq.
  pose proof (get_date_bounds w.(w_tz) w.(w_clock)).
  pose proof (draw_below_bounds 99 w ltac:(lia)).
  do 5 eexists. split; [by apply queue_new|]. split; [reflexivity|].
  split; [simpl; by rewrite lookup_insert_eq|].
  split; [apply next_queue_number_parse|]. lia.
Qed.

(** ** Guards that need no storage, and the storage-fault path *)

Section Guards.
Context (w : World).

Lemma cancel_empty_id : cancelAppointment "" w = (Ok (fail_obj "Appointment ID is required" []), w).
Proof. reflexivity. Qed.

Lemma modify_missing (id : string) (dt : jsval) :
  bool_decide (id = "") || negb (truthy dt) = true ->
  modifyAppointment id dt w =
    (Ok (fail_obj "Appointment ID and new date/time are required" []), w).
Proof. intros H. unfold modifyAppointment. svc_unfold. by rewrite H. Qed.

Lemma queue_empty_id :
  generateQueueNumber "" w = (Ok (fail_obj "Appointment ID is required" [("queueNumber", JNull)]), w).
Proof. reflexivity. Qed.

Lemma checkin_empty_id :
  checkInPatient "" w = (Ok (fail_obj "Appointment ID is required" [("status", JNull)]), w).
Proof. reflexivity. Qed.

Context (e : string) (Hf : w.(w_db_fault) = Some e) (id : string) (Hid : id <> "").

(** A storage fault is caught at the function's boundary: a failed
    result carrying the driver's message, and nothing written. *)
Lemma cancel_fault :
  cancelAppointment id w = (Ok (fail_obj ("Error cancelling appointment: " +:+ e) []), w).
Proof. unfold cancelAppointment. svc_exec. reflexivity. Qed.

Lemma queue_fault :
  generateQueueNumber id w =
    (Ok (fail_obj ("Error generating queue number: " +:+ e) [("queueNumber", JNull)]), w).
Proof. unfold generateQueueNumber. svc_exec. reflexivity. Qed.

Lemma checkin_fault :
  checkInPatient id w =
    (Ok (fail_obj ("Error checking in patient: " +:+ e) [("status", JNull)]), w).
Proof. unfold checkInPatient. svc_exec. reflexivity. Qed.

Lemma modify_fault (dt : jsval) :
  truthy dt = true ->
  modifyAppointment id dt w = (Ok (fail_obj ("Error modifying appointment: " +:+ e) []), w).
Proof. intros Hdt. unfold modifyAppointment. svc_exec. reflexivity. Qed.
End Guards.

(** ** Scenarios of the design *)

(** C7: Cancelling twice: the first call succeeds, the second reports the
    conflict and writes nothing. *)
Theorem cancel_twice (w : World) (id : string) (a : Appointment) :
  w.(w_db_fault) = None -> id <> "" ->
  w.(w_appointments) !! id = Some a -> a.(appointmentId) = id ->
  appt_validate a = None -> a.(status) <> Cancelled ->
  exists r1 w1,
    cancelAppointment id w = (Ok r1, w1) /\ result_success r1 = true /\
    w1.(w_appointments) !! id = Some (cancel_record w.(w_clock) a) /\
    cancelAppointment id w1 = (Ok (fail_obj "Appointment is already cancelled" []), w1).
Proof.
  intros Hdb Hid Hk Hkey Hv Hst.
  do 2 eexists. split; [by apply cancel_ok|]. split; [reflexivity|].
  split; [by apply lookup_insert_eq|].
  eapply cancel_already; [exact Hdb | exact Hid | apply lookup_insert_eq | reflexivity].
Qed.

(** C8: Idempotence of [generateQueueNumber]: the second call returns the
    number the first one stored and leaves the world as the first call
    left it. *)
Theorem queue_idempotent (w : World) (id : string) (a : Appointment) :
  w.(w_db_fault) = None -> id <> "" ->
  w.(w_appointments) !! id = Some a -> a.(appointmentId) = id ->
  appt_validate a = None -> qn_truthy a.(queueNumber) = false ->
  exists q r1 w1 r2,
    generateQueueNumber id w = (Ok r1, w1) /\ get_prop r1 "queueNumber" = JStr q /\
    generateQueueNumber id w1 = (Ok r2, w1) /\ get_prop r2 "queueNumber" = JStr q.
Proof.
  intros Hdb Hid Hk Hkey Hv Hq.
  exists (next_queue_number w). do 3 eexists.
  split; [by apply queue_new|]. split; [reflexivity|].
  split; [eapply queue_existing; [exact Hdb | exact Hid | apply lookup_insert_eq |] | reflexivity].
  done.
Qed.

(** ** Worked examples *)

(** A confirmed appointment for tomorrow, booked now. *)
Definition sample_appt : Appointment :=
  mkAppointment "APT1" (inr "P1") (inr "D1") (Some 1762765200000) Confirmed None false None
    1762646400000 None None 1762646400000 1762646400000.

Definition appt_world : World := with_appointments {[ "APT1" := sample_appt ]} sample_world.

Lemma generated_queue_number_format_witness :
  exists r w' q day suffix,
    generateQueueNumber "APT1" appt_world = (Ok r, w') /\ get_prop r "queueNumber" = JStr q /\
    (queueNumber <$> w'.(w_appointments) !! "APT1") = Some (Some q) /\
    parse_queue_number q = Some (day, suffix) /\
    day = get_date appt_world.(w_tz) appt_world.(w_clock) /\ suffix = draw_below 99 appt_world + 1 /\
    1 <= day <= 31 /\ 1 <= suffix <= 99.
Proof.
  apply (generated_queue_number_format appt_world "APT1" sample_appt);
    [reflexivity | discriminate | reflexivity | reflexivity | reflexivity | reflexivity].
Defined.

Lemma book_missing_witness :
  bookAppointment (JStr "P1") JUndefined (JStr "2025-11-10T09:00:00") sample_world =
    (Ok (fail_obj "Missing required fields: patientId, doctorId, or dateTime"
           [("appointmentId", JNull)]), sample_world).
Proof. apply book_missing. reflexivity. Defined.

Lemma book_not_future_witness :
  bookAppointment (JStr "P1") (JStr "D1") (JStr "2025-11-08T09:00:00") sample_world =
    (Ok (fail_obj "Appointment time must be in the future" [("appointmentId", JNull)]), sample_world).
Proof.
  apply (book_not_future sample_world (JStr "P1") (JStr "D1") (JStr "2025-11-08T09:00:00") eq_refl eq_refl eq_refl 1762592400000).
  - vm_compute. reflexivity.
  - vm_compute. discriminate.
Defined.

Lemma book_ok_witness :
  bookAppointment (JStr "P1") (JStr "D1") (JStr "2025-11-10T09:00:00") sample_world =
    (Ok (booked_result sample_world (JStr "P1") (JStr "D1") (JStr "2025-11-10T09:00:00")),
     with_appointments (<[next_appointment_id sample_world :=
                           booked_record sample_world "P1" "D1" 1762765200000]> sample_world.(w_appointments))
       (with_draws (S sample_world.(w_draws)) sample_world)).
Proof.
  apply (book_ok sample_world (JStr "P1") (JStr "D1") (JStr "2025-11-10T09:00:00") eq_refl eq_refl eq_refl eq_refl).
  - vm_compute. reflexivity.
  - vm_compute. reflexivity.
  - reflexivity.
  - reflexivity.
  - vm_compute. reflexivity.
Defined.

(** The id [generateAppointmentId] draws in [sample_world] is taken. *)
Definition taken_world : World :=
  with_appointments {[ "APT17626464000000" := sample_appt ]} sample_world.

Lemma book_taken_witness :
  bookAppointment (JStr "P1") (JStr "D1") (JStr "2025-11-10T09:00:00") taken_world =
    (Ok (fail_obj ("Error booking appointment: " +:+
                   duplicate_key_message (T := Appointment) (next_appointment_id taken_world))
           [("appointmentId", JNull)]),
     with_appointments taken_world.(w_appointments) (with_draws (S taken_world.(w_draws)) taken_world)).
Proof.
  apply (book_taken taken_world (JStr "P1") (JStr "D1") (JStr "2025-11-10T09:00:00") eq_refl eq_refl eq_refl eq_refl 1762765200000 "P1" "D1" sample_appt).
  - vm_compute. reflexivity.
  - vm_compute. reflexivity.
  - reflexivity.
  - reflexivity.
  - vm_compute. reflexivity.
Defined.

Lemma book_invalid_date_witness :
  exists msg, bookAppointment (JStr "P1") (JStr "D1") (JStr "next Tuesday") sample_world =
    (Ok (fail_obj ("Error booking appointment: " +:+ msg) [("appointmentId", JNull)]),
     with_appointments sample_world.(w_appointments) (with_draws (S sample_world.(w_draws)) sample_world)).
Proof.
  apply (book_invalid_date sample_world (JStr "P1") (JStr "D1") (JStr "next Tuesday") eq_refl eq_refl eq_refl eq_refl).
  vm_compute. reflexivity.
Defined.

Lemma cancel_twice_witness :
  exists r1 w1,
    cancelAppointment "APT1" appt_world = (Ok r1, w1) /\ result_success r1 = true /\
    w1.(w_appointments) !! "APT1" = Some (cancel_record appt_world.(w_clock) sample_appt) /\
    cancelAppointment "APT1" w1 = (Ok (fail_obj "Appointment is already cancelled" []), w1).
Proof.
  apply cancel_twice; [reflexivity | discriminate | reflexivity | reflexivity | reflexivity | discriminate].
Defined.

Lemma queue_idempotent_witness :
  exists q r1 w1 r2,
    generateQueueNumber "APT1" appt_world = (Ok r1, w1) /\ get_prop r1 "queueNumber" = JStr q /\
    generateQueueNumber "APT1" w1 = (Ok r2, w1) /\ get_prop r2 "queueNumber" = JStr q.
Proof.
  apply (queue_idempotent appt_world "APT1" sample_appt);
    [reflexivity | discriminate | reflexivity | reflexivity | reflexivity | reflexivity].
Defined.
