(* ===== verification/Safety.v ===== *)
(** * Safety: the invariant of stored appointments and the appointment
      state machine

    [appt_wf] is what every stored appointment satisfies: it is stored
    under its own id, it passes validation, it is cancelled exactly when
    it has a cancellation time, checked in exactly when it has a check-in
    time, checked in only with a queue number, and any queue number has
    the format [Q\d{4}].  [astep] is the abstract state machine of one
    appointment that the design states (cancel from any live status,
    assign a queue number once, check in once, possibly assigning the
    number on the way).  Every service call preserves [world_wf] and moves
    each stored appointment by at most one [astep] ([call_sound]); the
    environment (clock, storage faults, the doctor and notification
    services) never touches the appointment collection.  By induction on
    the step relation, this refinement gives the design's promises on
    every reachable world: a cancelled appointment stays cancelled, a
    queue number is never reassigned, a checked-in patient stays checked
    in, and no appointment is ever deleted. *)

From S2P Require Import Prelude JsString JsDate Json Mongoose Schemas Db Lifecycle LifecycleProps.

(** ** The invariant *)

Definition qn_format (q : option string) : bool :=
  match q with Some s => is_queue_number s | None => true end.

Definition appt_wf (k : string) (a : Appointment) : Prop :=
  a.(appointmentId) = k /\ appt_validate a = None /\
  (a.(status) = Cancelled <-> is_Some a.(cancelledAt)) /\
  (a.(checkedIn) = true <-> is_Some a.(checkedInAt)) /\
  (a.(checkedIn) = true -> qn_truthy a.(queueNumber) = true) /\
  qn_format a.(queueNumber) = true.

#[export] Instance appt_wf_dec (k : string) (a : Appointment) : Decision (appt_wf k a).
Proof. unfold appt_wf. apply _. Defined.

Definition world_wf (w : World) : Prop := map_Forall appt_wf w.(w_appointments).

#[export] Instance world_wf_dec (w : World) : Decision (world_wf w).
Proof. unfold world_wf. apply _. Defined.

(** ** The abstract appointment *)

Definition abs (a : Appointment) : Status * option string * bool :=
  (a.(status), a.(queueNumber), a.(checkedIn)).

Inductive astep : Status * option string * bool -> Status * option string * bool -> Prop :=
| as_cancel s q c : s <> Cancelled -> astep (s, q, c) (Cancelled, q, c)
| as_queue s c q : is_queue_number q = true -> astep (s, None, c) (s, Some q, c)
| as_checkin s q : astep (s, Some q, false) (s, Some q, true)
| as_queue_checkin s q : is_queue_number q = true -> astep (s, None, false) (s, Some q, true).

(** How one call may change the collection: every appointment stays, and
    moves by at most one abstract step; a new one is confirmed, without
    queue number and not checked in. *)
Definition store_refines (s s' : gmap string Appointment) : Prop :=
  forall k, match s !! k, s' !! k with
            | Some a, Some b => abs a = abs b \/ astep (abs a) (abs b)
            | Some _, None => False
            | None, Some b => abs b = (Confirmed, None, false)
            | None, None => True
            end.

Definition sound_step (w w' : World) : Prop :=
  world_wf w' /\ store_refines w.(w_appointments) w'.(w_appointments).

(** ** Helpers *)

Lemma wf_lookup (w : World) (k : string) (a : Appointment) :
  world_wf w -> w.(w_appointments) !! k = Some a -> appt_wf k a.
Proof. intros Hwf Hk. exact (Hwf k a Hk). Qed.

Lemma qn_truthy_format_none (q : option string) :
  qn_format q = true -> qn_truthy q = false -> q = None.
Proof.
  destruct q as [s|]; [|done]. simpl. intros Hf Ht.
  apply negb_false_iff, bool_decide_eq_true_1 in Ht. by subst.
Qed.

Lemma sound_step_same (w w' : World) :
  world_wf w -> w'.(w_appointments) = w.(w_appointments) -> sound_step w w'.
Proof.
  intros Hwf Heq. split; [unfold world_wf; by rewrite Heq|].
  intros k. rewrite Heq. destruct (_ !! k); auto.
Qed.

Lemma sound_step_insert (w w' : World) (k : string) (r : Appointment) :
  world_wf w -> appt_wf k r ->
  w'.(w_appointments) = <[k := r]> w.(w_appointments) ->
  match w.(w_appointments) !! k with
  | Some a => abs a = abs r \/ astep (abs a) (abs r)
  | None => abs r = (Confirmed, None, false)
  end ->
  sound_step w w'.
Proof.
  intros Hwf Hr Heq Hab. unfold sound_step, world_wf. rewrite Heq. split.
  - by apply map_Forall_insert_2.
  - intros k'. destruct (decide (k = k')) as [<-|Hne].
    + rewrite lookup_insert_eq. done.
    + rewrite lookup_insert_ne by done. destruct (_ !! k'); auto.
Qed.

#[export] Hint Resolve sound_step_same : medqueue.

(** ** Every service call is a sound step *)

Ltac wf_facts H :=
  let Hkey := fresh "Hkey" in let Hv := fresh "Hv" in let Hcan := fresh "Hcan" in
  let Hchk := fresh "Hchk" in let Hq := fresh "Hq" in let Hf := fresh "Hf" in
  destruct H as (Hkey & Hv & Hcan & Hchk & Hq & Hf).

(** Prove [appt_wf] of a record built from a well-formed one by the
    services' assignments. *)
Ltac wf_record :=
  unfold appt_wf, cancel_record, modify_record, queued_record, checked_in_record, appt_stamp;
  simpl; autorewrite with medqueue_rw; repeat split; simpl in *;
  try solve [done | tauto].

Lemma book_store_cases (w : World) (p d dt : jsval) :
  (snd (bookAppointment p d dt w)).(w_appointments) = w.(w_appointments) \/
  exists ps ds t, w.(w_clock) < t /\ w.(w_appointments) !! next_appointment_id w = None /\
    (snd (bookAppointment p d dt w)).(w_appointments) =
      <[next_appointment_id w := booked_record w ps ds t]> w.(w_appointments).
Proof.
  unfold bookAppointment, generateAppointmentId. svc_unfold.
  unfold save_doc, new_doc, new_appointment. simpl.
  repeat (case_match; simplify_eq/=; try (left; reflexivity)).
  apply appt_validate_inv in H2 as (_ & [ps Hps] & [ds Hds] & [t Ht]). simpl in *.
  rewrite Hps, Hds, Ht in *. right. exists ps, ds, t.
  unfold date_le in H1. apply Z.leb_gt in H1. done.
Qed.

Lemma booked_record_wf (w : World) (ps ds : string) (t : Z) :
  appt_wf (next_appointment_id w) (booked_record w ps ds t).
Proof.
  unfold appt_wf, booked_record, appt_stamp. simpl.
  unfold appt_validate, first_error, next_appointment_id. simpl.
  repeat split; try done; by intros [? ?].
Qed.

Lemma book_sound (w : World) (p d dt : jsval) :
  world_wf w -> sound_step w (snd (bookAppointment p d dt w)).
Proof.
  intros Hwf. destruct (book_store_cases w p d dt) as [Heq | (ps & ds & t & Hlt & Hk & Heq)].
  - by apply sound_step_same.
  - eapply sound_step_insert; [done | apply booked_record_wf | exact Heq |].
    by rewrite Hk.
Qed.

Lemma cancel_sound (w : World) (id : string) :
  world_wf w -> sound_step w (snd (cancelAppointment id w)).
Proof.
  intros Hwf.
  destruct (decide (id = "")) as [->|Hid]; [by apply sound_step_same|].
  destruct (w_db_fault w) as [e|] eqn:Hdb;
    [rewrite (cancel_fault w e Hdb id Hid); by apply sound_step_same|].
  destruct (w_appointments w !! id) as [a|] eqn:Hk;
    [|rewrite cancel_not_found by done; by apply sound_step_same].
  pose proof (wf_lookup w id a Hwf Hk) as Ha. wf_facts Ha.
  destruct (decide (status a = Cancelled));
    [rewrite (cancel_already w id Hdb Hid a) by done; by apply sound_step_same|].
  rewrite (cancel_ok w id Hdb Hid a) by done.
  eapply sound_step_insert; [done | | reflexivity | rewrite Hk; right; by constructor].
  wf_record.
Qed.

Lemma modify_sound (w : World) (id : string) (dt : jsval) :
  world_wf w -> sound_step w (snd (modifyAppointment id dt w)).
Proof.
  intros Hwf.
  destruct (bool_decide (id = "") || negb (truthy dt)) eqn:Hg;
    [rewrite modify_missing by done; by apply sound_step_same|].
  apply orb_false_iff in Hg as [Hid Hdt].
  apply bool_decide_eq_false_1 in Hid. apply negb_false_iff in Hdt.
  destruct (w_db_fault w) as [e|] eqn:Hdb;
    [rewrite (modify_fault w e Hdb id Hid dt Hdt); by apply sound_step_same|].
  destruct (w_appointments w !! id) as [a|] eqn:Hk;
    [|rewrite modify_not_found by done; by apply sound_step_same].
  pose proof (wf_lookup w id a Hwf Hk) as Ha. wf_facts Ha.
  destruct (new_date (w_tz w) (w_legacy w) dt) as [t|] eqn:Ht.
  - destruct (Z.le_gt_cases t (w_clock w)).
    + rewrite (modify_not_future w id dt Hdb Hid Hdt a t) by done.
      by apply sound_step_same.
    + destruct (modify_ok w id dt Hdb Hid Hdt a t) as (u & _ & ->); [done..|].
      eapply sound_step_insert; [done | | reflexivity | rewrite Hk; by left].
      wf_record. by apply appt_validate_with_dateTime.
  - destruct (modify_invalid_date w id dt Hdb Hid Hdt a) as [msg ->]; [done..|].
    by apply sound_step_same.
Qed.

Lemma queue_sound (w : World) (id : string) :
  world_wf w -> sound_step w (snd (generateQueueNumber id w)).
Proof.
  intros Hwf.
  destruct (decide (id = "")) as [->|Hid]; [by apply sound_step_same|].
  destruct (w_db_fault w) as [e|] eqn:Hdb;
    [rewrite (queue_fault w e Hdb id Hid); by apply sound_step_same|].
  destruct (w_appointments w !! id) as [a|] eqn:Hk;
    [|rewrite queue_not_found by done; by apply sound_step_same].
  pose proof (wf_lookup w id a Hwf Hk) as Ha. wf_facts Ha.
  destruct (qn_truthy (queueNumber a)) eqn:Hqt;
    [rewrite (queue_existing w id Hdb Hid a) by done; by apply sound_step_same|].
  pose proof (qn_truthy_format_none _ Hf Hqt) as Hnone.
  pose proof (next_queue_number_valid w) as Hfmt.
  rewrite (queue_new w id Hdb Hid a) by done.
  eapply sound_step_insert; [done | | reflexivity |].
  - wf_record.
  - rewrite Hk. right. unfold abs, queued_record, appt_stamp. simpl. rewrite Hnone.
    by constructor.
Qed.

Lemma checkin_sound (w : World) (id : string) :
  world_wf w -> sound_step w (snd (checkInPatient id w)).
Proof.
  intros Hwf.
  destruct (decide (id = "")) as [->|Hid]; [by apply sound_step_same|].
  destruct (w_db_fault w) as [e|] eqn:Hdb;
    [rewrite (checkin_fault w e Hdb id Hid); by apply sound_step_same|].
  destruct (w_appointments w !! id) as [a|] eqn:Hk;
    [|rewrite checkin_not_found by done; by apply sound_step_same].
  pose proof (wf_lookup w id a Hwf Hk) as Ha. wf_facts Ha.
  destruct (checkedIn a) eqn:Hc;
    [rewrite (checkin_already w id Hdb Hid a) by done; by apply sound_step_same|].
  destruct (qn_truthy (queueNumber a)) eqn:Hqt.
  - rewrite (checkin_with_queue w id Hdb Hid a) by done.
    eapply sound_step_insert; [done | | reflexivity |].
    + wf_record.
    + rewrite Hk. right. unfold abs, checked_in_record, appt_stamp. simpl. rewrite Hc.
      destruct (queueNumber a); [constructor | done].
  - pose proof (qn_truthy_format_none _ Hf Hqt) as Hnone.
    pose proof (next_queue_number_valid w) as Hfmt.
    rewrite (checkin_assigns_queue w id Hdb Hid a) by done.
    eapply sound_step_insert; [done | | reflexivity |].
    + wf_record.
    + rewrite Hk. right. unfold abs, checked_in_record, queued_record, appt_stamp. simpl.
      rewrite Hc, Hnone. by constructor.
Qed.

(** ** Service calls and the step relation *)

(** One request reaching a service of [core-functions-db.js] through its
    route. *)
Inductive call : Type :=
| CBook (patientId0 doctorId0 dateTime0 : jsval)
| CCancel (appointmentId0 : string)
| CModify (appointmentId0 : string) (newDateTime : jsval)
| CQueue (appointmentId0 : string)
| CCheckIn (appointmentId0 : string).

Definition run_call (c : call) : Svc jsval :=
  match c with
  | CBook p d dt => bookAppointment p d dt
  | CCancel id => cancelAppointment id
  | CModify id dt => modifyAppointment id dt
  | CQueue id => generateQueueNumber id
  | CCheckIn id => checkInPatient id
  end.

(** Whole service calls interleave with changes of the environment that
    leave the appointment collection alone: the clock, storage faults,
    and the doctor and notification services. *)
Inductive step : World -> World -> Prop :=
| step_call (c : call) (w : World) : step w (snd (run_call c w))
| step_env (w w' : World) : w'.(w_appointments) = w.(w_appointments) -> step w w'.

Lemma call_sound (c : call) (w : World) :
  world_wf w -> sound_step w (snd (run_call c w)).
Proof.
  destruct c; simpl;
    eauto using book_sound, cancel_sound, modify_sound, queue_sound, checkin_sound.
Qed.

Lemma step_sound (w w' : World) : world_wf w -> step w w' -> sound_step w w'.
Proof.
  intros Hwf Hs. destruct Hs as [c x | x y Heq]; [by apply call_sound|].
  by apply sound_step_same.
Qed.

Lemma astep_refines (s s' : gmap string Appointment) (k : string) (a : Appointment) :
  store_refines s s' -> s !! k = Some a ->
  exists b, s' !! k = Some b /\ rtc astep (abs a) (abs b).
Proof.
  intros Hr Hk. specialize (Hr k). rewrite Hk in Hr.
  destruct (s' !! k) as [b|]; [|done]. exists b. split; [done|].
  destruct Hr as [<-|Hs]; [apply rtc_refl | by apply rtc_once].
Qed.

(** The invariant holds in every world reachable from a well-formed one. *)
Lemma reachable_wf (w0 w : World) : world_wf w0 -> rtc step w0 w -> world_wf w.
Proof.
  intros Hwf Hrt. induction Hrt as [|x y z Hxy _ IH]; [done|].
  apply IH. by apply (step_sound x y).
Qed.

(** Along any run, each stored appointment stays stored and its abstract
    state moves along the abstract machine. *)
Lemma reachable_simulation (w0 w : World) (k : string) (a : Appointment) :
  world_wf w0 -> rtc step w0 w -> w0.(w_appointments) !! k = Some a ->
  exists b, w.(w_appointments) !! k = Some b /\ rtc astep (abs a) (abs b).
Proof.
  intros Hwf Hrt. revert a. induction Hrt as [x|x y z Hxy _ IH]; intros a Hk.
  - exists a. split; [done | apply rtc_refl].
  - destruct (step_sound x y Hwf Hxy) as [Hwfy Hr].
    destruct (astep_refines _ _ _ _ Hr Hk) as (b & Hb & Hab).
    destruct (IH Hwfy b Hb) as (c & Hc & Hbc).
    exists c. split; [done | eapply rtc_trans; [exact Hab | exact Hbc]].
Qed.

(** A property of abstract states that every abstract step keeps. *)
Lemma rtc_astep_keeps (P : Status * option string * bool -> Prop) (x y : Status * option string * bool) :
  (forall u v, P u -> astep u v -> P v) -> rtc astep x y -> P x -> P y.
Proof. intros HP Hr. induction Hr; eauto. Qed.

(** C2: refinement of the appointment services by the
    abstract machine [astep]: every world reachable from a well-formed one
    by service calls and changes of the environment is well-formed, and
    each appointment stored at the start is still stored, its (status,
    queue number, checked-in) triple reached from the initial one by
    abstract steps. *)
Theorem reachable_refines (w0 w : World) :
  world_wf w0 -> rtc step w0 w ->
  world_wf w /\
  forall k a, w0.(w_appointments) !! k = Some a ->
    exists b, w.(w_appointments) !! k = Some b /\ rtc astep (abs a) (abs b).
Proof.
  intros Hwf Hrt. split; [by eapply reachable_wf|].
  intros k a Hk. by apply (reachable_simulation w0 w k a).
Qed.

(** ** What the design promises, on every reachable world *)

(** C3: A cancelled appointment stays stored and cancelled in every world
    reachable by any interleaving of service calls and environment
    changes: no service undoes a cancellation. *)
Theorem cancelled_stays_cancelled (w0 w : World) (k : string) (a : Appointment) :
  world_wf w0 -> rtc step w0 w -> w0.(w_appointments) !! k = Some a ->
  a.(status) = Cancelled ->
  exists b, w.(w_appointments) !! k = Some b /\ b.(status) = Cancelled.
Proof.
  intros Hwf Hrt Hk Hc. destruct (reachable_simulation w0 w k a Hwf Hrt Hk) as (b & Hb & Hab).
  exists b. split; [done|].
  apply (rtc_astep_keeps (fun x => x.1.1 = Cancelled) _ _) in Hab; [done| |done].
  intros u v Hu Huv. inversion Huv; subst; simpl in *; congruence.
Qed.

(** C4: Once an appointment has a queue number, it keeps exactly that number
    in every reachable world: no call assigns a second one. *)
Theorem queue_never_reassigned (w0 w : World) (k : string) (a : Appointment) (q : string) :
  world_wf w0 -> rtc step w0 w -> w0.(w_appointments) !! k = Some a ->
  a.(queueNumber) = Some q ->
  exists b, w.(w_appointments) !! k = Some b /\ b.(queueNumber) = Some q.
Proof.
  intros Hwf Hrt Hk Hq. destruct (reachable_simulation w0 w k a Hwf Hrt Hk) as (b & Hb & Hab).
  exists b. split; [done|].
  apply (rtc_astep_keeps (fun x => x.1.2 = Some q) _ _) in Hab; [done| |done].
  intros u v Hu Huv. inversion Huv; subst; simpl in *; congruence.
Qed.

(** C5: A checked-in appointment stays stored and checked in in every
    reachable world. *)
Theorem checked_in_stays (w0 w : World) (k : string) (a : Appointment) :
  world_wf w0 -> rtc step w0 w -> w0.(w_appointments) !! k = Some a ->
  a.(checkedIn) = true ->
  exists b, w.(w_appointments) !! k = Some b /\ b.(checkedIn) = true.
Proof.
  intros Hwf Hrt Hk Hc. destruct (reachable_simulation w0 w k a Hwf Hrt Hk) as (b & Hb & Hab).
  exists b. split; [done|].
  apply (rtc_astep_keeps (fun x => x.2 = true) _ _) in Hab; [done| |done].
  intros u v Hu Huv. inversion Huv; subst; simpl in *; congruence.
Qed.

(** ** Check-in reports the queue number it stored *)

(** C1: Whenever [checkInPatient] reports success, the queue number it
    reports is the one stored on the appointment, which is now checked
    in; this holds also when the number was generated during the check-in
    by [generateQueueNumber] through a second copy of the document. *)
Theorem checkin_reports_stored_queue (w : World) (id : string) (r : jsval) (w' : World) :
  world_wf w -> checkInPatient id w = (Ok r, w') -> result_success r = true ->
  exists q b, get_prop r "queueNumber" = JStr q /\ w'.(w_appointments) !! id = Some b /\
    b.(queueNumber) = Some q /\ b.(checkedIn) = true.
Proof.
  intros Hwf Hrun Hsucc.
  destruct (decide (id = "")) as [->|Hid]; [rewrite checkin_empty_id in Hrun; by simplify_eq|].
  destruct (w_db_fault w) as [e|] eqn:Hdb;
    [rewrite (checkin_fault w e Hdb id Hid) in Hrun; by simplify_eq|].
  destruct (w_appointments w !! id) as [a|] eqn:Hk;
    [|rewrite checkin_not_found in Hrun by done; by simplify_eq].
  pose proof (wf_lookup w id a Hwf Hk) as Ha. wf_facts Ha.
  destruct (checkedIn a) eqn:Hc;
    [rewrite (checkin_already w id Hdb Hid a) in Hrun by done; by simplify_eq|].
  destruct (qn_truthy (queueNumber a)) eqn:Hqt.
  - rewrite (checkin_with_queue w id Hdb Hid a) in Hrun by done. simplify_eq.
    destruct (queueNumber a) as [q|] eqn:Hqa; [|done].
    exists q, (checked_in_record (w_clock w) a). simpl.
    rewrite lookup_insert_eq, Hqa. done.
  - rewrite (checkin_assigns_queue w id Hdb Hid a) in Hrun by done. simplify_eq.
    exists (next_queue_number w), (checked_in_record (w_clock w) (queued_record (w_clock w) (next_queue_number w) a)).
    simpl. by rewrite lookup_insert_eq.
Qed.

(** C10: Checking in twice: the first check-in of a live appointment succeeds,
    the second is refused and writes nothing. *)
Theorem checkin_twice (w : World) (id : string) (a : Appointment) :
  world_wf w -> w.(w_db_fault) = None -> id <> "" ->
  w.(w_appointments) !! id = Some a -> a.(checkedIn) = false ->
  exists r w', checkInPatient id w = (Ok r, w') /\ result_success r = true /\
    checkInPatient id w' =
      (Ok (fail_obj "Patient is already checked in" [("status", JStr "already-checked-in")]), w').
Proof.
  intros Hwf Hdb Hid Hk Hc.
  pose proof (wf_lookup w id a Hwf Hk) as Ha. wf_facts Ha.
  destruct (qn_truthy (queueNumber a)) eqn:Hqt; do 2 eexists.
  - split; [by apply checkin_with_queue | split; [reflexivity|]].
    eapply checkin_already; [exact Hdb | exact Hid | apply lookup_insert_eq | done].
  - split; [by apply checkin_assigns_queue | split; [reflexivity|]].
    eapply checkin_already; [exact Hdb | exact Hid | apply lookup_insert_eq | done].
Qed.

(** ** Worked examples *)

Definition res_of (o : outcome jsval * World) : jsval :=
  match o.1 with Ok r => r | Throw _ => JNull end.

Definition checkin_sample : outcome jsval * World := checkInPatient "APT1" appt_world.

Lemma checkin_reports_stored_queue_witness :
  exists q b, get_prop (res_of checkin_sample) "queueNumber" = JStr q /\
    checkin_sample.2.(w_appointments) !! "APT1" = Some b /\
    b.(queueNumber) = Some q /\ b.(checkedIn) = true.
Proof.
  apply (checkin_reports_stored_queue appt_world "APT1").
  - apply (bool_decide_eq_true_1 (world_wf appt_world)). vm_compute. reflexivity.
  - vm_compute. reflexivity.
  - vm_compute. reflexivity.
Defined.

Lemma checkin_twice_witness :
  exists r w', checkInPatient "APT1" appt_world = (Ok r, w') /\ result_success r = true /\
    checkInPatient "APT1" w' =
      (Ok (fail_obj "Patient is already checked in" [("status", JStr "already-checked-in")]), w').
Proof.
  apply (checkin_twice appt_world "APT1" sample_appt).
  - apply (bool_decide_eq_true_1 (world_wf appt_world)). vm_compute. reflexivity.
  - reflexivity.
  - discriminate.
  - reflexivity.
  - reflexivity.
Defined.

(** A run of the sample world: a check-in, then a cancellation. *)
Definition sample_run : World :=
  (run_call (CCancel "APT1") (run_call (CCheckIn "APT1") appt_world).2).2.

Lemma sample_run_steps : rtc step appt_world sample_run.
Proof. eapply rtc_l; [apply step_call|]. eapply rtc_l; [apply step_call|]. apply rtc_refl. Qed.

Lemma reachable_refines_witness :
  world_wf sample_run /\
  forall k a, appt_world.(w_appointments) !! k = Some a ->
    exists b, sample_run.(w_appointments) !! k = Some b /\ rtc astep (abs a) (abs b).
Proof.
  apply reachable_refines.
  - apply (bool_decide_eq_true_1 (world_wf appt_world)). vm_compute. reflexivity.
  - apply sample_run_steps.
Defined.

Definition checked_world : World := (run_call (CCheckIn "APT1") appt_world).2.
Definition checked_appt : Appointment := default sample_appt (checked_world.(w_appointments) !! "APT1").

Lemma cancel_after_checkin_steps : rtc step checked_world sample_run.
Proof. eapply rtc_l; [apply step_call|]. apply rtc_refl. Qed.

Lemma checked_in_stays_witness :
  exists b, sample_run.(w_appointments) !! "APT1" = Some b /\ b.(checkedIn) = true.
Proof.
  apply (checked_in_stays checked_world sample_run "APT1" checked_appt).
  - apply (bool_decide_eq_true_1 (world_wf checked_world)). vm_compute. reflexivity.
  - apply cancel_after_checkin_steps.
  - vm_compute. reflexivity.
  - vm_compute. reflexivity.
Defined.

Lemma queue_never_reassigned_witness :
  exists b, sample_run.(w_appointments) !! "APT1" = Some b /\
    b.(queueNumber) = Some (default "" checked_appt.(queueNumber)).
Proof.
  apply (queue_never_reassigned checked_world sample_run "APT1" checked_appt).
  - apply (bool_decide_eq_true_1 (world_wf checked_world)). vm_compute. reflexivity.
  - apply cancel_after_checkin_steps.
  - vm_compute. reflexivity.
  - vm_compute. reflexivity.
Defined.

(** After the cancellation, a reschedule is attempted. *)
Definition modified_run : World := (run_call (CModify "APT1" (JStr "2025-11-12T10:00:00")) sample_run).2.
Definition cancelled_appt : Appointment := default sample_appt (sample_run.(w_appointments) !! "APT1").

Lemma modify_after_cancel_steps : rtc step sample_run modified_run.
Proof. eapply rtc_l; [apply step_call|]. apply rtc_refl. Qed.

Lemma cancelled_stays_cancelled_witness :
  exists b, modified_run.(w_appointments) !! "APT1" = Some b /\ b.(status) = Cancelled.
Proof.
  apply (cancelled_stays_cancelled sample_run modified_run "APT1" cancelled_appt).
  - apply (bool_decide_eq_true_1 (world_wf sample_run)). vm_compute. reflexivity.
  - apply modify_after_cancel_steps.
  - vm_compute. reflexivity.
  - vm_compute. reflexivity.
Defined.
