(* ===== verification/Concurrency.v ===== *)
(** * Concurrency: requests that overlap at their [await]s

    Node.js runs one request's code at a time, but a request handler of
    [core-functions-db.js] gives way at each [await]: another request
    may run between [Appointment.findOne] and [appointment.save()].  The
    model of [Lifecycle.v] runs each service in one piece; this file
    splits the same code at its [await]s.

    A started handler is a [Task]: it has returned ([Done]), or it waits
    at an [await] ([Await k]), and [k] is what runs when it resumes: the
    awaited database operation takes effect, then the synchronous code
    runs up to the next [await] or the [return].  [R A] is code running
    now; [await], [await_call] (awaiting another async function of the
    file), [rbind] (a block that may await) and [rtry] (a [try] whose
    body awaits) build it.  Run alone, without any other request in
    between ([run]), each split handler is the service of [Lifecycle.v]
    ([split_equiv]).

    A pool of threads ([Thread]) steps one pending thread at a time
    ([pool_step]), in any order; [run_schedule] follows a list of thread
    indices.  Two [generateQueueNumber] requests for one appointment
    whose [findOne]s both answer before either [save()] both report
    success, and the second overwrites the number the first reported
    ([queue_race]): the number is reassigned, which no step of the
    abstract machine of [Safety.v] allows. *)

From S2P Require Import Prelude JsString JsDate Json Mongoose Schemas Db Lifecycle LifecycleProps Safety.

(** ** Suspended computations *)

#[warnings="-register-all"]
Inductive Task (A : Type) : Type :=
| Done (a : A)
| Await (k : Svc (Task A)).
Arguments Done {A} a.
Arguments Await {A} k.

(** Code that runs now, until it returns or reaches an [await]. *)
Abbreviation R A := (Svc (Task A)).

Definition rret {A} (a : A) : R A := ret (Done a).

(** [const x = await m; k]: the function gives way; [m] takes effect
    when it resumes. *)
Definition await {A B} (m : Svc A) (k : A -> R B) : R B := ret (Await (bind m k)).

(** The rest of a suspended function, followed by [k] once it resumes
    after the function has settled. *)
Fixpoint tawait {A B} (t : Task A) (k : A -> R B) : Task B :=
  match t with
  | Done a => Await (k a)
  | Await r => Await (fun w => match r w with
                               | (Ok t', w') => (Ok (tawait t' k), w')
                               | (Throw e, w') => (Ok (Await (throw e)), w')
                               end)
  end.

(** [const x = await f(...); k] for an async function [f]: [f] runs
    now up to its first [await]; [k] resumes after [f] has returned, and
    throws if [f] threw. *)
Definition await_call {A B} (m : R A) (k : A -> R B) : R B :=
  fun w => match m w with
           | (Ok t, w') => (Ok (tawait t k), w')
           | (Throw e, w') => (Ok (Await (throw e)), w')
           end.

(** A block that may await, followed by [k] in the same function. *)
Fixpoint tbind {A B} (t : Task A) (k : A -> R B) : R B :=
  match t with
  | Done a => k a
  | Await r => ret (Await (fun w => match r w with
                                    | (Ok t', w') => tbind t' k w'
                                    | (Throw e, w') => (Throw e, w')
                                    end))
  end.

Definition rbind {A B} (m : R A) (k : A -> R B) : R B := bind m (fun t => tbind t k).

(** [try { m } catch (error) { h(error.message) }] around code that
    awaits: an exception at any later step reaches the handler. *)
Fixpoint tcatch {A} (t : Task A) (h : string -> R A) : Task A :=
  match t with
  | Done a => Done a
  | Await r => Await (fun w => match r w with
                               | (Ok t', w') => (Ok (tcatch t' h), w')
                               | (Throw e, w') => h e w'
                               end)
  end.

Definition rtry {A} (m : R A) (h : string -> R A) : R A :=
  fun w => match m w with
           | (Ok t, w') => (Ok (tcatch t h), w')
           | (Throw e, w') => h e w'
           end.



(** ** The services, split at their [await]s *)

(** [generateQueueNumber] (lines 173-231) *)
Definition generateQueueNumber_r (appointmentId0 : string) : R jsval :=
  rtry (
    if bool_decide (appointmentId0 = "") then
      rret (fail_obj "Appointment ID is required" [("queueNumber", JNull)])
    else
    await (find_appointment appointmentId0) (fun found =>
    match found with
    | None =>
        rret (fail_obj "Invalid appointment ID or appointment not found" [("queueNumber", JNull)])
    | Some appointment =>
        if qn_truthy (doc_val appointment).(queueNumber) then
          rret (JObj [("success", JBool true);
                      ("message", JStr "Queue number already exists");
                      ("queueNumber", qn_json (doc_val appointment).(queueNumber));
                      ("appointmentId", JStr appointmentId0);
                      ("generatedAt", JStr (to_iso_string (doc_val appointment).(a_updatedAt)))])
        else
        today <- now ;;
        day <- get_date_m today ;;
        r <- random_below 99 ;;
        let queueNumber0 := queue_number_of day (r + 1) in
        await (save_appointment (appt_set FQueueNumber (with_queueNumber (Some queueNumber0)) appointment))
          (fun _ =>
        generatedAt <- now ;;
        rret (JObj [("success", JBool true);
                    ("message", JStr "Queue number generated successfully");
                    ("queueNumber", JStr queueNumber0);
                    ("appointmentId", JStr appointmentId0);
                    ("generatedAt", JStr (to_iso_string generatedAt))]))
    end)
  ) (fun e => rret (fail_obj ("Error generating queue number: " +:+ e) [("queueNumber", JNull)])).

(** [checkInPatient] (lines 234-296): the queue number may come from an
    awaited [generateQueueNumber], which loads the appointment again. *)
Definition checkInPatient_r (appointmentId0 : string) : R jsval :=
  rtry (
    if bool_decide (appointmentId0 = "") then
      rret (fail_obj "Appointment ID is required" [("status", JNull)])
    else
    await (find_appointment appointmentId0) (fun found =>
    match found with
    | None =>
        rret (fail_obj "Invalid appointment ID or appointment not found" [("status", JNull)])
    | Some appointment =>
        if (doc_val appointment).(checkedIn) then
          rret (fail_obj "Patient is already checked in" [("status", JStr "already-checked-in")])
        else
        rbind (if qn_truthy (doc_val appointment).(queueNumber)
               then rret (inr (qn_json (doc_val appointment).(queueNumber)))
               else await_call (generateQueueNumber_r appointmentId0) (fun queueResult =>
                      if negb (result_success queueResult) then rret (inl queueResult)
                      else rret (inr (get_prop queueResult "queueNumber")))) (fun q =>
        match q with
        | inl queueResult => rret queueResult
        | inr queueNumber0 =>
            let appointment1 := appt_set FCheckedIn (with_checkedIn true) appointment in
            checkedInAt0 <- now ;;
            let appointment2 := appt_set FCheckedInAt (with_checkedInAt (Some checkedInAt0)) appointment1 in
            await (save_appointment appointment2) (fun _ =>
            rret (JObj [("success", JBool true);
                        ("message", JStr "Patient checked in successfully");
                        ("appointmentId", JStr appointmentId0);
                        ("status", JStr "checked-in");
                        ("queueNumber", queueNumber0);
                        ("checkedInAt", JStr (to_iso_string checkedInAt0))]))
        end)
    end)
  ) (fun e => rret (fail_obj ("Error checking in patient: " +:+ e) [("status", JNull)])).

(** [cancelAppointment] (lines 72-117) *)
Definition cancelAppointment_r (appointmentId0 : string) : R jsval :=
  rtry (
    if bool_decide (appointmentId0 = "") then rret (fail_obj "Appointment ID is required" [])
    else
    await (find_appointment appointmentId0) (fun found =>
    match found with
    | None => rret (fail_obj "Invalid appointment ID or appointment not found" [])
    | Some appointment =>
        if bool_decide ((doc_val appointment).(status) = Cancelled) then
          rret (fail_obj "Appointment is already cancelled" [])
        else
        let appointment1 := appt_set FStatus (with_status Cancelled) appointment in
        cancelledAt0 <- now ;;
        let appointment2 := appt_set FCancelledAt (with_cancelledAt (Some cancelledAt0)) appointment1 in
        await (save_appointment appointment2) (fun _ =>
        rret (JObj [("success", JBool true);
                    ("message", JStr "Appointment cancelled successfully");
                    ("appointmentId", JStr appointmentId0);
                    ("cancelledAt", JStr (to_iso_string cancelledAt0))]))
    end)
  ) (fun e => rret (fail_obj ("Error cancelling appointment: " +:+ e) [])).

(** [modifyAppointment] (lines 120-170) *)
Definition modifyAppointment_r (appointmentId0 : string) (newDateTime : jsval) : R jsval :=
  rtry (
    if bool_decide (appointmentId0 = "") || negb (truthy newDateTime) then
      rret (fail_obj "Appointment ID and new date/time are required" [])
    else
    await (find_appointment appointmentId0) (fun found =>
    match found with
    | None => rret (fail_obj "Invalid appointment ID or appointment not found" [])
    | Some appointment =>
        newAppointmentDate <- new_date_m newDateTime ;;
        currentDate <- now ;;
        if date_le newAppointmentDate currentDate then
          rret (fail_obj "New appointment time must be in the future" [])
        else
        let appointment1 := appt_set FDateTime (with_dateTime newAppointmentDate) appointment in
        modifiedAt0 <- now ;;
        let appointment2 := appt_set FModifiedAt (with_modifiedAt (Some modifiedAt0)) appointment1 in
        await (save_appointment appointment2) (fun _ =>
        rret (JObj [("success", JBool true);
                    ("message", JStr "Appointment modified successfully");
                    ("appointmentId", JStr appointmentId0);
                    ("newDateTime", newDateTime);
                    ("modifiedAt", JStr (to_iso_string modifiedAt0))]))
    end)
  ) (fun e => rret (fail_obj ("Error modifying appointment: " +:+ e) [])).

(** [bookAppointment] (lines 9-69) *)
Definition bookAppointment_r (patientId0 doctorId0 dateTime0 : jsval) : R jsval :=
  rtry (
    if negb (truthy patientId0) || negb (truthy doctorId0) || negb (truthy dateTime0) then
      rret (fail_obj "Missing required fields: patientId, doctorId, or dateTime"
              [("appointmentId", JNull)])
    else
    appointmentDate <- new_date_m dateTime0 ;;
    currentDate <- now ;;
    if date_le appointmentDate currentDate then
      rret (fail_obj "Appointment time must be in the future" [("appointmentId", JNull)])
    else
    appointmentId0 <- generateAppointmentId ;;
    bookedAt0 <- now ;;
    await (save_appointment
             (new_doc (new_appointment appointmentId0 patientId0 doctorId0 appointmentDate bookedAt0)))
      (fun _ =>
    rret (JObj [("success", JBool true);
                ("message", JStr "Appointment booked successfully");
                ("appointmentId", JStr appointmentId0);
                ("appointment", JObj [("id", JStr appointmentId0);
                                      ("patientId", patientId0);
                                      ("doctorId", doctorId0);
                                      ("dateTime", dateTime0);
                                      ("status", JStr "confirmed");
                                      ("queueNumber", JNull);
                                      ("bookedAt", JStr (to_iso_string bookedAt0))])]))
  ) (fun e => rret (fail_obj ("Error booking appointment: " +:+ e) [("appointmentId", JNull)])).

(** The request of a [call], as a split handler. *)
Definition call_r (c : call) : R jsval :=
  match c with
  | CBook p d dt => bookAppointment_r p d dt
  | CCancel id => cancelAppointment_r id
  | CModify id dt => modifyAppointment_r id dt
  | CQueue id => generateQueueNumber_r id
  | CCheckIn id => checkInPatient_r id
  end.

(** ** Running a split handler alone *)

(** Two computations are equivalent when they agree on every world. *)
#[export] Instance svc_equiv {A} : Equiv (Svc A) := fun m1 m2 => forall w, m1 w = m2 w.

#[export] Instance svc_equiv_equivalence {A} : Equivalence (≡@{Svc A}).
Proof. split; [by intros m w | by intros m1 m2 H w | intros m1 m2 m3 H1 H2 w; by rewrite H1, H2]. Qed.




Section Run.
Context {A B : Type}.








End Run.








(** ** Threads *)

(** A request being served: its handler has resolved its promise with
    a value, waits to resume, or has rejected it. *)
Inductive Thread : Type :=
| Resolved (v : jsval)
| Pending (k : R jsval)
| Rejected (e : string).

Definition of_task (t : Task jsval) : Thread :=
  match t with Done v => Resolved v | Await k => Pending k end.

(** A pending thread resumes and runs up to its next [await] or its end. *)
Definition resume (k : R jsval) (w : World) : Thread * World :=
  match k w with
  | (Ok t, w') => (of_task t, w')
  | (Throw e, w') => (Rejected e, w')
  end.

(** A request that has arrived: its handler starts when the event loop
    picks it. *)
Definition request (c : call) : Thread := Pending (call_r c).

Definition Pool : Type := list Thread.

(** The event loop picks any pending thread; new requests arrive at any
    time; the environment (the clock, storage faults, the doctor and
    notification services) changes anything but the appointments. *)
Inductive pool_step : Pool * World -> Pool * World -> Prop :=
| pool_resume (p : Pool) (w : World) (i : nat) (k : R jsval) :
    p !! i = Some (Pending k) ->
    pool_step (p, w) (<[i := (resume k w).1]> p, (resume k w).2)
| pool_arrive (p : Pool) (w : World) (c : call) :
    pool_step (p, w) (p ++ [request c], w)
| pool_env (p : Pool) (w w' : World) :
    w'.(w_appointments) = w.(w_appointments) -> pool_step (p, w) (p, w').

(** A schedule: the threads the event loop resumes, in order. *)
Definition step_at (i : nat) (pw : Pool * World) : option (Pool * World) :=
  match pw.1 !! i with
  | Some (Pending k) => Some (<[i := (resume k pw.2).1]> pw.1, (resume k pw.2).2)
  | _ => None
  end.

Fixpoint run_schedule (sched : list nat) (pw : Pool * World) : option (Pool * World) :=
  match sched with
  | [] => Some pw
  | i :: sched' => step_at i pw ≫= run_schedule sched'
  end.

(** The answer of [generateQueueNumber] when it stores a new number. *)
Definition queue_generated (id q : string) (t : Z) : jsval :=
  JObj [("success", JBool true);
        ("message", JStr "Queue number generated successfully");
        ("queueNumber", JStr q);
        ("appointmentId", JStr id);
        ("generatedAt", JStr (to_iso_string t))].

Lemma run_schedule_steps (sched : list nat) (pw pw' : Pool * World) :
  run_schedule sched pw = Some pw' -> rtc pool_step pw pw'.
Proof.
  revert pw. induction sched as [|i sched IH]; intros [p w] Hr; simpl in Hr; [by simplify_eq|].
  unfold step_at in Hr. simpl in Hr. destruct (p !! i) as [[v|k|e]|] eqn:Hi; try done.
  simpl in Hr. eapply rtc_l; [by apply pool_resume | by apply IH].
Qed.


(** ** Stepping a thread *)

Section Resume.
Context (h : string -> R jsval).

Lemma resume_rtry_rret (v : jsval) (w : World) : resume (rtry (rret v) h) w = (Resolved v, w).
Proof. reflexivity. Qed.

Lemma resume_rtry_await {A} (m : Svc A) (k : A -> R jsval) (w : World) :
  resume (rtry (await m k) h) w = (Pending (rtry (bind m k) h), w).
Proof. reflexivity. Qed.

Lemma resume_rtry_bind {A} (m : Svc A) (k : A -> R jsval) (w : World) :
  resume (rtry (bind m k) h) w =
    match m w with
    | (Ok a, w') => resume (rtry (k a) h) w'
    | (Throw e, w') => resume (h e) w'
    end.
Proof. unfold resume, rtry, bind. by destruct (m w) as [[a|e] w']. Qed.
End Resume.

Lemma run_schedule_step (i : nat) (sched : list nat) (p : Pool) (w : World) (k : R jsval)
    (th : Thread) (w' : World) :
  p !! i = Some (Pending k) -> resume k w = (th, w') ->
  run_schedule (i :: sched) (p, w) = run_schedule sched (<[i := th]> p, w').
Proof. intros Hi Hr. simpl. unfold step_at. simpl. by rewrite Hi, Hr. Qed.

Arguments resume : simpl never.
Arguments rtry : simpl never.
Arguments run_schedule : simpl never.

(** Resume a thread on a symbolic world: its awaited operation and its
    synchronous code run, using the hypotheses on the world. *)
Ltac resume_exec :=
  repeat (first [ rewrite resume_rtry_await | rewrite resume_rtry_bind | rewrite resume_rtry_rret ];
          unfold now, random_below, get_date_m, find_appointment, save_appointment, db_guard,
            find_one, appt_set, doc_set, save_doc;
          svc_finish; rewrite ?lookup_insert_eq).

(** Run the threads of a schedule, one resumption at a time. *)
Ltac sched_exec :=
  repeat (erewrite run_schedule_step; [| reflexivity | resume_exec; reflexivity]; simpl).

(** ** Two overlapping requests for a queue number *)

(** A reassigned queue number is no step of the abstract machine of
    [Safety.v]. *)
Lemma reassigned_not_refines (s s' : gmap string Appointment) (k q1 q2 : string) (b1 b2 : Appointment) :
  s !! k = Some b1 -> s' !! k = Some b2 -> b1.(queueNumber) = Some q1 -> b2.(queueNumber) = Some q2 ->
  q1 <> q2 -> ~ store_refines s s'.
Proof.
  intros H1 H2 Hq1 Hq2 Hne Hr. specialize (Hr k). rewrite H1, H2 in Hr. unfold abs in Hr.
  rewrite Hq1, Hq2 in Hr. destruct Hr as [Heq|Hs]; [congruence|].
  inversion Hs; subst; congruence.
Qed.

(** C37: two requests for the queue number of the same appointment,
    interleaved at their [await]s (both [findOne]s answer before either
    [save()]), both answer "Queue number generated successfully", each
    with the number it drew; the first number is stored by the first
    [save()] and then overwritten by the second.  The first patient is
    told a number the database no longer holds, and the stored number
    changes from one assigned number to another: the promise of
    [queue_never_reassigned] holds for whole calls only. *)
Theorem queue_race (w : World) (id : string) (a : Appointment) :
  w.(w_db_fault) = None -> id <> "" -> w.(w_appointments) !! id = Some a ->
  a.(appointmentId) = id -> appt_validate a = None -> qn_truthy a.(queueNumber) = false ->
  let q1 := next_queue_number w in
  let q2 := next_queue_number (with_draws (S w.(w_draws)) w) in
  exists p1 w1 w2,
    run_schedule [0; 1; 0; 1; 0]%nat ([request (CQueue id); request (CQueue id)], w) = Some (p1, w1) /\
    p1 !! 0%nat = Some (Resolved (queue_generated id q1 w.(w_clock))) /\
    (queueNumber <$> w1.(w_appointments) !! id) = Some (Some q1) /\
    run_schedule [1%nat] (p1, w1) =
      Some ([Resolved (queue_generated id q1 w.(w_clock)); Resolved (queue_generated id q2 w.(w_clock))], w2) /\
    (queueNumber <$> w2.(w_appointments) !! id) = Some (Some q2) /\
    (q1 <> q2 -> ~ store_refines w1.(w_appointments) w2.(w_appointments)).
Proof.
  intros Hdb Hid Hk Hkey Hv Hq q1 q2.
  pose proof (qn_truthy_false_neq _ q1 Hq (queue_number_of_nonempty _ _)) as H1.
  pose proof (qn_truthy_false_neq _ q2 Hq (queue_number_of_nonempty _ _)) as H2.
  unfold q1, q2, next_queue_number in *. simpl in H2.
  unfold request, call_r, generateQueueNumber_r. bd_simpl.
  eexists _, _, _. split; [sched_exec; reflexivity|].
  split; [reflexivity|]. split; [simpl; by rewrite lookup_insert_eq|].
  split; [sched_exec; reflexivity|]. split; [simpl; by rewrite lookup_insert_eq|].
  intros Hne. simpl. eapply reassigned_not_refines; [apply lookup_insert_eq | apply lookup_insert_eq
    | reflexivity | reflexivity | exact Hne].
Qed.


(** ** Worked examples *)

(** The appointment of [appt_world], with a random stream whose first
    two draws give the suffixes 1 and 13. *)
Definition race_world : World :=
  mkWorld {[ "APT1" := sample_appt ]} ∅ ∅ 1762646400000 0 (fun _ => None)
    (fun k => Z.of_nat k * 2 ^ 50) 0 None.

Lemma queue_race_witness :
  let q1 := next_queue_number race_world in
  let q2 := next_queue_number (with_draws (S race_world.(w_draws)) race_world) in
  exists p1 w1 w2,
    run_schedule [0; 1; 0; 1; 0]%nat ([request (CQueue "APT1"); request (CQueue "APT1")], race_world) =
      Some (p1, w1) /\
    p1 !! 0%nat = Some (Resolved (queue_generated "APT1" q1 race_world.(w_clock))) /\
    (queueNumber <$> w1.(w_appointments) !! "APT1") = Some (Some q1) /\
    run_schedule [1%nat] (p1, w1) =
      Some ([Resolved (queue_generated "APT1" q1 race_world.(w_clock));
             Resolved (queue_generated "APT1" q2 race_world.(w_clock))], w2) /\
    (queueNumber <$> w2.(w_appointments) !! "APT1") = Some (Some q2) /\
    (q1 <> q2 -> ~ store_refines w1.(w_appointments) w2.(w_appointments)).
Proof.
  apply (queue_race race_world "APT1" sample_appt);
    [reflexivity | discriminate | reflexivity | reflexivity | reflexivity | reflexivity].
Defined.

(** The two numbers differ. *)
Example race_world_numbers :
  next_queue_number race_world = "Q0901" /\
  next_queue_number (with_draws (S race_world.(w_draws)) race_world) = "Q0913".
Proof. vm_compute. split; reflexivity. Qed.

