(* ===== verification/Availability.v ===== *)
(** * Availability: [updateDoctorAvailability] (core-functions-db.js,
      lines 299-375)

    The service validates its inputs, loads the doctor or provisions a
    new one, looks for the schedule entry of the same date with
    [findIndex(s => s.date === schedule.date)], overwrites that entry in
    place or appends a new one, and saves.  The comparison is JavaScript's
    strict equality between the stored entry's date, a string after
    Mongoose's cast, and the raw request value: a date sent as a JSON
    number is stored as a string and never matches again, so every
    update appends a new entry ([availability_number_date_duplicates]).
    With string dates, the entries of a doctor have pairwise distinct
    dates and an update of an existing date overwrites it
    ([availability_upsert_twice], [availability_preserves_wf]).  The key
    check calls [schedule.hasOwnProperty(field)], a method looked up on
    the parsed body itself: a body with its own [hasOwnProperty] key makes
    the call throw, and the request fails with the [TypeError]'s message
    before anything is read ([availability_shadowed_method]). *)

From S2P Require Import Prelude JsString JsDate Json Mongoose Schemas Db.

(** [doctor.schedules.findIndex(pred)], as an option. *)
Fixpoint find_index {A} (p : A -> bool) (l : list A) : option nat :=
  match l with
  | [] => None
  | x :: l' => if p x then Some 0%nat else S <$> find_index p l'
  end.

(** [s.date] of a schedule entry as a JavaScript value. *)
Definition schedule_date_js (s : Schedule) : jsval :=
  match s.(s_date) with inr d => JStr d | inl _ => JUndefined end.

(** The subdocument Mongoose builds from [scheduleData]. *)
Definition cast_schedule (schedule : jsval) (now : Z) : Schedule :=
  mkSchedule (required_string "date" (get_prop schedule "date"))
    (required_string "startTime" (get_prop schedule "startTime"))
    (required_string "endTime" (get_prop schedule "endTime"))
    (cast_boolean "available" (get_prop schedule "available"))
    now.

(** [scheduleData] as [res.json] serializes it. *)
Definition schedule_json (schedule : jsval) (now : Z) : jsval :=
  JObj [("date", get_prop schedule "date");
        ("startTime", get_prop schedule "startTime");
        ("endTime", get_prop schedule "endTime");
        ("available", get_prop schedule "available");
        ("updatedAt", JStr (to_iso_string now))].

(** The doctor provisioned when none is stored. *)
Definition provisioned_doctor (doctorId0 : string) : Doctor :=
  mkDoctor doctorId0 ("Dr. " +:+ doctorId0) "General Medicine" [] 0 0.

(** Overwrite in place when the date is found, append otherwise. *)
Definition upsert_schedule (date : jsval) (entry : Schedule) (l : list Schedule) : list Schedule :=
  match find_index (fun s => js_strict_eq (schedule_date_js s) date) l with
  | Some i => <[i := entry]> l
  | None => l ++ [entry]
  end.

Definition doctor_set_schedules (l : list Schedule) (d : Doc Doctor) : Doc Doctor :=
  doc_set (T := Doctor) FSchedules (with_schedules l) d.

(** [schedule.hasOwnProperty(field)]: the method is looked up on the
    object first, so a body with its own [hasOwnProperty] key (a JSON
    value, never a function) shadows [Object.prototype.hasOwnProperty]
    and the call throws a [TypeError]. *)
Definition call_hasOwnProperty (schedule : jsval) (field : string) : Svc bool :=
  if has_own_property schedule "hasOwnProperty" then throw "schedule.hasOwnProperty is not a function"
  else ret (has_own_property schedule field).

(** [requiredFields.every(f)]: stops at the first [false]. *)
Fixpoint every (f : string -> Svc bool) (l : list string) : Svc bool :=
  match l with
  | [] => ret true
  | x :: l' => b <- f x ;; if b then every f l' else ret false
  end.

Definition updateDoctorAvailability (doctorId0 : string) (schedule : jsval) : Svc jsval :=
  try_catch (
    if bool_decide (doctorId0 = "") then ret (JObj [("success", JBool false);
                                                    ("message", JStr "Doctor ID is required")])
    else if negb (truthy schedule) || negb (bool_decide (typeof schedule = "object")) then
      ret (JObj [("success", JBool false); ("message", JStr "Valid schedule object is required")])
    else
    hasAllFields <- every (call_hasOwnProperty schedule) ["date"; "startTime"; "endTime"; "available"] ;;
    if negb hasAllFields then
      ret (JObj [("success", JBool false);
                 ("message", JStr "Schedule must include: date, startTime, endTime, available")])
    else
    found <- find_doctor doctorId0 ;;
    let doctor := default (new_doc (provisioned_doctor doctorId0)) found in
    updatedAt <- now ;;
    let scheduleData := cast_schedule schedule updatedAt in
    let doctor' := doctor_set_schedules
                     (upsert_schedule (get_prop schedule "date") scheduleData (doc_val doctor).(schedules))
                     doctor in
    save_doctor doctor' ;;;
    ret (JObj [("success", JBool true);
               ("message", JStr "Doctor availability updated successfully");
               ("doctorId", JStr doctorId0);
               ("schedule", schedule_json schedule updatedAt);
               ("updatedAt", JStr (to_iso_string updatedAt))])
  ) (fun e => ret (JObj [("success", JBool false);
                         ("message", JStr ("Error updating doctor availability: " +:+ e))])).

(** ** Lemmas *)

(** Without an own [hasOwnProperty] key, [every] is the key test. *)
Lemma every_own_keys (sch : jsval) (keys : list string) (w : World) :
  has_own_property sch "hasOwnProperty" = false ->
  every (call_hasOwnProperty sch) keys w = (Ok (forallb (has_own_property sch) keys), w).
Proof.
  intros Hs. induction keys as [|k keys IH]; [done|].
  assert (Hc : call_hasOwnProperty sch k w = (Ok (has_own_property sch k), w))
    by (unfold call_hasOwnProperty; by rewrite Hs).
  simpl. unfold bind at 1. rewrite Hc. destruct (has_own_property sch k); [apply IH | done].
Qed.

(** With one, the first call throws. *)
Lemma every_shadowed (sch : jsval) (k : string) (keys : list string) (w : World) :
  has_own_property sch "hasOwnProperty" = true ->
  every (call_hasOwnProperty sch) (k :: keys) w = (Throw "schedule.hasOwnProperty is not a function", w).
Proof. intros Hs. simpl. unfold bind, call_hasOwnProperty. by rewrite Hs. Qed.

(** Past the first two guards, the key test of the handler. *)
Lemma availability_guards (id : string) (sch : jsval) (w : World) :
  id <> "" -> truthy sch = true -> typeof sch = "object" ->
  updateDoctorAvailability id sch w =
    try_catch (hasAllFields <- every (call_hasOwnProperty sch) ["date"; "startTime"; "endTime"; "available"] ;;
               if negb hasAllFields then
                 ret (JObj [("success", JBool false);
                            ("message", JStr "Schedule must include: date, startTime, endTime, available")])
               else
               found <- find_doctor id ;;
               let doctor := default (new_doc (provisioned_doctor id)) found in
               updatedAt <- now ;;
               let scheduleData := cast_schedule sch updatedAt in
               let doctor' := doctor_set_schedules
                                (upsert_schedule (get_prop sch "date") scheduleData (doc_val doctor).(schedules))
                                doctor in
               save_doctor doctor' ;;;
               ret (JObj [("success", JBool true);
                          ("message", JStr "Doctor availability updated successfully");
                          ("doctorId", JStr id);
                          ("schedule", schedule_json sch updatedAt);
                          ("updatedAt", JStr (to_iso_string updatedAt))]))
      (fun e => ret (JObj [("success", JBool false);
                           ("message", JStr ("Error updating doctor availability: " +:+ e))])) w.
Proof. intros Hid Ho Ht. unfold updateDoctorAvailability. bd_simpl. by rewrite Ho. Qed.

Definition dates_of (l : list Schedule) : list jsval := map schedule_date_js l.

Lemma find_index_Some {A} (p : A -> bool) (l : list A) (i : nat) :
  find_index p l = Some i -> exists x, l !! i = Some x /\ p x = true.
Proof.
  revert i. induction l as [|x l IH]; intros i; simpl; [done|].
  destruct (p x) eqn:Hx; [intros [= <-]; eauto|].
  destruct (find_index p l) as [j|] eqn:Hj; simpl; [|done].
  intros [= <-]. simpl. by apply IH.
Qed.

Lemma find_index_None {A} (p : A -> bool) (l : list A) :
  find_index p l = None -> Forall (fun x => p x = false) l.
Proof.
  induction l as [|x l IH]; simpl; [done|].
  destruct (p x) eqn:Hx; [done|].
  destruct (find_index p l); simpl; [done|]. intros _. constructor; auto.
Qed.

Lemma js_strict_eq_str (d : string) (v : jsval) :
  js_strict_eq v (JStr d) = true <-> v = JStr d.
Proof.
  destruct v; simpl; split; try done.
  - intros H. apply bool_decide_eq_true_1 in H. by subst.
  - intros [= ->]. by apply bool_decide_eq_true_2.
Qed.

Lemma find_index_all_false {A} (p : A -> bool) (l : list A) :
  (forall x, p x = false) -> find_index p l = None.
Proof. intros Hp. induction l as [|x l IH]; simpl; [done|]. by rewrite Hp, IH. Qed.

Lemma schedule_date_js_str (s : Schedule) (d : string) :
  schedule_date_js s = JStr d <-> s.(s_date) = inr d.
Proof. unfold schedule_date_js. destruct (s_date s); split; congruence. Qed.

(** A date sent as a JSON number never equals a stored (string) date:
    the entry is always appended. *)
Lemma upsert_number_date (n : Z) (e : Schedule) (l : list Schedule) :
  upsert_schedule (JNum n) e l = l ++ [e].
Proof.
  unfold upsert_schedule. rewrite find_index_all_false; [done|].
  intros s. unfold schedule_date_js. by destruct (s_date s).
Qed.

(** With a string date, the entries keep pairwise distinct dates and the
    new entry is among them. *)
Lemma upsert_string_date (d : string) (e : Schedule) (l : list Schedule) :
  e.(s_date) = inr d -> NoDup (map s_date l) ->
  NoDup (map s_date (upsert_schedule (JStr d) e l)) /\ e ∈ upsert_schedule (JStr d) e l.
Proof.
  intros He Hnd. unfold upsert_schedule.
  destruct (find_index _ l) as [i|] eqn:Hf.
  - apply find_index_Some in Hf as (x & Hx & Hxd).
    apply js_strict_eq_str, schedule_date_js_str in Hxd.
    split.
    + rewrite list_fmap_insert, He, list_insert_id; [done|].
      by rewrite list_lookup_fmap, Hx, <- Hxd.
    + apply list_elem_of_insert. by eapply lookup_lt_Some.
  - apply find_index_None in Hf. split.
    + rewrite fmap_app. simpl. apply NoDup_app. split; [done|]. split; [|apply NoDup_singleton].
      intros x Hx ->%list_elem_of_singleton. rewrite He in Hx.
      apply list_elem_of_fmap in Hx as (s & Hs & Hsl).
      rewrite Forall_forall in Hf. specialize (Hf s Hsl).
      rewrite (proj2 (js_strict_eq_str d _) (proj2 (schedule_date_js_str s d) (eq_sym Hs))) in Hf.
      done.
    + apply elem_of_app. right. by apply list_elem_of_singleton.
Qed.

(** Pairwise distinct dates: an entry of a given date is the only one. *)
Lemma unique_date_entry (l : list Schedule) (x y : Schedule) :
  NoDup (map s_date l) -> x ∈ l -> y ∈ l -> x.(s_date) = y.(s_date) -> x = y.
Proof.
  intros Hnd Hx Hy Hxy.
  apply list_elem_of_lookup in Hx as [i Hi]. apply list_elem_of_lookup in Hy as [j Hj].
  assert (i = j) as ->; [|congruence].
  eapply NoDup_lookup; [exact Hnd | | ].
  - by rewrite list_lookup_fmap, Hi.
  - by rewrite list_lookup_fmap, Hj, Hxy.
Qed.

Lemma upsert_elem (date : jsval) (e : Schedule) (l : list Schedule) :
  e ∈ upsert_schedule date e l.
Proof.
  unfold upsert_schedule. destruct (find_index _ l) as [i|] eqn:Hf.
  - apply find_index_Some in Hf as (x & Hx & _).
    apply list_elem_of_insert. by eapply lookup_lt_Some.
  - apply elem_of_app. right. by apply list_elem_of_singleton.
Qed.

Lemma upsert_nil (date : jsval) (e : Schedule) : upsert_schedule date e [] = [e].
Proof. reflexivity. Qed.

Lemma upsert_Forall (P : Schedule -> Prop) (date : jsval) (e : Schedule) (l : list Schedule) :
  P e -> Forall P l -> Forall P (upsert_schedule date e l).
Proof.
  intros He Hl. unfold upsert_schedule. destruct (find_index _ l).
  - by apply Forall_insert.
  - apply Forall_app. split; [done|]. by constructor.
Qed.

Lemma doctor_validate_schedules (d : Doctor) :
  doctor_validate d = None -> Forall (fun s => schedule_error s = None) d.(schedules).
Proof.
  unfold doctor_validate. rewrite first_error_None, Forall_app, Forall_fmap.
  intros [_ H]. exact H.
Qed.

Lemma doctor_validate_stamp (t : Z) (b : bool) (d : Doctor) :
  doctor_validate (doctor_stamp t b d) = doctor_validate d.
Proof. by destruct d. Qed.

(** ** The service *)

(** The body [res.json] sends on success at time [t]. *)
Definition availability_result (doctorId0 : string) (schedule : jsval) (t : Z) : jsval :=
  JObj [("success", JBool true);
        ("message", JStr "Doctor availability updated successfully");
        ("doctorId", JStr doctorId0);
        ("schedule", schedule_json schedule t);
        ("updatedAt", JStr (to_iso_string t))].

(** The doctor record stored after the update of [d] at time [t]. *)
Definition updated_doctor (schedule : jsval) (t : Z) (d : Doctor) : Doctor :=
  doctor_stamp t false
    (with_schedules (upsert_schedule (get_prop schedule "date") (cast_schedule schedule t) d.(schedules)) d).

(** The doctor record stored when [id] had none. *)
Definition provisioned_record (id : string) (schedule : jsval) (t : Z) : Doctor :=
  doctor_stamp t true (with_schedules [cast_schedule schedule t] (provisioned_doctor id)).

Definition schedule_keys : list string := ["date"; "startTime"; "endTime"; "available"].

(** The body sent when the save is rejected with message [e]. *)
Definition availability_error (e : string) : jsval :=
  JObj [("success", JBool false); ("message", JStr ("Error updating doctor availability: " +:+ e))].

Lemma provisioned_validate (id : string) (e : Schedule) :
  id <> "" ->
  doctor_validate (with_schedules [e] (provisioned_doctor id)) = schedule_error e.
Proof.
  intros Hid. unfold doctor_validate, first_error. simpl. bd_simpl. simpl.
  destruct (schedule_error e); reflexivity.
Qed.

Lemma upsert_invalid (date : jsval) (e : Schedule) (l : list Schedule) (d : Doctor) :
  schedule_error e <> None -> doctor_validate (with_schedules (upsert_schedule date e l) d) <> None.
Proof.
  intros He. unfold doctor_validate. rewrite first_error_None, Forall_app, Forall_fmap.
  intros [_ Hl]. simpl in Hl. rewrite Forall_forall in Hl. exact (He (Hl e (upsert_elem date e l))).
Qed.

Section Update.
Context (w : World) (id : string) (sch : jsval).
Hypothesis Hdb : w.(w_db_fault) = None.
Hypothesis Hid : id <> "".
Hypothesis Hobj : truthy sch = true.
Hypothesis Htype : typeof sch = "object".
Hypothesis Hshadow : has_own_property sch "hasOwnProperty" = false.
Hypothesis Hkeys : forallb (has_own_property sch) schedule_keys = true.

(** The key test passes and the handler goes on to [findOne]. *)
Lemma availability_keys_pass (K : Svc jsval) (h : string -> Svc jsval) :
  try_catch (hasAllFields <- every (call_hasOwnProperty sch) ["date"; "startTime"; "endTime"; "available"] ;;
             if negb hasAllFields then
               ret (JObj [("success", JBool false);
                          ("message", JStr "Schedule must include: date, startTime, endTime, available")])
             else K) h w = try_catch K h w.
Proof.
  unfold try_catch. rewrite (run_bind_ok _ _ _ _ _ (every_own_keys sch _ w Hshadow)).
  unfold schedule_keys in Hkeys. by rewrite Hkeys.
Qed.

(** Past the guards, on a stored doctor: the save validates the updated
    record and either writes it or is rejected. *)
Lemma availability_existing_run (d : Doctor) :
  w.(w_doctors) !! id = Some d -> d.(d_doctorId) = id ->
  updateDoctorAvailability id sch w =
    match doctor_validate (with_schedules (upsert_schedule (get_prop sch "date")
                              (cast_schedule sch w.(w_clock)) d.(schedules)) d) with
    | Some e => (Ok (availability_error (validation_message (T := Doctor) e)), w)
    | None => (Ok (availability_result id sch w.(w_clock)),
               with_doctors (<[id := updated_doctor sch w.(w_clock) d]> w.(w_doctors)) w)
    end.
Proof.
  intros Hd Hk. rewrite availability_guards, availability_keys_pass by done. svc_unfold. simpl.
  rewrite Hdb. unfold find_one. rewrite Hd. simpl.
  unfold doctor_set_schedules, doc_set, save_doc. simpl. rewrite Hk, Hd, Hdb.
  destruct (doctor_validate _); [|reflexivity]. by destruct w.
Qed.

(** Past the guards, with no stored doctor: a provisioned doctor with
    the one entry is validated and inserted. *)
Lemma availability_provisioned_run :
  w.(w_doctors) !! id = None ->
  updateDoctorAvailability id sch w =
    match schedule_error (cast_schedule sch w.(w_clock)) with
    | Some e => (Ok (availability_error (validation_message (T := Doctor) e)), w)
    | None => (Ok (availability_result id sch w.(w_clock)),
               with_doctors (<[id := provisioned_record id sch w.(w_clock)]> w.(w_doctors)) w)
    end.
Proof.
  intros Hd. rewrite availability_guards, availability_keys_pass by done. svc_unfold. simpl.
  rewrite Hdb. unfold find_one. rewrite Hd. simpl.
  unfold doctor_set_schedules, doc_set, save_doc. simpl. rewrite Hd, Hdb.
  rewrite upsert_nil, (provisioned_validate id _ Hid).
  destruct (schedule_error _); [|reflexivity]. by destruct w.
Qed.

Lemma availability_existing (d : Doctor) :
  w.(w_doctors) !! id = Some d -> d.(d_doctorId) = id -> doctor_validate d = None ->
  schedule_error (cast_schedule sch w.(w_clock)) = None ->
  updateDoctorAvailability id sch w =
    (Ok (availability_result id sch w.(w_clock)),
     with_doctors (<[id := updated_doctor sch w.(w_clock) d]> w.(w_doctors)) w).
Proof.
  intros Hd Hk Hv He. rewrite (availability_existing_run d Hd Hk).
  by rewrite doctor_validate_with_schedules by auto using upsert_Forall, doctor_validate_schedules.
Qed.

(** C18: a request that passes the handler's checks (an object that
    does not shadow [hasOwnProperty] and has the four keys) but whose
    entry fails its schema is rejected with Mongoose's validation
    message, whether or not the doctor exists, and nothing is written. *)
Lemma availability_invalid_entry (m : string) :
  (forall d, w.(w_doctors) !! id = Some d -> d.(d_doctorId) = id) ->
  schedule_error (cast_schedule sch w.(w_clock)) = Some m ->
  exists e, updateDoctorAvailability id sch w =
    (Ok (availability_error (validation_message (T := Doctor) e)), w).
Proof.
  intros Hkey He. destruct (w_doctors w !! id) as [d|] eqn:Hd.
  - rewrite (availability_existing_run d Hd (Hkey d eq_refl)).
    destruct (doctor_validate _) as [e|] eqn:Hv; [by eexists|].
    exfalso. refine (upsert_invalid _ _ _ _ _ Hv). by rewrite He.
  - rewrite (availability_provisioned_run Hd), He. by eexists.
Qed.
End Update.

(** ** The guards *)

Definition availability_fail (msg : string) : jsval :=
  JObj [("success", JBool false); ("message", JStr msg)].

Lemma availability_missing_id (w : World) (sch : jsval) :
  updateDoctorAvailability "" sch w = (Ok (availability_fail "Doctor ID is required"), w).
Proof. reflexivity. Qed.

Lemma availability_not_object (w : World) (id : string) (sch : jsval) :
  id <> "" -> truthy sch = false \/ typeof sch <> "object" ->
  updateDoctorAvailability id sch w = (Ok (availability_fail "Valid schedule object is required"), w).
Proof.
  intros Hid Hs. unfold updateDoctorAvailability, try_catch, ret. bd_simpl.
  destruct Hs as [-> | Ht]; [done|]. rewrite (bool_decide_eq_false_2 _ Ht), orb_true_r. done.
Qed.

Lemma availability_missing_field (w : World) (id : string) (sch : jsval) :
  id <> "" -> truthy sch = true -> typeof sch = "object" ->
  has_own_property sch "hasOwnProperty" = false ->
  forallb (has_own_property sch) schedule_keys = false ->
  updateDoctorAvailability id sch w =
    (Ok (availability_fail "Schedule must include: date, startTime, endTime, available"), w).
Proof.
  intros Hid Ho Ht Hs Hk. unfold schedule_keys in Hk. rewrite availability_guards by done.
  unfold try_catch. by rewrite (run_bind_ok _ _ _ _ _ (every_own_keys sch _ w Hs)), Hk.
Qed.

(** A body with its own [hasOwnProperty] key: the first
    [schedule.hasOwnProperty(field)] throws, and the [catch] answers
    with the [TypeError]'s message. *)
Lemma availability_shadowed (w : World) (id : string) (sch : jsval) :
  id <> "" -> truthy sch = true -> typeof sch = "object" ->
  has_own_property sch "hasOwnProperty" = true ->
  updateDoctorAvailability id sch w =
    (Ok (availability_error "schedule.hasOwnProperty is not a function"), w).
Proof.
  intros Hid Ho Ht Hs. rewrite availability_guards by done.
  unfold try_catch. by rewrite (run_bind_throw _ _ _ _ _ (every_shadowed sch _ _ w Hs)).
Qed.

Lemma availability_fault (w : World) (id : string) (sch : jsval) (e : string) :
  id <> "" -> truthy sch = true -> typeof sch = "object" ->
  has_own_property sch "hasOwnProperty" = false ->
  forallb (has_own_property sch) schedule_keys = true -> w.(w_db_fault) = Some e ->
  updateDoctorAvailability id sch w = (Ok (availability_error e), w).
Proof.
  intros Hid Ho Ht Hs Hk Hf. unfold schedule_keys in Hk. rewrite availability_guards by done.
  unfold try_catch at 1. rewrite (run_bind_ok _ _ _ _ _ (every_own_keys sch _ w Hs)), Hk.
  svc_unfold. simpl. by rewrite Hf.
Qed.

(** ** What a call writes *)

(** The schedule list the call starts from: the stored doctor's, or the
    provisioned doctor's empty one. *)
Definition current_schedules (w : World) (id : string) : list Schedule :=
  match w.(w_doctors) !! id with Some d => d.(schedules) | None => [] end.

(** The stored doctors are keyed by their id and pass validation: what
    [save] guarantees of every record it writes. *)
Definition doctor_ok (k : string) (d : Doctor) : Prop :=
  d.(d_doctorId) = k /\ doctor_validate d = None.

(** The invariant of the availability data: well-formed records, and
    the entries of each doctor have pairwise distinct dates. *)
Definition doctor_wf (k : string) (d : Doctor) : Prop :=
  doctor_ok k d /\ NoDup (map s_date d.(schedules)).

Definition doctors_wf (w : World) : Prop := map_Forall doctor_wf w.(w_doctors).

Lemma doctor_ok_updated (k : string) (sch : jsval) (t : Z) (d : Doctor) :
  d.(d_doctorId) = k -> doctor_validate (with_schedules (upsert_schedule (get_prop sch "date")
                          (cast_schedule sch t) d.(schedules)) d) = None ->
  doctor_ok k (updated_doctor sch t d).
Proof. intros Hk Hv. unfold updated_doctor. split; [by destruct d | by rewrite doctor_validate_stamp]. Qed.

(** A call past its guards, with a valid entry, on a store of well-formed
    records, succeeds and writes the doctor of [id] with the entry
    upserted into its current schedule list. *)
Lemma availability_success (w : World) (id : string) (sch : jsval) :
  w.(w_db_fault) = None -> id <> "" -> truthy sch = true -> typeof sch = "object" ->
  has_own_property sch "hasOwnProperty" = false ->
  forallb (has_own_property sch) schedule_keys = true ->
  (forall d, w.(w_doctors) !! id = Some d -> doctor_ok id d) ->
  schedule_error (cast_schedule sch w.(w_clock)) = None ->
  exists D, updateDoctorAvailability id sch w =
      (Ok (availability_result id sch w.(w_clock)), with_doctors (<[id := D]> w.(w_doctors)) w) /\
    doctor_ok id D /\
    D.(schedules) = upsert_schedule (get_prop sch "date") (cast_schedule sch w.(w_clock))
                      (current_schedules w id).
Proof.
  intros Hdb Hid Ho Ht Hs Hk Hok He. unfold current_schedules.
  destruct (w_doctors w !! id) as [d|] eqn:Hd.
  - destruct (Hok d eq_refl) as [Hkey Hv].
    eexists. rewrite (availability_existing w id sch Hdb Hid Ho Ht Hs Hk d Hd Hkey Hv He).
    split; [done|]. split; [|by destruct d].
    apply doctor_ok_updated; [done|].
    apply doctor_validate_with_schedules; auto using upsert_Forall, doctor_validate_schedules.
  - eexists. rewrite (availability_provisioned_run w id sch Hdb Hid Ho Ht Hs Hk Hd), He.
    split; [done|]. split; [|done]. split; [done|].
    unfold provisioned_record. by rewrite doctor_validate_stamp, provisioned_validate.
Qed.

(** Whatever its outcome, a call leaves the store as it was or writes
    the doctor of [id] with a record that passes validation and whose
    entries are the current ones with the new entry upserted. *)
Lemma availability_store_cases (w : World) (id : string) (sch : jsval) :
  (forall d, w.(w_doctors) !! id = Some d -> d.(d_doctorId) = id) ->
  snd (updateDoctorAvailability id sch w) = w \/
  exists D, snd (updateDoctorAvailability id sch w) = with_doctors (<[id := D]> w.(w_doctors)) w /\
    doctor_ok id D /\
    D.(schedules) = upsert_schedule (get_prop sch "date") (cast_schedule sch w.(w_clock))
                      (current_schedules w id).
Proof.
  intros Hkey. destruct (decide (id = "")) as [->|Hid]; [by left|].
  destruct (truthy sch) eqn:Ho; [|left; rewrite availability_not_object; auto].
  destruct (decide (typeof sch = "object")) as [Ht|Ht];
    [|left; rewrite availability_not_object; auto].
  destruct (has_own_property sch "hasOwnProperty") eqn:Hs; [left; by rewrite availability_shadowed|].
  destruct (forallb (has_own_property sch) schedule_keys) eqn:Hk; [|left; by rewrite availability_missing_field].
  destruct (w_db_fault w) as [e|] eqn:Hf; [left; by erewrite availability_fault|].
  unfold current_schedules. destruct (w_doctors w !! id) as [d|] eqn:Hd.
  - rewrite (availability_existing_run w id sch Hf Hid Ho Ht Hs Hk d Hd (Hkey d eq_refl)).
    destruct (doctor_validate _) eqn:Hv; [by left|]. right.
    eexists. split; [done|]. split; [apply doctor_ok_updated; [exact (Hkey d eq_refl) | done]|]. by destruct d.
  - rewrite (availability_provisioned_run w id sch Hf Hid Ho Ht Hs Hk Hd).
    destruct (schedule_error _) eqn:He; [by left|]. right.
    eexists. split; [done|]. split; [|done]. split; [done|].
    unfold provisioned_record. by rewrite doctor_validate_stamp, provisioned_validate.
Qed.

(** An entry that validates and was cast from the string [s] has date [s]. *)
Lemma cast_schedule_date (sch : jsval) (t : Z) (s : string) :
  get_prop sch "date" = JStr s -> schedule_error (cast_schedule sch t) = None ->
  (cast_schedule sch t).(s_date) = inr s.
Proof.
  unfold schedule_error, cast_schedule, required_string. simpl. intros ->. simpl.
  case_bool_decide; [done|]. done.
Qed.

Lemma upsert_entry_valid (date : jsval) (e : Schedule) (l : list Schedule) (d : Doctor) :
  doctor_validate (with_schedules (upsert_schedule date e l) d) = None -> schedule_error e = None.
Proof.
  intros Hv. destruct (schedule_error e) eqn:He; [|done].
  exfalso. refine (upsert_invalid date e l d _ Hv). by rewrite He.
Qed.

(** The request checks of the handler, as one test: an object that does
    not shadow [hasOwnProperty] and has the four keys. *)
Definition schedule_request_ok (sch : jsval) : bool :=
  truthy sch && bool_decide (typeof sch = "object") && negb (has_own_property sch "hasOwnProperty") &&
  forallb (has_own_property sch) schedule_keys.

Lemma schedule_request_ok_spec (sch : jsval) :
  schedule_request_ok sch = true ->
  truthy sch = true /\ typeof sch = "object" /\ has_own_property sch "hasOwnProperty" = false /\
  forallb (has_own_property sch) schedule_keys = true.
Proof.
  unfold schedule_request_ok. rewrite !andb_true_iff, negb_true_iff, bool_decide_eq_true. tauto.
Qed.

Lemma doctors_wf_ok (w : World) (id : string) (d : Doctor) :
  doctors_wf w -> w.(w_doctors) !! id = Some d -> doctor_ok id d.
Proof. intros Hwf Hd. exact (proj1 (Hwf id d Hd)). Qed.

Lemma doctors_wf_current (w : World) (id : string) :
  doctors_wf w -> NoDup (map s_date (current_schedules w id)).
Proof.
  intros Hwf. unfold current_schedules. destruct (w_doctors w !! id) as [d|] eqn:Hd.
  - exact (proj2 (Hwf id d Hd)).
  - constructor.
Qed.

Lemma doctor_ok_entry (id : string) (D : Doctor) (date : jsval) (e : Schedule) (l : list Schedule) :
  doctor_ok id D -> D.(schedules) = upsert_schedule date e l -> schedule_error e = None.
Proof.
  intros [_ Hv] Hs. apply doctor_validate_schedules in Hv. rewrite Hs, Forall_forall in Hv.
  apply Hv, upsert_elem.
Qed.

Lemma NoDup_snoc_twice {A} (l : list A) (x : A) : ~ NoDup (l ++ [x; x]).
Proof.
  rewrite NoDup_app. intros (_ & _ & Hnd). apply NoDup_cons in Hnd as [Hx _].
  apply Hx. by apply list_elem_of_singleton.
Qed.

(** ** The invariant and the upsert *)

(** A call with a string date keeps
    every stored doctor well-formed (keyed by its id, valid) and the
    dates of each doctor's entries pairwise distinct, whatever its
    outcome. *)
Theorem availability_preserves_wf (w : World) (id : string) (sch : jsval) (s : string) :
  doctors_wf w -> get_prop sch "date" = JStr s ->
  doctors_wf (snd (updateDoctorAvailability id sch w)).
Proof.
  intros Hwf Hs.
  destruct (availability_store_cases w id sch) as [->|(D & -> & Hok & Hsch)];
    [intros d Hd; exact (proj1 (doctors_wf_ok w id d Hwf Hd)) | done |].
  apply map_Forall_insert_2; [|done]. split; [done|]. rewrite Hsch, Hs.
  apply upsert_string_date; [|by apply doctors_wf_current].
  apply cast_schedule_date; [done|]. eapply doctor_ok_entry; [exact Hok | by rewrite Hsch].
Qed.

(** On a well-formed store, a successful
    update with the string date [s] leaves the doctor with exactly one
    entry of date [s], the one just sent, whatever entries it had. *)
Theorem availability_sets_entry (w : World) (id : string) (sch : jsval) (s : string) :
  doctors_wf w -> w.(w_db_fault) = None -> id <> "" -> schedule_request_ok sch = true ->
  get_prop sch "date" = JStr s -> schedule_error (cast_schedule sch w.(w_clock)) = None ->
  exists D, (snd (updateDoctorAvailability id sch w)).(w_doctors) !! id = Some D /\
    cast_schedule sch w.(w_clock) ∈ D.(schedules) /\
    forall x, x ∈ D.(schedules) -> x.(s_date) = inr s -> x = cast_schedule sch w.(w_clock).
Proof.
  intros Hwf Hdb Hid Hreq Hs He. destruct (schedule_request_ok_spec sch Hreq) as (Ho & Ht & Hsh & Hk).
  destruct (availability_success w id sch Hdb Hid Ho Ht Hsh Hk (fun d => doctors_wf_ok w id d Hwf) He)
    as (D & -> & _ & Hsch).
  exists D. simpl. rewrite lookup_insert_eq. split; [done|].
  rewrite Hsch, Hs. pose proof (cast_schedule_date sch (w_clock w) s Hs He) as Hd.
  destruct (upsert_string_date s _ _ Hd (doctors_wf_current w id Hwf)) as [Hnd Hin].
  split; [done|]. intros x Hx Hxs. eapply unique_date_entry; [exact Hnd | done | done | congruence].
Qed.

Lemma availability_keeps_env (w : World) (id : string) (sch : jsval) :
  (forall d, w.(w_doctors) !! id = Some d -> d.(d_doctorId) = id) ->
  (snd (updateDoctorAvailability id sch w)).(w_db_fault) = w.(w_db_fault) /\
  (snd (updateDoctorAvailability id sch w)).(w_clock) = w.(w_clock).
Proof.
  intros Hkey. by destruct (availability_store_cases w id sch Hkey) as [->|(D & -> & _)].
Qed.

(** ** Properties *)

(** C15: two updates of one doctor with the
    same string date, the second one successful, leave exactly one entry
    of that date, and it holds the second update's values; this is what
    the overwrite in place is for. *)
Theorem availability_upsert_twice (w : World) (id : string) (sch1 sch2 : jsval) (s : string) :
  doctors_wf w -> w.(w_db_fault) = None -> id <> "" -> schedule_request_ok sch2 = true ->
  get_prop sch1 "date" = JStr s -> get_prop sch2 "date" = JStr s ->
  schedule_error (cast_schedule sch2 w.(w_clock)) = None ->
  exists D,
    (snd (updateDoctorAvailability id sch2 (snd (updateDoctorAvailability id sch1 w)))).(w_doctors) !! id
      = Some D /\
    cast_schedule sch2 w.(w_clock) ∈ D.(schedules) /\
    forall x, x ∈ D.(schedules) -> x.(s_date) = inr s -> x = cast_schedule sch2 w.(w_clock).
Proof.
  intros Hwf Hdb Hid Hreq Hs1 Hs2 He.
  destruct (availability_keeps_env w id sch1 (fun d Hd => proj1 (doctors_wf_ok w id d Hwf Hd)))
    as [Hdb1 Hclk1].
  rewrite <- Hclk1 in He |- *. apply availability_sets_entry; try done.
  - by eapply availability_preserves_wf.
  - by rewrite Hdb1.
Qed.

(** C16: a date sent as a JSON number
    is stored as its string but compared as a number, so it never matches:
    two successful updates with the same numeric date append two entries
    with the same date, and the doctor's dates are no longer distinct. *)
Theorem availability_number_date_duplicates (w : World) (id : string) (sch1 sch2 : jsval) (n : Z) :
  doctors_wf w -> w.(w_db_fault) = None -> id <> "" ->
  schedule_request_ok sch1 = true -> schedule_request_ok sch2 = true ->
  get_prop sch1 "date" = JNum n -> get_prop sch2 "date" = JNum n ->
  schedule_error (cast_schedule sch1 w.(w_clock)) = None ->
  schedule_error (cast_schedule sch2 w.(w_clock)) = None ->
  exists D,
    (snd (updateDoctorAvailability id sch2 (snd (updateDoctorAvailability id sch1 w)))).(w_doctors) !! id
      = Some D /\
    D.(schedules) = current_schedules w id ++ [cast_schedule sch1 w.(w_clock); cast_schedule sch2 w.(w_clock)] /\
    ~ NoDup (map s_date D.(schedules)).
Proof.
  intros Hwf Hdb Hid Hr1 Hr2 Hn1 Hn2 He1 He2.
  destruct (schedule_request_ok_spec sch1 Hr1) as (Ho1 & Ht1 & Hs1' & Hk1).
  destruct (schedule_request_ok_spec sch2 Hr2) as (Ho2 & Ht2 & Hs2' & Hk2).
  destruct (availability_success w id sch1 Hdb Hid Ho1 Ht1 Hs1' Hk1 (fun d => doctors_wf_ok w id d Hwf) He1)
    as (D1 & -> & Hok1 & Hs1).
  set (w1 := with_doctors (<[id := D1]> (w_doctors w)) w).
  assert (Hcur : current_schedules w1 id = D1.(schedules)).
  { unfold current_schedules. simpl. by rewrite lookup_insert_eq. }
  destruct (availability_success w1 id sch2 Hdb Hid Ho2 Ht2 Hs2' Hk2) as (D2 & Hrun2 & _ & Hs2).
  { intros d. simpl. rewrite lookup_insert_eq. by intros [= <-]. }
  { exact He2. }
  simpl. rewrite Hrun2. exists D2. simpl. rewrite lookup_insert_eq. split; [done|].
  assert (Hsch : D2.(schedules) = current_schedules w id ++
            [cast_schedule sch1 w.(w_clock); cast_schedule sch2 w.(w_clock)]).
  { rewrite Hs2, Hcur, Hs1, Hn1, Hn2, !upsert_number_date, <- app_assoc. reflexivity. }
  split; [done|]. rewrite Hsch, map_app.
  change (map s_date [?a; ?b]) with [s_date a; s_date b].
  replace (s_date (cast_schedule sch2 (w_clock w))) with (s_date (cast_schedule sch1 (w_clock w)))
    by (unfold cast_schedule; simpl; by rewrite Hn1, Hn2).
  apply NoDup_snoc_twice.
Qed.

#[export] Instance doctor_wf_dec (k : string) (d : Doctor) : Decision (doctor_wf k d).
Proof. unfold doctor_wf, doctor_ok. apply _. Defined.

#[export] Instance doctors_wf_dec (w : World) : Decision (doctors_wf w).
Proof. unfold doctors_wf. apply _. Defined.

(** A stream of availability requests, each run on the world the previous
    one left. *)
Fixpoint run_availability (w : World) (reqs : list (string * jsval)) : World :=
  match reqs with
  | [] => w
  | (id, sch) :: reqs' => run_availability (snd (updateDoctorAvailability id sch w)) reqs'
  end.

Definition date_is_string (sch : jsval) : bool :=
  match get_prop sch "date" with JStr _ => true | _ => false end.

(** C17: from a well-formed store, any stream
    of availability requests whose dates are strings keeps every doctor
    well-formed with pairwise distinct dates, whatever each request
    returns. *)
Theorem availability_reachable_wf (w : World) (reqs : list (string * jsval)) :
  doctors_wf w -> forallb (fun r => date_is_string r.2) reqs = true ->
  doctors_wf (run_availability w reqs).
Proof.
  revert w. induction reqs as [|[id sch] reqs IH]; intros w Hwf Hs; simpl in *; [done|].
  apply andb_true_iff in Hs as [Hd Hs]. apply IH; [|done].
  unfold date_is_string in Hd. destruct (get_prop sch "date") eqn:Hsch; try done.
  by eapply availability_preserves_wf.
Qed.

(** C36: a body that carries its own [hasOwnProperty] key (any JSON
    value) shadows [Object.prototype.hasOwnProperty]: the first
    [schedule.hasOwnProperty(field)] of the key check throws a
    [TypeError], the [catch] answers with its message, and nothing is
    read or written. *)
Theorem availability_shadowed_method (w : World) (id : string) (fs : list (string * jsval)) :
  id <> "" -> has_own_property (JObj fs) "hasOwnProperty" = true ->
  updateDoctorAvailability id (JObj fs) w =
    (Ok (JObj [("success", JBool false);
               ("message", JStr "Error updating doctor availability: schedule.hasOwnProperty is not a function")]),
     w).
Proof. intros Hid Hs. by apply availability_shadowed. Qed.

(** ** Worked examples *)

Definition sample_doctor : Doctor :=
  mkDoctor "D001" "Dr. Smith" "Cardiology"
    [mkSchedule (inr "2025-11-10") (inr "09:00") (inr "17:00") (inr (Some true)) 0] 0 0.

Definition doctor_world : World := with_doctors {[ "D001" := sample_doctor ]} sample_world.

(** The request body of [PUT /api/doctors/:doctorId/availability]. *)
Definition sched_req (date : jsval) (start : string) : jsval :=
  JObj [("date", date); ("startTime", JStr start); ("endTime", JStr "17:00");
        ("available", JBool true)].

Lemma availability_upsert_twice_witness :
  exists D,
    (snd (updateDoctorAvailability "D001" (sched_req (JStr "2025-11-10") "10:00")
      (snd (updateDoctorAvailability "D001" (sched_req (JStr "2025-11-10") "09:30") doctor_world)))).(w_doctors)
      !! "D001" = Some D /\
    cast_schedule (sched_req (JStr "2025-11-10") "10:00") doctor_world.(w_clock) ∈ D.(schedules) /\
    forall x, x ∈ D.(schedules) -> x.(s_date) = inr "2025-11-10" ->
      x = cast_schedule (sched_req (JStr "2025-11-10") "10:00") doctor_world.(w_clock).
Proof.
  apply (availability_upsert_twice doctor_world "D001" _ _ "2025-11-10").
  - apply (bool_decide_eq_true_1 (doctors_wf doctor_world)). vm_compute. reflexivity.
  - reflexivity.
  - discriminate.
  - vm_compute. reflexivity.
  - reflexivity.
  - reflexivity.
  - vm_compute. reflexivity.
Defined.

Lemma availability_number_date_duplicates_witness :
  exists D,
    (snd (updateDoctorAvailability "D001" (sched_req (JNum 20251110) "10:00")
      (snd (updateDoctorAvailability "D001" (sched_req (JNum 20251110) "09:30") doctor_world)))).(w_doctors)
      !! "D001" = Some D /\
    D.(schedules) = current_schedules doctor_world "D001" ++
      [cast_schedule (sched_req (JNum 20251110) "09:30") doctor_world.(w_clock);
       cast_schedule (sched_req (JNum 20251110) "10:00") doctor_world.(w_clock)] /\
    ~ NoDup (map s_date D.(schedules)).
Proof.
  apply (availability_number_date_duplicates doctor_world "D001" _ _ 20251110).
  - apply (bool_decide_eq_true_1 (doctors_wf doctor_world)). vm_compute. reflexivity.
  - reflexivity.
  - discriminate.
  - vm_compute. reflexivity.
  - vm_compute. reflexivity.
  - reflexivity.
  - reflexivity.
  - vm_compute. reflexivity.
  - vm_compute. reflexivity.
Defined.

Lemma availability_reachable_wf_witness :
  doctors_wf (run_availability doctor_world
    [("D001", sched_req (JStr "2025-11-10") "09:30"); ("D002", sched_req (JStr "2025-11-11") "08:00");
     ("D001", sched_req (JStr "2025-11-12") "13:00")]).
Proof.
  apply availability_reachable_wf.
  - apply (bool_decide_eq_true_1 (doctors_wf doctor_world)). vm_compute. reflexivity.
  - reflexivity.
Defined.

Lemma availability_invalid_entry_witness :
  exists e, updateDoctorAvailability "D001" (sched_req (JStr "") "09:30") doctor_world =
    (Ok (availability_error (validation_message (T := Doctor) e)), doctor_world).
Proof.
  apply (availability_invalid_entry doctor_world "D001" (sched_req (JStr "") "09:30") eq_refl
           ltac:(discriminate) eq_refl eq_refl eq_refl eq_refl "Path date is required.").
  - intros d Hd. vm_compute in Hd. injection Hd as <-. reflexivity.
  - vm_compute. reflexivity.
Defined.

Lemma availability_shadowed_method_witness :
  updateDoctorAvailability "D001"
    (JObj [("date", JStr "2025-11-10"); ("startTime", JStr "09:00"); ("endTime", JStr "17:00");
           ("available", JBool true); ("hasOwnProperty", JBool true)]) doctor_world =
    (Ok (JObj [("success", JBool false);
               ("message", JStr "Error updating doctor availability: schedule.hasOwnProperty is not a function")]),
     doctor_world).
Proof. apply availability_shadowed_method; [discriminate | reflexivity]. Defined.
