(* ===== verification/Notify.v ===== *)
(** * Notify: [sendNotification] and [generateNotificationId]
      (core-functions-db.js, lines 377-431 and 439-443)

    The service checks the patient id and the message, draws a
    notification id from the clock and the random stream, builds the
    [Notification] document with the trimmed message, saves it, and
    returns the stored values.  [message.trim()] is JavaScript's: on a
    string it removes the white space of both ends, on any other truthy
    value it throws the [TypeError] that the [catch] turns into a failed
    result. *)

From S2P Require Import Prelude JsString JsDate Json Mongoose Schemas Db Lifecycle.

(** [message.trim()] *)
Definition js_trim (v : jsval) : Svc string :=
  match v with
  | JStr s => ret (trim s)
  | _ => throw "message.trim is not a function"
  end.

(** [generateNotificationId()] (lines 439-443) *)
Definition generateNotificationId : Svc string :=
  timestamp <- now ;;
  random <- random_below 1000 ;;
  ret ("NOT" +:+ number_to_string timestamp +:+ number_to_string random).

(** [new Notification({...})] with the defaults of the schema. *)
Definition new_notification (notificationId0 : string) (patientId0 : jsval) (message0 : string)
    (sentAt0 : Z) : Notification :=
  mkNotification notificationId0 (required_string "patientId" patientId0) message0
    General Console Sent sentAt0 0 0.

Definition notify_fail (msg : string) : jsval :=
  fail_obj msg [("notificationId", JNull)].

(** [!message || message.trim().length === 0] *)
Definition message_blank (message : jsval) : Svc bool :=
  if negb (truthy message) then ret true
  else m <- js_trim message ;; ret (bool_decide (String.length m = 0%nat)).

(** [sendNotification(patientId, message)] (lines 378-431) *)
Definition sendNotification (patientId0 message : jsval) : Svc jsval :=
  try_catch (
    if negb (truthy patientId0) then ret (notify_fail "Patient ID is required")
    else
    blank <- message_blank message ;;
    if blank then ret (notify_fail "Notification message cannot be empty")
    else
    notificationId0 <- generateNotificationId ;;
    m <- js_trim message ;;
    sentAt0 <- now ;;
    let notification := new_doc (new_notification notificationId0 patientId0 m sentAt0) in
    save_notification notification ;;;
    m' <- js_trim message ;;
    ret (JObj [("success", JBool true);
               ("message", JStr "Notification sent successfully");
               ("notificationId", JStr notificationId0);
               ("patientId", patientId0);
               ("notificationMessage", JStr m');
               ("sentAt", JStr (to_iso_string (doc_val notification).(sentAt)));
               ("deliveryMethod", JStr "console")])
  ) (fun e => ret (notify_fail ("Error sending notification: " +:+ e))).

(** ** What a call writes *)

(** The id [generateNotificationId] returns in world [w]. *)
Definition next_notification_id (w : World) : string :=
  "NOT" +:+ number_to_string w.(w_clock) +:+ number_to_string (draw_below 1000 w).

(** The record a successful call stores for the trimmed message [m]. *)
Definition sent_record (w : World) (ps m : string) : Notification :=
  notification_stamp w.(w_clock) true
    (new_notification (next_notification_id w) (JStr ps) m w.(w_clock)).

Definition sent_result (w : World) (p : jsval) (m : string) : jsval :=
  JObj [("success", JBool true);
        ("message", JStr "Notification sent successfully");
        ("notificationId", JStr (next_notification_id w));
        ("patientId", p);
        ("notificationMessage", JStr m);
        ("sentAt", JStr (to_iso_string w.(w_clock)));
        ("deliveryMethod", JStr "console")].

(** ** Lemmas *)

Lemma string_length_zero (s : string) : String.length s = 0%nat <-> s = "".
Proof. destruct s; simpl; split; done. Qed.

Lemma trim_length_zero (s : string) :
  bool_decide (String.length (trim s) = 0%nat) = all_space s.
Proof.
  destruct (all_space s) eqn:Ha.
  - apply bool_decide_eq_true_2, string_length_zero, trim_empty_iff, Ha.
  - apply bool_decide_eq_false_2. intros Hl.
    apply string_length_zero, trim_empty_iff in Hl. congruence.
Qed.

(** The emptiness test of the guard, on a string. *)
Lemma message_blank_str (s : string) (w : World) :
  message_blank (JStr s) w = (Ok (all_space s), w).
Proof.
  unfold message_blank, js_trim, bind, ret. simpl.
  destruct (bool_decide (s = "")) eqn:Hs; simpl.
  - apply bool_decide_eq_true_1 in Hs. by subst.
  - by rewrite trim_length_zero.
Qed.

Lemma notification_validate_new (id ps m : string) (t : Z) :
  id <> "" -> ps <> "" -> m <> "" ->
  notification_validate (new_notification id (JStr ps) m t) = None.
Proof.
  intros Hid Hps Hm. unfold notification_validate, new_notification, first_error, required_string.
  simpl. bd_simpl. reflexivity.
Qed.

Lemma next_notification_id_nonempty (w : World) : next_notification_id w <> "".
Proof. unfold next_notification_id. rewrite string_app_cons. discriminate. Qed.

Lemma trim_nonempty (s : string) : all_space s = false -> trim s <> "".
Proof. intros Ha Ht. apply trim_empty_iff in Ht. congruence. Qed.

Section Send.
Context (w : World) (ps s : string).
Hypothesis Hdb : w.(w_db_fault) = None.
Hypothesis Hps : ps <> "".
Hypothesis Hs : all_space s = false.

(** C19: A notification with a patient id and a message that is not blank is
    stored under the id drawn from the clock and the random stream, with
    the trimmed message, the console delivery and the status "sent";
    the result reports the id, the trimmed message and the send time. *)
Lemma notify_ok :
  w.(w_notifications) !! next_notification_id w = None ->
  sendNotification (JStr ps) (JStr s) w =
    (Ok (sent_result w (JStr ps) (trim s)),
     with_notifications (<[next_notification_id w := sent_record w ps (trim s)]> w.(w_notifications))
       (with_draws (S w.(w_draws)) w)).
Proof.
  intros Hfresh. assert (Hs0 : s <> "") by (intros ->; discriminate).
  unfold sendNotification, message_blank, generateNotificationId, js_trim.
  svc_unfold. simpl. bd_simpl. simpl. rewrite trim_length_zero, Hs. simpl. rewrite Hdb.
  unfold save_doc. simpl. fold (next_notification_id w).
  rewrite notification_validate_new by auto using next_notification_id_nonempty, trim_nonempty.
  rewrite Hfresh. reflexivity.
Qed.

(** An id drawn twice in the same millisecond hits the unique index:
    the call fails, nothing is stored, and the draw is spent. *)
Lemma notify_duplicate_id (n : Notification) :
  w.(w_notifications) !! next_notification_id w = Some n ->
  sendNotification (JStr ps) (JStr s) w =
    (Ok (notify_fail ("Error sending notification: " +:+
           duplicate_key_message (T := Notification) (next_notification_id w))),
     with_draws (S w.(w_draws)) w).
Proof.
  intros Htaken. assert (Hs0 : s <> "") by (intros ->; discriminate).
  unfold sendNotification, message_blank, generateNotificationId, js_trim.
  svc_unfold. simpl. bd_simpl. simpl. rewrite trim_length_zero, Hs. simpl. rewrite Hdb.
  unfold save_doc. simpl. fold (next_notification_id w).
  rewrite notification_validate_new by auto using next_notification_id_nonempty, trim_nonempty.
  rewrite Htaken. simpl. by destruct w.
Qed.
End Send.

(** ** The guards *)

Lemma notify_missing_patient (p m : jsval) (w : World) :
  truthy p = false -> sendNotification p m w = (Ok (notify_fail "Patient ID is required"), w).
Proof. intros Hp. unfold sendNotification, try_catch. by rewrite Hp. Qed.

(** C20: with a patient id, a message that is missing,
    empty, or only white space fails with "Notification message cannot be
    empty" and writes nothing. *)
Theorem notify_blank_message (p m : jsval) (w : World) :
  truthy p = true ->
  truthy m = false \/ (exists s, m = JStr s /\ all_space s = true) ->
  sendNotification p m w = (Ok (notify_fail "Notification message cannot be empty"), w).
Proof.
  intros Hp Hm. unfold sendNotification, try_catch. rewrite Hp. simpl.
  destruct Hm as [Hm | (s & -> & Hs)].
  - unfold message_blank, bind. by rewrite Hm.
  - unfold bind. by rewrite message_blank_str, Hs.
Qed.

(** C21: a truthy message that is not a string
    (a number, a boolean, an object or an array in the JSON body) makes
    [message.trim()] throw; the call fails with the TypeError's message
    and writes nothing. *)
Theorem notify_non_string_message (p m : jsval) (w : World) :
  truthy p = true -> truthy m = true -> typeof m <> "string" ->
  sendNotification p m w =
    (Ok (notify_fail "Error sending notification: message.trim is not a function"), w).
Proof.
  intros Hp Hm Ht. unfold sendNotification, try_catch. rewrite Hp. simpl.
  unfold message_blank, bind. rewrite Hm. simpl.
  destruct m; try done.
Qed.

Lemma notify_fault (ps s e : string) (w : World) :
  ps <> "" -> all_space s = false -> w.(w_db_fault) = Some e ->
  sendNotification (JStr ps) (JStr s) w =
    (Ok (notify_fail ("Error sending notification: " +:+ e)), with_draws (S w.(w_draws)) w).
Proof.
  intros Hps Hs Hf. assert (Hs0 : s <> "") by (intros ->; discriminate).
  unfold sendNotification, message_blank, generateNotificationId, js_trim.
  svc_unfold. simpl. bd_simpl. simpl. rewrite trim_length_zero, Hs. simpl. by rewrite Hf.
Qed.

(** ** Worked examples *)

(** The example of the design notes: [send("P1", "  ")]. *)
Lemma notify_blank_message_witness :
  sendNotification (JStr "P1") (JStr "  ") sample_world =
    (Ok (notify_fail "Notification message cannot be empty"), sample_world).
Proof.
  apply notify_blank_message.
  - reflexivity.
  - right. exists "  ". split; reflexivity.
Defined.

Lemma notify_non_string_message_witness :
  sendNotification (JStr "P1") (JNum 42) sample_world =
    (Ok (notify_fail "Error sending notification: message.trim is not a function"), sample_world).
Proof. apply notify_non_string_message; [reflexivity | reflexivity | discriminate]. Defined.

Lemma notify_ok_witness :
  sendNotification (JStr "P1") (JStr "  Your turn is next ") sample_world =
    (Ok (sent_result sample_world (JStr "P1") (trim "  Your turn is next ")),
     with_notifications
       (<[next_notification_id sample_world :=
            sent_record sample_world "P1" (trim "  Your turn is next ")]> sample_world.(w_notifications))
       (with_draws (S sample_world.(w_draws)) sample_world)).
Proof. apply notify_ok; [reflexivity | discriminate | reflexivity | reflexivity]. Defined.
