(* ===== verification/Routes.v ===== *)
(** * Routes: the HTTP layer (routes/appointments.js and server.js)

    [server.js] registers, in this order, [GET /], [GET /api/test], the
    router of [routes/appointments.js] under [/api/appointments], and
    [GET /api/health].  The router registers its seven routes in source
    order; Express tries the routes in registration order and runs the
    first whose method and path match.  Each route handler reads its
    arguments from [req.params] and [req.body], awaits one service, and
    answers [201] (booking) or [200] when [result.success] is truthy and
    [400] otherwise, with the result as the JSON body.

    Requests are given by method and path segments (the URL path split
    at [/], a trailing slash dropped, as Express's non-strict matching
    does).  Literal segments match case-insensitively (Express's default);
    a [:param] segment matches one non-empty segment, taken as it is
    (percent-decoding is not modelled).  [express.json()] and [cors()]
    are not modelled: the body is the parsed JSON value. *)

From S2P Require Import Prelude JsString JsDate Json Mongoose Schemas Db Lifecycle Availability Notify.

(** ** Matching *)

Inductive Method : Type := GET | POST | PUT | DELETE.

#[export] Instance Method_eq_dec : EqDecision Method.
Proof. solve_decision. Defined.

Definition lower_ascii (c : ascii) : ascii :=
  let n := nat_of_ascii c in
  if (65 <=? n)%nat && (n <=? 90)%nat then ascii_of_nat (n + 32) else c.

Fixpoint lower (s : string) : string :=
  match s with
  | EmptyString => EmptyString
  | String c s' => String (lower_ascii c) (lower s')
  end.

(** A segment of a route path: a literal or a [:param]. *)
Inductive Seg : Type := Lit (s : string) | Param.

(** The parameters a route path binds on the request's segments, in order. *)
Fixpoint match_path (ps : list Seg) (xs : list string) : option (list string) :=
  match ps, xs with
  | [], [] => Some []
  | Lit s :: ps', x :: xs' =>
      if bool_decide (lower s = lower x) then match_path ps' xs' else None
  | Param :: ps', x :: xs' =>
      if bool_decide (x = "") then None else (x ::.) <$> match_path ps' xs'
  | _, _ => None
  end.

(** The handlers the routes run, with the values they read from the
    request's path. *)
Inductive Endpoint : Type :=
| EBook
| ECancel (appointmentId : string)
| EModify (appointmentId : string)
| EQueue (appointmentId : string)
| ECheckIn (appointmentId : string)
| EAvailability (doctorId : string)
| ENotify
| ERoot
| ETest
| EHealth.

Definition param0 (ps : list string) : string := default "" (head ps).

(** [routes/appointments.js] (lines 15-107): the routes in registration order. *)
Definition appointment_routes : list (Method * list Seg * (list string -> Endpoint)) :=
  [ (POST, [Lit "book"], fun _ => EBook);
    (DELETE, [Param; Lit "cancel"], fun ps => ECancel (param0 ps));
    (PUT, [Param; Lit "modify"], fun ps => EModify (param0 ps));
    (POST, [Param; Lit "queue"], fun ps => EQueue (param0 ps));
    (POST, [Param; Lit "checkin"], fun ps => ECheckIn (param0 ps));
    (PUT, [Lit "doctors"; Param; Lit "availability"], fun ps => EAvailability (param0 ps));
    (POST, [Lit "notifications"; Lit "send"], fun _ => ENotify) ].

(** The first route whose method and path match. *)
Fixpoint route_first (m : Method) (xs : list string)
    (rs : list (Method * list Seg * (list string -> Endpoint))) : option Endpoint :=
  match rs with
  | [] => None
  | (m', ps, f) :: rs' =>
      match (if bool_decide (m = m') then match_path ps xs else None) with
      | Some params => Some (f params)
      | None => route_first m xs rs'
      end
  end.

(** [app.use(prefix, router)]: the prefix matches the leading segments. *)
Fixpoint strip_prefix (pre xs : list string) : option (list string) :=
  match pre, xs with
  | [], _ => Some xs
  | p :: pre', x :: xs' => if bool_decide (lower p = lower x) then strip_prefix pre' xs' else None
  | _ :: _, [] => None
  end.

(** [server.js] (lines 29-73): the application's stack in registration
    order; [None] is Express's final 404. *)
Definition dispatch (m : Method) (xs : list string) : option Endpoint :=
  match route_first m xs [(GET, [], fun _ => ERoot); (GET, [Lit "api"; Lit "test"], fun _ => ETest)] with
  | Some e => Some e
  | None =>
      match (match strip_prefix ["api"; "appointments"] xs with
             | Some rest => route_first m rest appointment_routes
             | None => None
             end) with
      | Some e => Some e
      | None => route_first m xs [(GET, [Lit "api"; Lit "health"], fun _ => EHealth)]
      end
  end.

(** ** Handlers *)

Record Response : Type := mkResponse { res_status : Z; res_body : jsval }.

(** [if (result.success) res.status(ok).json(result) else res.status(400).json(result)] *)
Definition respond (ok : Z) (result : jsval) : Response :=
  mkResponse (if result_success result then ok else 400) result.

Definition api_functions : list string :=
  ["bookAppointment"; "cancelAppointment"; "modifyAppointment"; "generateQueueNumber";
   "checkInPatient"; "updateDoctorAvailability"; "sendNotification"].

Definition api_endpoints : list string :=
  ["POST /api/appointments/book"; "DELETE /api/appointments/:id/cancel";
   "PUT /api/appointments/:id/modify"; "POST /api/appointments/:id/queue";
   "POST /api/appointments/:id/checkin"; "PUT /api/appointments/doctors/:id/availability";
   "POST /api/appointments/notifications/send"].

(** The handler of each endpoint on the parsed body [body]; [uptime] is
    [process.uptime()], which the health check reports. *)
Definition handle (uptime : Z) (body : jsval) (e : Endpoint) : Svc Response :=
  match e with
  | EBook =>
      result <- bookAppointment (get_prop body "patientId") (get_prop body "doctorId")
                  (get_prop body "dateTime") ;;
      ret (respond 201 result)
  | ECancel id => result <- cancelAppointment id ;; ret (respond 200 result)
  | EModify id => result <- modifyAppointment id (get_prop body "newDateTime") ;; ret (respond 200 result)
  | EQueue id => result <- generateQueueNumber id ;; ret (respond 200 result)
  | ECheckIn id => result <- checkInPatient id ;; ret (respond 200 result)
  | EAvailability id => result <- updateDoctorAvailability id body ;; ret (respond 200 result)
  | ENotify =>
      result <- sendNotification (get_prop body "patientId") (get_prop body "message") ;;
      ret (respond 200 result)
  | ERoot =>
      t <- now ;;
      ret (mkResponse 200 (JObj [("message", JStr "Medqueue API is running!");
                                 ("status", JStr "success");
                                 ("timestamp", JStr (to_iso_string t));
                                 ("version", JStr "1.0.0")]))
  | ETest =>
      ret (mkResponse 200 (JObj [("message", JStr "API Test Successful");
                                 ("available_functions", JArr (map JStr api_functions));
                                 ("endpoints", JArr (map JStr api_endpoints));
                                 ("status", JStr "ready_for_development")]))
  | EHealth =>
      t <- now ;;
      ret (mkResponse 200 (JObj [("status", JStr "healthy"); ("uptime", JNum uptime);
                                 ("timestamp", JStr (to_iso_string t))]))
  end.

(** ** Properties *)

(** C22: each of the seven documented endpoints reaches
    its own handler with the path's id, for every non-empty id: no route
    registered before it shadows it. *)
Theorem dispatch_endpoints (id : string) :
  id <> "" ->
  dispatch POST ["api"; "appointments"; "book"] = Some EBook /\
  dispatch DELETE ["api"; "appointments"; id; "cancel"] = Some (ECancel id) /\
  dispatch PUT ["api"; "appointments"; id; "modify"] = Some (EModify id) /\
  dispatch POST ["api"; "appointments"; id; "queue"] = Some (EQueue id) /\
  dispatch POST ["api"; "appointments"; id; "checkin"] = Some (ECheckIn id) /\
  dispatch PUT ["api"; "appointments"; "doctors"; id; "availability"] = Some (EAvailability id) /\
  dispatch POST ["api"; "appointments"; "notifications"; "send"] = Some ENotify.
Proof.
  intros Hid. unfold dispatch. simpl. bd_simpl.
  repeat split; simpl; repeat (case_bool_decide; simpl); done.
Qed.

(** Every service catches what its body throws: it always returns a
    result object. *)
Ltac service_total := intros; apply try_catch_total; intros; do 2 eexists; reflexivity.

Lemma book_total p d dt (w : World) : exists r w', bookAppointment p d dt w = (Ok r, w').
Proof. unfold bookAppointment. service_total. Qed.
Lemma cancel_total id (w : World) : exists r w', cancelAppointment id w = (Ok r, w').
Proof. unfold cancelAppointment. service_total. Qed.
Lemma modify_total id dt (w : World) : exists r w', modifyAppointment id dt w = (Ok r, w').
Proof. unfold modifyAppointment. service_total. Qed.
Lemma queue_total id (w : World) : exists r w', generateQueueNumber id w = (Ok r, w').
Proof. unfold generateQueueNumber. service_total. Qed.
Lemma checkin_total id (w : World) : exists r w', checkInPatient id w = (Ok r, w').
Proof. unfold checkInPatient. service_total. Qed.
Lemma availability_total id sch (w : World) : exists r w', updateDoctorAvailability id sch w = (Ok r, w').
Proof. unfold updateDoctorAvailability. service_total. Qed.
Lemma notify_total p m (w : World) : exists r w', sendNotification p m w = (Ok r, w').
Proof. unfold sendNotification. service_total. Qed.

(** ** Worked examples *)

Lemma dispatch_endpoints_witness :
  dispatch POST ["api"; "appointments"; "book"] = Some EBook /\
  dispatch DELETE ["api"; "appointments"; "APT1762646400000123"; "cancel"] =
    Some (ECancel "APT1762646400000123") /\
  dispatch PUT ["api"; "appointments"; "APT1762646400000123"; "modify"] =
    Some (EModify "APT1762646400000123") /\
  dispatch POST ["api"; "appointments"; "APT1762646400000123"; "queue"] =
    Some (EQueue "APT1762646400000123") /\
  dispatch POST ["api"; "appointments"; "APT1762646400000123"; "checkin"] =
    Some (ECheckIn "APT1762646400000123") /\
  dispatch PUT ["api"; "appointments"; "doctors"; "APT1762646400000123"; "availability"] =
    Some (EAvailability "APT1762646400000123") /\
  dispatch POST ["api"; "appointments"; "notifications"; "send"] = Some ENotify.
Proof. apply dispatch_endpoints. discriminate. Defined.

(** Literal segments match whatever their case; an unknown path falls
    through to Express's 404. *)
Example dispatch_case_insensitive :
  dispatch POST ["API"; "Appointments"; "Book"] = Some EBook /\
  dispatch GET ["api"; "appointments"; "book"] = None.
Proof. split; vm_compute; reflexivity. Qed.
