(* ===== verification/Api.v ===== *)
(** * Api: what the server promises to the browser

    The browser scripts talk to the back end with [fetch(url, options)]
    and read the answer with [response.ok] and [response.json()].  This
    file states that boundary as an interface, the type class
    [HttpServer]: a computation [serve] from a method, the segments of
    the URL path and the parsed JSON body to the response, or to no
    route at all (Express's final handler then answers 404 with an HTML
    page).  Its law [serve_total] says a request is always answered.
    The browser's code ([Client.v], [Session.v]) is written and proved
    against this class; the instance [express_server] is the application
    of [server.js] and [routes/appointments.js] ([dispatch] then
    [handle]) and discharges the law.

    The contract of the appointment API ([api_contract]) is what the
    browser relies on when it reads [data.success] and [data.message]:
    every service answers an object whose [success] is a boolean and
    whose [message] is a string, with status 200 (201 for a booking)
    exactly when [success] is [true], and 400 otherwise.  It is proved
    with the postcondition rules of [Prelude.v], by walking each service.

    [url_segments] is the path Express routes on: the URL without its
    origin and its query string, split at [/], with a trailing slash
    dropped ([strict: false]). *)

From S2P Require Import Prelude JsString JsDate IsoRoundtrip Json Mongoose Schemas Db Lifecycle Availability Notify Routes.

(** ** Paths *)

(** [url.split(c)] *)
Fixpoint split_on (c : ascii) (s : string) : list string :=
  match s with
  | EmptyString => [""]
  | String c' s' =>
      if bool_decide (c = c') then "" :: split_on c s'
      else match split_on c s' with
           | x :: xs => String c' x :: xs
           | [] => [String c' ""]
           end
  end.

(** The origin of [API_BASE]. *)
Definition origin : string := "http://localhost:3000".

(** [const API_BASE = 'http://localhost:3000/api'] (both scripts, line 2) *)
Definition API_BASE : string := origin +:+ "/api".

Fixpoint strip_str (p s : string) : option string :=
  match p, s with
  | EmptyString, _ => Some s
  | String a p', String b s' => if bool_decide (a = b) then strip_str p' s' else None
  | String _ _, EmptyString => None
  end.

(** A trailing slash is dropped: ["a"; ""] is the path ["a"]. *)
Fixpoint drop_last_empty (xs : list string) : list string :=
  match xs with
  | [] => []
  | [""] => []
  | x :: xs' => x :: drop_last_empty xs'
  end.

(** The segments Express routes on, for a URL of the server's origin. *)
Definition url_segments (url : string) : option (list string) :=
  match strip_str origin url with
  | Some path =>
      Some (drop_last_empty (match split_on "/" (split_first "?" path) with
                             | "" :: xs => xs
                             | xs => xs
                             end))
  | None => None
  end.

(** ** The interface *)

Class HttpServer (St : Type) := {
  serve : Method -> list string -> jsval -> M St (option Response);
  serve_total m xs body s : exists r s', serve m xs body s = (Ok r, s')
}.

(** ** The Express application *)

(** [app] of [server.js]: the first matching route's handler, or no
    route.  [uptime] is [process.uptime()]. *)
Definition express_app (uptime : Z) (m : Method) (xs : list string) (body : jsval) :
    Svc (option Response) :=
  match dispatch m xs with
  | Some e => resp <- handle uptime body e ;; ret (Some resp)
  | None => ret None
  end.

(** The seven routes of the appointment API; the three of [server.js]
    are informational. *)
Definition service_endpoint (e : Endpoint) : bool :=
  match e with ERoot | ETest | EHealth => false | _ => true end.

(** The status of a successful answer. *)
Definition ok_status (e : Endpoint) : Z := match e with EBook => 201 | _ => 200 end.

(** The shape every service result has. *)
Definition result_typed (r : jsval) : Prop :=
  exists (b : bool) (msg : string), get_prop r "success" = JBool b /\ get_prop r "message" = JStr msg.

(** ** Lemmas *)

Lemma bind_ret_total {A B} (m : Svc A) (k : A -> B) (w : World) :
  (exists a w', m w = (Ok a, w')) -> exists b w', (x <- m ;; ret (k x)) w = (Ok b, w').
Proof. intros (a & w' & Hm). exists (k a), w'. unfold bind. by rewrite Hm. Qed.

Lemma handle_total (uptime : Z) (body : jsval) (e : Endpoint) (w : World) :
  exists resp w', handle uptime body e w = (Ok resp, w').
Proof.
  destruct e; simpl; try apply bind_ret_total;
    first [ apply book_total | apply cancel_total | apply modify_total | apply queue_total
          | apply checkin_total | apply availability_total | apply notify_total
          | do 2 eexists; reflexivity ].
Qed.

#[export] Instance express_server (uptime : Z) : HttpServer World.
Proof.
  refine {| serve := express_app uptime |}.
  intros m xs body w. unfold express_app. destruct (dispatch m xs) as [e|]; [|eauto].
  destruct (handle_total uptime body e w) as (resp & w' & Hr).
  exists (Some resp), w'. unfold bind. by rewrite Hr.
Defined.

Ltac typed_result := eexists _, _; split; reflexivity.

Lemma book_typed (p d dt : jsval) : Post result_typed (bookAppointment p d dt).
Proof. unfold bookAppointment. post_auto; typed_result. Qed.

Lemma cancel_typed (id : string) : Post result_typed (cancelAppointment id).
Proof. unfold cancelAppointment. post_auto; typed_result. Qed.

Lemma modify_typed (id : string) (dt : jsval) : Post result_typed (modifyAppointment id dt).
Proof. unfold modifyAppointment. post_auto; typed_result. Qed.

Lemma queue_typed (id : string) : Post result_typed (generateQueueNumber id).
Proof. unfold generateQueueNumber. post_auto; typed_result. Qed.

(** [checkInPatient] may return the result of [generateQueueNumber]
    itself: the bind carries that result's shape. *)
Lemma checkin_typed (id : string) : Post result_typed (checkInPatient id).
Proof.
  unfold checkInPatient. apply post_try; [|intros; apply post_ret; typed_result].
  destruct (bool_decide _); [apply post_ret; typed_result|].
  apply post_bind_any. intros [d|]; [|apply post_ret; typed_result].
  destruct (checkedIn _); [apply post_ret; typed_result|].
  apply (post_bind (fun q => match q with inl r => result_typed r | inr _ => True end)).
  - destruct (qn_truthy _); [by apply post_ret|].
    apply (post_bind result_typed); [apply queue_typed|].
    intros r Hr. destruct (negb _); by apply post_ret.
  - intros [r|q] Hq; [by apply post_ret|]. post_auto. typed_result.
Qed.

Lemma availability_typed (id : string) (sch : jsval) : Post result_typed (updateDoctorAvailability id sch).
Proof. unfold updateDoctorAvailability. post_auto; typed_result. Qed.

Lemma notify_typed (p m : jsval) : Post result_typed (sendNotification p m).
Proof. unfold sendNotification. post_auto; typed_result. Qed.

Lemma service_typed (uptime : Z) (body : jsval) (e : Endpoint) :
  service_endpoint e = true ->
  Post (fun resp => exists (b : bool) (msg : string),
          get_prop resp.(res_body) "success" = JBool b /\ get_prop resp.(res_body) "message" = JStr msg /\
          resp.(res_status) = (if b then ok_status e else 400))
    (handle uptime body e).
Proof.
  intros He. destruct e; try discriminate; simpl;
    (apply (post_bind result_typed);
     [ first [ apply book_typed | apply cancel_typed | apply modify_typed | apply queue_typed
             | apply checkin_typed | apply availability_typed | apply notify_typed ]
     | intros r (b & msg & Hb & Hm); apply post_ret; exists b, msg;
       unfold respond, result_success; simpl; rewrite Hb; by destruct b ]).
Qed.

(** ** Properties *)

(** C29: the contract of the appointment API.  Every request routed to
    one of the seven service endpoints is answered, whatever the body and
    the store, with a JSON object whose [success] is a boolean and whose
    [message] is a string; the status is 200 (201 for a booking) when
    [success] is [true] and 400 when it is [false], so [response.ok] and
    [data.success] always agree. *)
Theorem api_contract (uptime : Z) (body : jsval) (e : Endpoint) (w : World) :
  service_endpoint e = true ->
  exists resp w', handle uptime body e w = (Ok resp, w') /\
    exists (b : bool) (msg : string),
      get_prop resp.(res_body) "success" = JBool b /\ get_prop resp.(res_body) "message" = JStr msg /\
      resp.(res_status) = (if b then ok_status e else 400).
Proof.
  intros He. destruct (handle_total uptime body e w) as (resp & w' & Hr).
  exists resp, w'. split; [done|]. eapply service_typed; [done|]. apply Hr.
Qed.

(** Under [/api/appointments], a request other than a [GET] is
    dispatched by the router alone: the routes of [server.js] are all
    [GET] routes. *)
Lemma dispatch_api (m : Method) (rest : list string) :
  m <> GET -> dispatch m ("api" :: "appointments" :: rest) = route_first m rest appointment_routes.
Proof.
  intros Hm. unfold dispatch.
  assert (Hg : forall xs ps (f : list string -> Endpoint) rs,
             route_first m xs ((GET, ps, f) :: rs) = route_first m xs rs).
  { intros. simpl. by rewrite bool_decide_eq_false_2. }
  rewrite !Hg.
  change (strip_prefix ["api"; "appointments"] ("api" :: "appointments" :: rest)) with (Some rest).
  cbn [route_first]. by destruct (route_first m rest appointment_routes).
Qed.

(** ** Worked examples *)

Lemma api_contract_witness :
  exists resp w', handle 0 JNull (ECancel "APT1") sample_world = (Ok resp, w') /\
    exists (b : bool) (msg : string),
      get_prop resp.(res_body) "success" = JBool b /\ get_prop resp.(res_body) "message" = JStr msg /\
      resp.(res_status) = (if b then ok_status (ECancel "APT1") else 400).
Proof. apply api_contract. reflexivity. Defined.
