(* ===== verification/Navigation.v ===== *)
(** * Navigation: the page stack of the single-page front end
      (public/js/app.js and public/js/somefile.js)

    Both scripts keep [navigationHistory], a stack of page ids that starts
    as [['home']].  [showPage(p)] pushes [p] unless it is already on top,
    hides every page and shows [p] when the document has it;
    [goBackToPrevious()] pops the top and shows the page below, or shows
    ['home'] when only one page is left; [resetBookingForm()] resets the
    stack to [['home']].  In [somefile.js], showing ['profile'] runs
    [loadProfile()], which for a visitor who is not logged in shows
    ['login'] from inside [showPage('profile')].

    The document is a parameter: [has_page p] is whether
    [document.getElementById(p)] finds an element.  The other effects of
    [showPage] (the nav-link classes, [console.log], the loads of the
    [switch]) do not touch the stack and are not modelled here.  The
    stack code of the two scripts' [showPage] is the same text, so
    [showPage_sf] calls [showPage] and adds the [loadProfile] redirect;
    the same actions run through somefile.js ([run_nav_sf]) keep the
    stack invariant too ([nav_sf_reachable_wf]). *)

From S2P Require Import Prelude JsString JsDate Json.

Record Nav : Type := mkNav {
  history : list string;
  active : option string
}.

(** The state after the script is loaded: [let navigationHistory = ['home']],
    with the page the HTML marks active. *)
Definition initial_nav (start : option string) : Nav := mkNav ["home"] start.

Section Pages.
Variable has_page : string -> bool.

(** [if (navigationHistory[navigationHistory.length - 1] !== pageId)
    navigationHistory.push(pageId)] *)
Definition push_page (p : string) (h : list string) : list string :=
  if bool_decide (last h = Some p) then h else h ++ [p].

(** [showPage(pageId)] of app.js (lines 181-231). *)
Definition showPage (p : string) (n : Nav) : Nav :=
  mkNav (push_page p n.(history)) (if has_page p then Some p else None).

(** [goBackToPrevious()] of app.js (lines 233-244), given the
    [showPage] it calls. *)
Definition go_back (show : string -> Nav -> Nav) (n : Nav) : Nav :=
  match n.(history) with
  | _ :: _ :: _ =>
      let h := removelast n.(history) in
      show (default "home" (last h)) (mkNav h n.(active))
  | _ => show "home" n
  end.

Definition goBackToPrevious (n : Nav) : Nav := go_back showPage n.

(** The stack part of [resetBookingForm()] (app.js lines 567-592). *)
Definition resetBookingForm (n : Nav) : Nav := mkNav ["home"] n.(active).

(** [goToTimeSlots()] (app.js lines 246-253): a modal and no move when
    no date is selected. *)
Definition goToTimeSlots (selectedDate : string) (n : Nav) : Nav :=
  if bool_decide (selectedDate = "") then n else showPage "time-slots" n.

(** [showPage(pageId)] of somefile.js (lines 247-307): the ['profile']
    arm calls [loadProfile()] (lines 309-339), which shows ['login']
    when [patientId] or [patientName] is empty; that nested
    [showPage('login')] runs the ['login'] arm, which only logs.  The
    globals [patientId] and [patientName] hold any value the log-in
    answer gave; [!patientId] is JavaScript's test. *)
Definition showPage_sf (patientId patientName : jsval) (p : string) (n : Nav) : Nav :=
  let n1 := showPage p n in
  if bool_decide (p = "profile") && (negb (truthy patientId) || negb (truthy patientName))
  then showPage "login" n1
  else n1.

(** [goBackToPrevious()] of somefile.js (lines 341-352). *)
Definition goBackToPrevious_sf (patientId patientName : jsval) (n : Nav) : Nav :=
  go_back (showPage_sf patientId patientName) n.
End Pages.

(** ** The invariant of the stack *)

Fixpoint no_adjacent_dup (h : list string) : bool :=
  match h with
  | x :: ((y :: _) as h') => negb (bool_decide (x = y)) && no_adjacent_dup h'
  | _ => true
  end.

(** The stack is never empty, starts with ['home'], and never holds the
    same page twice in a row. *)
Definition nav_wf (n : Nav) : Prop :=
  head n.(history) = Some "home" /\ no_adjacent_dup n.(history) = true.

#[export] Instance nav_wf_dec (n : Nav) : Decision (nav_wf n).
Proof. unfold nav_wf. apply _. Defined.

(** The user's navigation actions in app.js: a nav link or the logo
    ([showPage]), the back button, the reset after a booking. *)
Inductive nav_action : Type :=
| AShow (p : string)
| ABack
| AReset
| ATimeSlots (selectedDate : string).

Definition run_nav_action (has_page : string -> bool) (a : nav_action) (n : Nav) : Nav :=
  match a with
  | AShow p => showPage has_page p n
  | ABack => goBackToPrevious has_page n
  | AReset => resetBookingForm n
  | ATimeSlots d => goToTimeSlots has_page d n
  end.

Definition run_nav (has_page : string -> bool) (n : Nav) (acts : list nav_action) : Nav :=
  foldl (fun n a => run_nav_action has_page a n) n acts.

(** The same actions in somefile.js: its [showPage] (with the profile
    redirect), its [goBackToPrevious], its [resetBookingForm] (lines
    729-751) and its [goToTimeSlots] (lines 354-361). *)
Definition goToTimeSlots_sf (has_page : string -> bool) (patientId patientName : jsval)
    (selectedDate : string) (n : Nav) : Nav :=
  if bool_decide (selectedDate = "") then n
  else showPage_sf has_page patientId patientName "time-slots" n.

Definition run_nav_action_sf (has_page : string -> bool) (patientId patientName : jsval)
    (a : nav_action) (n : Nav) : Nav :=
  match a with
  | AShow p => showPage_sf has_page patientId patientName p n
  | ABack => goBackToPrevious_sf has_page patientId patientName n
  | AReset => resetBookingForm n
  | ATimeSlots d => goToTimeSlots_sf has_page patientId patientName d n
  end.

Definition run_nav_sf (has_page : string -> bool) (patientId patientName : jsval) (n : Nav)
    (acts : list nav_action) : Nav :=
  foldl (fun n a => run_nav_action_sf has_page patientId patientName a n) n acts.

(** ** Lemmas on the stack *)

Lemma no_adjacent_dup_snoc (h : list string) (p : string) :
  no_adjacent_dup h = true -> last h <> Some p -> no_adjacent_dup (h ++ [p]) = true.
Proof.
  induction h as [|x h IH]; intros Hh Hl; [done|].
  destruct h as [|y h].
  - simpl in *. rewrite bool_decide_eq_false_2 by congruence. done.
  - simpl in Hh |- *. apply andb_true_iff in Hh as [Hxy Hh].
    rewrite Hxy. apply IH; [done|]. by rewrite last_cons_cons in Hl.
Qed.

Lemma no_adjacent_dup_removelast (h : list string) :
  no_adjacent_dup h = true -> no_adjacent_dup (removelast h) = true.
Proof.
  induction h as [|x h IH]; intros Hh; [done|].
  destruct h as [|y h]; [done|].
  simpl in Hh. apply andb_true_iff in Hh as [Hxy Hh].
  destruct h as [|z h]; [done|].
  change (removelast (x :: y :: z :: h)) with (x :: removelast (y :: z :: h)).
  specialize (IH Hh). change (removelast (y :: z :: h)) with (y :: removelast (z :: h)) in IH |- *.
  change (no_adjacent_dup (x :: y :: removelast (z :: h))) with
    (negb (bool_decide (x = y)) && no_adjacent_dup (y :: removelast (z :: h))).
  by rewrite Hxy, IH.
Qed.

Lemma push_page_head (p : string) (h : list string) (x : string) :
  head h = Some x -> head (push_page p h) = Some x.
Proof. intros Hx. unfold push_page. case_bool_decide; [done|]. destruct h; by simplify_eq/=. Qed.

Lemma push_page_no_adjacent_dup (p : string) (h : list string) :
  no_adjacent_dup h = true -> no_adjacent_dup (push_page p h) = true.
Proof. intros Hh. unfold push_page. case_bool_decide; [done|]. by apply no_adjacent_dup_snoc. Qed.

Lemma push_page_last (p : string) (h : list string) : last (push_page p h) = Some p.
Proof. unfold push_page. case_bool_decide; [done|]. apply last_snoc. Qed.

Lemma push_page_top (p : string) (h : list string) : last h = Some p -> push_page p h = h.
Proof. intros Hl. unfold push_page. by rewrite bool_decide_eq_true_2. Qed.

Section Invariant.
Variable has_page : string -> bool.

Lemma showPage_wf (p : string) (n : Nav) : nav_wf n -> nav_wf (showPage has_page p n).
Proof.
  intros [Hh Hd]. split; simpl; [by apply push_page_head | by apply push_page_no_adjacent_dup].
Qed.

(** [go_back] keeps the invariant when the [showPage] it calls does. *)
Lemma go_back_wf (show : string -> Nav -> Nav) (n : Nav) :
  (forall p n, nav_wf n -> nav_wf (show p n)) -> nav_wf n -> nav_wf (go_back show n).
Proof.
  intros Hshow Hn. unfold go_back.
  destruct (history n) as [|x [|y h]] eqn:E; try by apply Hshow.
  destruct Hn as [Hh Hd]. rewrite E in Hh, Hd. apply Hshow.
  split; [simpl in *; congruence | by apply no_adjacent_dup_removelast].
Qed.

Lemma run_nav_action_wf (a : nav_action) (n : Nav) :
  nav_wf n -> nav_wf (run_nav_action has_page a n).
Proof.
  intros Hn. destruct a as [p| | |d]; simpl.
  - by apply showPage_wf.
  - apply go_back_wf; [apply showPage_wf | done].
  - by split.
  - unfold goToTimeSlots. case_bool_decide; [done|]. by apply showPage_wf.
Qed.

Lemma showPage_sf_wf (pid pname : jsval) (p : string) (n : Nav) :
  nav_wf n -> nav_wf (showPage_sf has_page pid pname p n).
Proof.
  intros Hn. unfold showPage_sf. destruct (_ && _); by repeat apply showPage_wf.
Qed.

Lemma run_nav_action_sf_wf (pid pname : jsval) (a : nav_action) (n : Nav) :
  nav_wf n -> nav_wf (run_nav_action_sf has_page pid pname a n).
Proof.
  intros Hn. destruct a as [p| | |d]; simpl.
  - by apply showPage_sf_wf.
  - apply go_back_wf; [apply showPage_sf_wf | done].
  - by split.
  - unfold goToTimeSlots_sf. case_bool_decide; [done|]. by apply showPage_sf_wf.
Qed.
End Invariant.

Lemma push_page_new (p : string) (h : list string) : last h <> Some p -> push_page p h = h ++ [p].
Proof. intros Hl. unfold push_page. by rewrite bool_decide_eq_false_2. Qed.

Lemma foldl_nav_wf (f : nav_action -> Nav -> Nav) (acts : list nav_action) (n : Nav) :
  (forall a n, nav_wf n -> nav_wf (f a n)) -> nav_wf n -> nav_wf (foldl (fun n a => f a n) n acts).
Proof.
  intros Hf. revert n. induction acts as [|a acts IH]; intros n Hn; [done|]. simpl. by apply IH, Hf.
Qed.

Lemma go_back_snoc (show : string -> Nav -> Nav) (h : list string) (p q : string) (a : option string) :
  last h = Some q -> go_back show (mkNav (h ++ [p]) a) = show q (mkNav h a).
Proof.
  intros Hq. unfold go_back. simpl.
  destruct h as [|x h]; [done|]. rewrite removelast_last, Hq. simpl.
  by destruct h.
Qed.

(** ** Properties *)

(** C25: whatever the user clicks (pages, the back button,
    the booking reset, the time-slot button), the navigation stack of
    app.js is never empty, keeps ['home'] at its bottom, and never holds
    the same page twice in a row. *)
Theorem nav_reachable_wf (has_page : string -> bool) (start : option string) (acts : list nav_action) :
  nav_wf (run_nav has_page (initial_nav start) acts).
Proof.
  unfold run_nav. apply foldl_nav_wf; [intros a n; apply run_nav_action_wf | split; reflexivity].
Qed.

(** The stack of somefile.js keeps the same invariant, whatever the
    session globals hold: the nested [showPage('login')] of [loadProfile]
    pushes a page that differs from ['profile']. *)
Lemma nav_sf_reachable_wf (has_page : string -> bool) (pid pname : jsval) (start : option string)
    (acts : list nav_action) :
  nav_wf (run_nav_sf has_page pid pname (initial_nav start) acts).
Proof.
  unfold run_nav_sf. apply foldl_nav_wf; [intros a n; apply run_nav_action_sf_wf | split; reflexivity].
Qed.

(** C26: showing a new page and pressing back restores the
    stack exactly and shows again the page that was on top. *)
Theorem back_after_show (has_page : string -> bool) (n : Nav) (p q : string) :
  last n.(history) = Some q -> q <> p ->
  goBackToPrevious has_page (showPage has_page p n) =
    mkNav n.(history) (if has_page q then Some q else None).
Proof.
  intros Hq Hqp. unfold goBackToPrevious, showPage at 2.
  rewrite push_page_new by congruence. rewrite (go_back_snoc _ _ p q _ Hq).
  unfold showPage. simpl. by rewrite push_page_top.
Qed.

Lemma profile_redirect (has_page : string -> bool) (pid pname : jsval) (n : Nav) :
  (truthy pid = false \/ truthy pname = false) -> last n.(history) <> Some "profile" ->
  showPage_sf has_page pid pname "profile" n =
    mkNav (n.(history) ++ ["profile"; "login"]) (if has_page "login" then Some "login" else None).
Proof.
  intros Hlog Hl. unfold showPage_sf. rewrite bool_decide_eq_true_2 by done.
  replace (negb (truthy pid) || negb (truthy pname)) with true
    by (destruct Hlog as [-> | ->]; [done | by destruct (truthy pid)]).
  unfold showPage. simpl. rewrite (push_page_new "profile") by done.
  rewrite push_page_new by (rewrite last_snoc; congruence).
  by rewrite <- app_assoc.
Qed.

(** C24: in somefile.js, a visitor who is not logged in
    and opens ['profile'] is sent to ['login'] with ['profile'] left below
    it on the stack; the back button then pops ['login'], shows
    ['profile'], which redirects to ['login'] again: pressing back any
    number of times leaves the stack and the page unchanged. *)
Theorem profile_back_loop (has_page : string -> bool) (pid pname : jsval) (n : Nav) (k : nat) :
  (truthy pid = false \/ truthy pname = false) -> last n.(history) <> Some "profile" ->
  Nat.iter k (goBackToPrevious_sf has_page pid pname) (showPage_sf has_page pid pname "profile" n) =
    showPage_sf has_page pid pname "profile" n.
Proof.
  intros Hlog Hl. induction k as [|k IH]; [done|]. simpl. rewrite IH.
  rewrite profile_redirect by done. unfold goBackToPrevious_sf.
  rewrite (app_assoc _ ["profile"] ["login"]), (go_back_snoc _ _ "login" "profile") by apply last_snoc.
  unfold showPage_sf. rewrite bool_decide_eq_true_2 by done.
  replace (negb (truthy pid) || negb (truthy pname)) with true
    by (destruct Hlog as [-> | ->]; [done | by destruct (truthy pid)]).
  unfold showPage. simpl. rewrite (push_page_top "profile") by apply last_snoc.
  rewrite (push_page_new "login") by (rewrite last_snoc; congruence). by rewrite <- app_assoc.
Qed.

(** ** Worked examples *)

(** The pages of the document. *)
Definition sample_pages (p : string) : bool :=
  bool_decide (p ∈ ["home"; "booking"; "time-slots"; "queue"; "check-appointments"; "login";
                    "signup"; "profile"]).

Lemma back_after_show_witness :
  goBackToPrevious sample_pages (showPage sample_pages "queue" (mkNav ["home"; "booking"] (Some "booking"))) =
    mkNav ["home"; "booking"] (if sample_pages "booking" then Some "booking" else None).
Proof.
  apply (back_after_show sample_pages (mkNav ["home"; "booking"] (Some "booking")) "queue" "booking");
    [reflexivity | discriminate].
Defined.

Lemma profile_back_loop_witness :
  Nat.iter 3 (goBackToPrevious_sf sample_pages (JStr "") (JStr ""))
    (showPage_sf sample_pages (JStr "") (JStr "") "profile" (mkNav ["home"; "booking"] (Some "booking"))) =
  showPage_sf sample_pages (JStr "") (JStr "") "profile" (mkNav ["home"; "booking"] (Some "booking")).
Proof. apply profile_back_loop; [left; reflexivity | discriminate]. Defined.
