(* ===== verification/Calendar.v ===== *)
(** * Calendar: the date picker and the booking request of the front end
      (public/js/app.js; somefile.js has the same code)

    [generateCalendar()] renders the month [currentMonth]/[currentYear]
    as a grid: the trailing days of the previous month, one cell per day
    of the month (with its [today], [disabled] and [selected] classes and
    the date string its [onclick] passes to [selectDate]), and the
    leading days of the next month.  [changeMonth(direction)] moves the
    month with a wrap of the year.  [confirmAppointment()] checks the
    form and posts [patientId], [doctorId] and
    [dateTime = `${selectedDate}T${selectedTime}:00`].

    The browser's clock and time-zone offset are parameters ([now], [tz]:
    local time is UTC plus [tz] milliseconds, a fixed offset).  A day cell
    carries the date string [date.toISOString().split('T')[0]] of the
    local midnight [new Date(year, month, day)]: this is the UTC date of
    that instant, which east of Greenwich is the previous day
    ([calendar_books_previous_day]).  The HTML is modelled as the list of
    cells it describes. *)

From S2P Require Import Prelude JsString JsDate IsoRoundtrip Json.

(** ** Local dates of the browser *)

(** [MakeDay(year, month, day)]: month [m] counts from 0 and may
    overflow into the next years. *)
Definition make_day (y m d : Z) : Z := days_from_civil (y + m / 12) (m mod 12 + 1) 1 + d - 1.

(** [new Date(year, month, day)]: local midnight, as a UTC time value. *)
Definition local_date (tz y m d : Z) : Z := make_day y m d * ms_per_day - tz.

(** [new Date(year, month, day, hours, minutes)] *)
Definition local_date_time (tz y m d h mi : Z) : Z :=
  make_day y m d * ms_per_day + h * 3600000 + mi * 60000 - tz.

(** [date.getDay()] *)
Definition get_day (tz t : Z) : Z := (day_of (local_time tz t) + 4) mod 7.

(** [date.toISOString().split('T')[0]] of [new Date(year, month, day)]. *)
Definition cell_date_str (tz y m d : Z) : string := split_first "T" (to_iso_string (local_date tz y m d)).

Definition months : list string :=
  ["January"; "February"; "March"; "April"; "May"; "June"; "July"; "August"; "September";
   "October"; "November"; "December"].

(** ** [generateCalendar()] (app.js lines 263-312) *)

Record Cell : Type := mkCell {
  cell_day : Z;
  cell_classes : list string;
  cell_onclick : option string;    (** the date [selectDate] receives *)
  cell_data_date : option string
}.

Definition other_month_cell (day : Z) : Cell :=
  mkCell day ["calendar-day"; "other-month"; "disabled"] None None.

Record CalendarView : Type := mkView {
  view_title : string;
  view_cells : list Cell
}.

Section Render.
Variables (now tz : Z) (currentYear currentMonth : Z) (selectedDate : string).

Definition today_day : Z := day_of (local_time tz now).

Definition month_cell (day : Z) : Cell :=
  let date := local_date tz currentYear currentMonth day in
  let dateStr := cell_date_str tz currentYear currentMonth day in
  let isToday := bool_decide (day_of (local_time tz date) = today_day) in
  let isPast := bool_decide (date < today_day * ms_per_day - tz) in
  let isSelected := bool_decide (selectedDate = dateStr) in
  mkCell day
    (["calendar-day"] ++ (if isToday then ["today"] else []) ++
     (if isPast then ["disabled"] else []) ++ (if isSelected then ["selected"] else []))
    (Some dateStr)
    (if isPast then None else Some dateStr).

Definition firstDay : Z := get_day tz (local_date tz currentYear currentMonth 1).
Definition daysInMonth : Z := get_date tz (local_date tz currentYear (currentMonth + 1) 0).
Definition daysInPrevMonth : Z := get_date tz (local_date tz currentYear currentMonth 0).

Definition generateCalendar : CalendarView :=
  let remainingCells := 42 - (firstDay + daysInMonth) in
  mkView (default "undefined" (months !! Z.to_nat currentMonth) +:+ " " +:+ number_to_string currentYear)
    (map (fun i => other_month_cell (daysInPrevMonth - i)) (reverse (seqZ 0 firstDay)) ++
     map month_cell (seqZ 1 daysInMonth) ++
     (if remainingCells <? 7 then map other_month_cell (seqZ 1 remainingCells) else [])).
End Render.

(** ** [changeMonth(direction)] (app.js lines 314-324) *)

Definition changeMonth (direction : Z) (ym : Z * Z) : Z * Z :=
  let '(y, m) := ym in
  let m1 := m + direction in
  if 11 <? m1 then (y + 1, 0)
  else if m1 <? 0 then (y - 1, 11)
  else (y, m1).

(** ** [confirmAppointment()] (app.js lines 471-550): the checks and the
    request body *)

Definition appointment_dateTime (selectedDate selectedTime : string) : string :=
  selectedDate +:+ "T" +:+ selectedTime +:+ ":00".

(** The modal's message when a check fails, or the JSON body posted to
    [/appointments/book]. *)
Definition confirm_request (patientInput : string) (selectedDoctor : jsval)
    (selectedDate selectedTime : string) : string + jsval :=
  let patientId := trim patientInput in
  if bool_decide (patientId = "") then inl "Please enter a Patient ID."
  else if negb (truthy (get_prop selectedDoctor "doctorId")) then inl "Please select a doctor."
  else if bool_decide (selectedDate = "") then inl "Please select an appointment date."
  else if bool_decide (selectedTime = "") then inl "Please select a time slot."
  else inr (JObj [("patientId", JStr patientId); ("doctorId", get_prop selectedDoctor "doctorId");
                  ("dateTime", JStr (appointment_dateTime selectedDate selectedTime))]).

(** [loadQueueList()] (app.js lines 594-651): the simulated queue, with
    the draws [r1], [r2], [r3] of [Math.floor(Math.random() * 1000)].
    ['Q' + r + 1] is evaluated left to right: string concatenation. *)
Definition sample_queue (r1 r2 r3 : Z) : list (string * string * string * string) :=
  [ ("Q" +:+ number_to_string r1 +:+ number_to_string 1, "5 min", "PAT001", "Dr. Bob Smith");
    ("Q" +:+ number_to_string r2 +:+ number_to_string 2, "10 min", "PAT002", "Dr. Alice Johnson");
    ("Q" +:+ number_to_string r3 +:+ number_to_string 3, "15 min", "PAT003", "Dr. David Wilson") ].

(** ** Lemmas *)

Lemma day_of_local_date (tz y m d : Z) :
  - ms_per_day < tz < ms_per_day ->
  day_of (local_date tz y m d) = make_day y m d - (if 0 <? tz then 1 else 0).
Proof.
  intros Htz. unfold day_of, local_date, ms_per_day in *.
  destruct (Z.ltb_spec 0 tz); Z.div_mod_to_equations; nia.
Qed.

Lemma local_time_local_date (tz y m d : Z) : local_time tz (local_date tz y m d) = make_day y m d * ms_per_day.
Proof. unfold local_time, local_date. lia. Qed.

Lemma firstDay_bounds (tz y m : Z) : 0 <= firstDay tz y m < 7.
Proof. unfold firstDay, get_day. apply Z.mod_pos_bound. lia. Qed.

(** C28: The grid has 42 cells when the month ends in its sixth week, and
    otherwise only the cells up to the month's last day: the leading
    days of the next month are drawn only when fewer than 7 are missing. *)
Lemma calendar_cells_count (now tz y m : Z) (sel : string) :
  List.length (view_cells (generateCalendar now tz y m sel)) =
    Z.to_nat (if 35 <? firstDay tz y m + daysInMonth tz y m then 42 else firstDay tz y m + daysInMonth tz y m).
Proof.
  pose proof (firstDay_bounds tz y m) as Hf.
  assert (Hd : 1 <= daysInMonth tz y m <= 31) by (unfold daysInMonth; apply get_date_bounds).
  unfold generateCalendar. cbn [view_cells]. rewrite !length_app, !length_map, length_reverse, !length_seqZ.
  destruct (Z.ltb_spec (42 - (firstDay tz y m + daysInMonth tz y m)) 7);
    destruct (Z.ltb_spec 35 (firstDay tz y m + daysInMonth tz y m)); try lia.
  - rewrite length_map, length_seqZ. lia.
  - cbn [List.length]. lia.
Qed.

(** ** Properties *)

(** C27: the month arrows keep the month in 0..11 and
    move the absolute month number [12 * year + month] by exactly one. *)
Theorem changeMonth_index (dir y m : Z) :
  0 <= m <= 11 -> dir = 1 \/ dir = -1 ->
  let '(y', m') := changeMonth dir (y, m) in 0 <= m' <= 11 /\ 12 * y' + m' = 12 * y + m + dir.
Proof.
  intros Hm Hdir. unfold changeMonth.
  destruct (Z.ltb_spec 11 (m + dir)); [lia|]. destruct (Z.ltb_spec (m + dir) 0); lia.
Qed.

(** C23: the date a day cell passes to
    [selectDate] is the UTC date of the local midnight of that day, so the
    [dateTime] that [confirmAppointment] posts for a slot [HH:MM] is read
    by the server (in the same time zone) as that slot one day early when
    the zone is east of UTC, and as the right instant otherwise. *)
Theorem calendar_books_previous_day (tz : Z) (legacy : string -> jsdate) (y m d h mi : Z) :
  - ms_per_day < tz < ms_per_day -> 0 <= h < 24 -> 0 <= mi < 60 ->
  (let '(y', _, _) := civil_from_days (day_of (local_date tz y m d)) in 0 <= y' <= 9999) ->
  new_date tz legacy
    (JStr (appointment_dateTime (cell_date_str tz y m d) (fixed_digits 2 h +:+ ":" +:+ fixed_digits 2 mi))) =
  time_clip (local_date_time tz y m d h mi - (if 0 <? tz then ms_per_day else 0)).
Proof.
  intros Htz Hh Hmi Hy.
  destruct (civil_from_days (day_of (local_date tz y m d))) as [[y' m'] d'] eqn:Hc.
  pose proof (civil_from_days_bounds (day_of (local_date tz y m d))) as Hb. rewrite Hc in Hb.
  pose proof (days_from_civil_from_days (day_of (local_date tz y m d))) as Hdays. rewrite Hc in Hdays.
  unfold cell_date_str, appointment_dateTime. rewrite (split_to_iso_string _ y' m' d' Hc Hy).
  rewrite !string_app_assoc. unfold new_date, date_parse. rewrite parse_iso_local by lia.
  f_equal. rewrite Hdays, day_of_local_date by done. unfold local_date_time.
  destruct (Z.ltb_spec 0 tz); lia.
Qed.

(** ** Worked examples *)

Lemma changeMonth_index_witness :
  let '(y', m') := changeMonth 1 (2025, 11) in 0 <= m' <= 11 /\ 12 * y' + m' = 12 * 2025 + 11 + 1.
Proof. apply changeMonth_index; [lia | left; reflexivity]. Defined.

(** In Yangon or Bangkok ([tz] = 7 h here), choosing 10 November 2025 at
    09:30 books 9 November 2025 at 09:30. *)
Lemma calendar_books_previous_day_witness :
  new_date 25200000 (fun _ => None)
    (JStr (appointment_dateTime (cell_date_str 25200000 2025 10 10)
             (fixed_digits 2 9 +:+ ":" +:+ fixed_digits 2 30))) =
  time_clip (local_date_time 25200000 2025 10 10 9 30 - (if 0 <? 25200000 then ms_per_day else 0)).
Proof.
  apply calendar_books_previous_day; [unfold ms_per_day; lia | lia | lia | vm_compute; split; discriminate].
Defined.

(** The cell of 10 November 2025 carries "2025-11-09" east of UTC. *)
Example cell_date_east : cell_date_str 25200000 2025 10 10 = "2025-11-09".
Proof. vm_compute. reflexivity. Qed.

(** March 2026 starts on a Sunday and has 31 days: 31 cells, the last
    week row holds three days and no leading days of April. *)
Example calendar_march_2026 :
  List.length (view_cells (generateCalendar 1762646400000 0 2026 2 "")) = 31%nat.
Proof. vm_compute. reflexivity. Qed.

(** ['Q' + 41 + 1] is "Q411", not "Q42". *)
Example sample_queue_concat : (fun q => fst (fst (fst q))) <$> head (sample_queue 41 7 300) = Some "Q411".
Proof. reflexivity. Qed.
