(* ===== verification/Client.v ===== *)
(** * Client: the browser's calls to the API and what it shows
      (public/js/app.js and public/js/somefile.js)

    Both scripts keep their state in global variables and in the DOM.
    The model keeps the part the scripts read or write: the loading
    overlay, the result modal (its title and body), the [alert] calls,
    the pending [setTimeout] callbacks, the containers the scripts fill
    by element id, and the globals (the navigation stack, the session of
    [somefile.js] with its [localStorage], the booking selection).  A
    handler is a computation of [CM St] over the browser and the server's
    state [St], for any server of the interface [HttpServer] ([Api.v]):
    [fetch] sends the request to [serve] and builds the [Response] the
    script reads; [response.json()] throws on Express's HTML 404 page;
    reading a property of [null] or [undefined] throws a [TypeError], as
    in JavaScript.  [confirm] and [prompt] are the user's answers, given
    as arguments.  The HTML the scripts build is modelled by the values
    it displays ([Content], [Card], [View]); styling and the
    [console] are not modelled. *)

From S2P Require Import Prelude JsString JsDate IsoRoundtrip Json Mongoose Schemas Db Lifecycle LifecycleProps Availability Notify Routes Api Navigation Calendar.

(** ** What the page shows *)

(** The body of the result modal. *)
Inductive Content : Type :=
| CText (s : string)
| CCheckIn (queueNumber checkedInAt : jsval)
| CBooked (appointmentId doctorName : jsval) (date time : string) (patientId : jsval).

(** The callbacks given to [setTimeout]. *)
Inductive Timer : Type :=
| TReload
| TShowPage (p : string).

(** The buttons of an appointment card. *)
Inductive Action : Type :=
| AModify (id : string)
| ACancel (id : string)
| ACheckIn (id : string)
| ADisabled (label : string).

(** [createAppointmentCard(appointment)]: the texts the card shows. *)
Record Card : Type := mkCard {
  card_id : string;
  card_doctor : string;
  card_when : string;
  card_status : string;
  card_queue : string;
  card_patient : string;
  card_actions : list Action
}.

(** The content of a container. *)
Inductive View : Type :=
| VHtml (html : string)             (** markup of the page, as loaded *)
| VPulse (text : string)            (** [<div class="pulse">text</div>] *)
| VEmpty (title text : string)      (** [<div class="empty-state"><h3>title</h3><p>text</p></div>] *)
| VCards (cards : list Card)        (** appointment cards *)
| VItems (items : list jsval).      (** one element per item of the data *)

Record UI : Type := mkUI {
  ui_online : bool;                      (** the network reaches the server *)
  ui_now : Z;                            (** the browser's clock *)
  ui_loading : bool;                     (** [#loading-overlay.active] *)
  ui_modal : option (string * Content);  (** [#result-modal.active], title, body *)
  ui_alerts : list string;               (** [alert(...)] calls, in order *)
  ui_timers : list Timer;                (** pending [setTimeout] callbacks *)
  ui_views : gmap string View            (** containers present, by element id *)
}.

Record Globals : Type := mkGlobals {
  g_nav : Nav;
  g_loggedIn : bool;
  g_patientId : jsval;
  g_patientName : jsval;
  g_patientEmail : jsval;
  g_storage : gmap string string;        (** [localStorage] *)
  g_selectedDoctor : jsval;
  g_selectedDate : string;
  g_selectedTime : string
}.

Record Browser : Type := mkBrowser { br_ui : UI; br_g : Globals }.

Definition set_loading (b : bool) (u : UI) : UI :=
  mkUI u.(ui_online) u.(ui_now) b u.(ui_modal) u.(ui_alerts) u.(ui_timers) u.(ui_views).
Definition set_modal (m : option (string * Content)) (u : UI) : UI :=
  mkUI u.(ui_online) u.(ui_now) u.(ui_loading) m u.(ui_alerts) u.(ui_timers) u.(ui_views).
Definition push_alert (s : string) (u : UI) : UI :=
  mkUI u.(ui_online) u.(ui_now) u.(ui_loading) u.(ui_modal) (u.(ui_alerts) ++ [s]) u.(ui_timers) u.(ui_views).
Definition push_timer (t : Timer) (u : UI) : UI :=
  mkUI u.(ui_online) u.(ui_now) u.(ui_loading) u.(ui_modal) u.(ui_alerts) (u.(ui_timers) ++ [t]) u.(ui_views).
Definition put_view (id : string) (v : View) (u : UI) : UI :=
  mkUI u.(ui_online) u.(ui_now) u.(ui_loading) u.(ui_modal) u.(ui_alerts) u.(ui_timers) (<[id := v]> u.(ui_views)).

(** ** The browser's computations *)

Definition CM (St A : Type) : Type := M (Browser * St) A.

Section Browser.
Context {St : Type} `{HttpServer St}.


Definition ui_update (f : UI -> UI) : CM St unit :=
  fun '(b, s) => (Ok tt, (mkBrowser (f b.(br_ui)) b.(br_g), s)).

Definition g_update (f : Globals -> Globals) : CM St unit :=
  fun '(b, s) => (Ok tt, (mkBrowser b.(br_ui) (f b.(br_g)), s)).

Definition read_ui {A} (f : UI -> A) : CM St A := fun '(b, s) => (Ok (f b.(br_ui)), (b, s)).
Definition read_g {A} (f : Globals -> A) : CM St A := fun '(b, s) => (Ok (f b.(br_g)), (b, s)).

(** [showLoading()], [hideLoading()], [showModal(title, content)],
    [closeModal()] (app.js lines 905-921) *)
Definition showLoading : CM St unit := ui_update (set_loading true).
Definition hideLoading : CM St unit := ui_update (set_loading false).
Definition showModal (title : string) (c : Content) : CM St unit := ui_update (set_modal (Some (title, c))).
Definition closeModal : CM St unit := ui_update (set_modal None).

Definition alert (msg : string) : CM St unit := ui_update (push_alert msg).
Definition setTimeout (t : Timer) : CM St unit := ui_update (push_timer t).

(** [document.getElementById(id).innerHTML = ...]: a [TypeError] when
    the element is missing. *)
Definition set_inner (id : string) (v : View) : CM St unit :=
  views <- read_ui ui_views ;;
  if bool_decide (is_Some (views !! id)) then ui_update (put_view id v)
  else throw "Cannot set properties of null (setting 'innerHTML')".

(** [obj.k] on any value: [null] and [undefined] have no properties. *)
Definition prop (v : jsval) (k : string) : CM St jsval :=
  match v with
  | JUndefined | JNull =>
      throw ("Cannot read properties of " +:+ js_to_string v +:+ " (reading '" +:+ k +:+ "')")
  | _ => ret (get_prop v k)
  end.

(** [a || b] *)
Definition js_or (a b : jsval) : jsval := if truthy a then a else b.

(** The part of a [fetch] [Response] the scripts read. *)
Record HttpResponse : Type := mkHttpResponse { r_status : Z; r_json : option jsval }.

(** [response.ok] *)
Definition response_ok (r : HttpResponse) : bool := (200 <=? r.(r_status)) && (r.(r_status) <=? 299).

(** [await response.json()]: Express's 404 page is HTML. *)
Definition response_json (r : HttpResponse) : CM St jsval :=
  match r.(r_json) with
  | Some v => ret v
  | None => throw "Unexpected token '<', <!DOCTYPE is not valid JSON"
  end.

(** [await fetch(url, { method, body: JSON.stringify(body) })]: the
    request reaches [serve] when the network is up; [express.json()]
    parses the body back to the same value.  A handler that throws
    would leave the request unanswered; [serve_total] excludes it. *)
Definition fetch (m : Method) (url : string) (body : jsval) : CM St HttpResponse :=
  fun '(b, s) =>
    if negb b.(br_ui).(ui_online) then (Throw "Failed to fetch", (b, s)) else
    match url_segments url with
    | None => (Throw "Failed to fetch", (b, s))
    | Some xs =>
        match serve m xs body s with
        | (Ok (Some r), s') => (Ok (mkHttpResponse r.(res_status) (Some r.(res_body))), (b, s'))
        | (Ok None, s') => (Ok (mkHttpResponse 404 None), (b, s'))
        | (Throw _, s') => (Throw "Failed to fetch", (b, s'))
        end
    end.

(** [response.ok && data.success] *)
Definition ok_and_success (r : HttpResponse) (data : jsval) : CM St bool :=
  if response_ok r then (v <- prop data "success" ;; ret (truthy v)) else ret false.
End Browser.

(** ** The appointment actions (app.js lines 799-902; somefile.js lines
    928-1031 are the same code) *)

Section Actions.
Context {St : Type} `{HttpServer St}.

(** The failure branch: [showModal(title, data.message || fallback)]. *)
Definition show_failure (title fallback : string) (data : jsval) : CM St unit :=
  msg <- prop data "message" ;;
  showModal title (CText (js_to_string (js_or msg (JStr fallback)))).

(** The [catch] of the three actions. *)
Definition network_error (msg : string) : string -> CM St unit :=
  fun _ => hideLoading ;;; showModal "Network Error" (CText msg).

(** [cancelAppointment(appointmentId)]; [confirmed] is the answer to
    [confirm('Are you sure you want to cancel this appointment?')]. *)
Definition cancelAppointment_ui (confirmed : bool) (appointmentId : string) : CM St unit :=
  if negb confirmed then ret tt else
  showLoading ;;;
  try_catch (
    response <- fetch DELETE (API_BASE +:+ "/appointments/" +:+ appointmentId +:+ "/cancel") (JObj []) ;;
    data <- response_json response ;;
    hideLoading ;;;
    ok <- ok_and_success response data ;;
    if ok then
      showModal "Appointment Cancelled" (CText "Your appointment has been cancelled successfully.") ;;;
      setTimeout TReload
    else show_failure "Cancellation Failed" "Failed to cancel appointment." data
  ) (network_error "Unable to connect to server.").

(** [modifyAppointment(appointmentId)]; [input] is what [prompt]
    returns ([None] for [null]). *)
Definition modifyAppointment_ui (input : option string) (appointmentId : string) : CM St unit :=
  match input with
  | None => ret tt
  | Some newDateTime =>
      if bool_decide (newDateTime = "") then ret tt else
      showLoading ;;;
      try_catch (
        response <- fetch PUT (API_BASE +:+ "/appointments/" +:+ appointmentId +:+ "/modify")
                      (JObj [("newDateTime", JStr newDateTime)]) ;;
        data <- response_json response ;;
        hideLoading ;;;
        ok <- ok_and_success response data ;;
        if ok then
          showModal "Appointment Modified" (CText "Your appointment has been modified successfully.") ;;;
          setTimeout TReload
        else show_failure "Modification Failed" "Failed to modify appointment." data
      ) (network_error "Unable to connect to server.")
  end.

(** [checkInPatient(appointmentId)]; [confirmed] answers
    [confirm('Check in for this appointment?')].  The check-in time is
    shown with [toLocaleString()], whose format is not modelled. *)
Definition checkInPatient_ui (confirmed : bool) (appointmentId : string) : CM St unit :=
  if negb confirmed then ret tt else
  showLoading ;;;
  try_catch (
    response <- fetch POST (API_BASE +:+ "/appointments/" +:+ appointmentId +:+ "/checkin") (JObj []) ;;
    data <- response_json response ;;
    hideLoading ;;;
    ok <- ok_and_success response data ;;
    if ok then
      q <- prop data "queueNumber" ;;
      checkedInAt <- prop data "checkedInAt" ;;
      showModal "Check-in Successful" (CCheckIn q checkedInAt) ;;;
      setTimeout TReload
    else show_failure "Check-in Failed" "Failed to check in." data
  ) (network_error "Unable to connect to server.").

(** [generateQueue(appointmentId)] (app.js lines 552-565): the result is
    only logged. *)
Definition generateQueue (appointmentId : jsval) : CM St unit :=
  try_catch (
    response <- fetch POST (API_BASE +:+ "/appointments/" +:+ js_to_string appointmentId +:+ "/queue") (JObj []) ;;
    data <- response_json response ;;
    _ <- prop data "success" ;;
    ret tt
  ) (fun _ => ret tt).
End Actions.

(** ** Appointment cards and the search (app.js lines 671-796;
    somefile.js lines 814-925) *)

(** [s.toUpperCase()] on one character of ASCII. *)
Definition upper_ascii (c : ascii) : ascii :=
  let n := nat_of_ascii c in
  if (97 <=? n)%nat && (n <=? 122)%nat then ascii_of_nat (n - 32) else c.

(** [s.charAt(0).toUpperCase() + s.slice(1)] *)
Definition capitalize (s : string) : string :=
  match s with
  | EmptyString => EmptyString
  | String c s' => String (upper_ascii c) s'
  end.

Section Cards.
Context {St : Type} `{HttpServer St}.

(** [appointment.status.charAt(0).toUpperCase() + appointment.status.slice(1)]:
    only a string has [charAt]. *)
Definition status_label (st : jsval) : CM St string :=
  match st with
  | JStr s => ret (capitalize s)
  | JUndefined | JNull => throw ("Cannot read properties of " +:+ js_to_string st +:+ " (reading 'charAt')")
  | _ => throw "appointment.status.charAt is not a function"
  end.

(** [createAppointmentCard(appointment)] (app.js lines 745-796): the
    buttons are Modify, Cancel and Check In when [status === 'confirmed'],
    and one disabled button labelled with the status otherwise. *)
Definition createAppointmentCard (a : jsval) : CM St Card :=
  st <- prop a "status" ;;
  id <- prop a "appointmentId" ;;
  doctor <- prop a "doctorName" ;;
  dt <- prop a "dateTime" ;;
  tm <- prop a "time" ;;
  q <- prop a "queueNumber" ;;
  p <- prop a "patientId" ;;
  actions <- (if js_strict_eq st (JStr "confirmed")
              then ret [AModify (js_to_string id); ACancel (js_to_string id); ACheckIn (js_to_string id)]
              else label <- status_label st ;; ret [ADisabled label]) ;;
  ret (mkCard (js_to_string id) (js_to_string doctor) (js_to_string dt +:+ " at " +:+ js_to_string tm)
         (js_to_string st) (js_to_string (js_or q (JStr "Not assigned"))) (js_to_string p) actions).

(** [container.appendChild(card)] after [container.innerHTML = ''] *)
Definition append_card (container : string) (c : Card) : CM St unit :=
  views <- read_ui ui_views ;;
  match views !! container with
  | Some (VCards cs) => ui_update (put_view container (VCards (cs ++ [c])))
  | _ => ui_update (put_view container (VCards [c]))
  end.

(** [appointments.forEach(a => container.appendChild(createAppointmentCard(a)))] *)
Fixpoint append_cards (container : string) (l : list jsval) : CM St unit :=
  match l with
  | [] => ret tt
  | a :: l' => c <- createAppointmentCard a ;; append_card container c ;;; append_cards container l'
  end.

Definition no_appointments : View :=
  VEmpty "No appointments found" "No appointments found for this Patient ID.".

(** [String.prototype.includes] *)
Fixpoint is_prefix (p s : string) : bool :=
  match p, s with
  | EmptyString, _ => true
  | String a p', String b s' => bool_decide (a = b) && is_prefix p' s'
  | _, _ => false
  end.

Fixpoint includes (s p : string) : bool :=
  is_prefix p s || match s with EmptyString => false | String _ s' => includes s' p end.

(** Whether [container.innerHTML.includes('appointment-card')]. *)
Definition view_has_card (v : View) : bool :=
  match v with
  | VHtml html => includes html "appointment-card"
  | VCards cs => negb (bool_decide (cs = []))
  | _ => false
  end.

(** [displayAppointments(appointments, container)] of app.js (lines
    723-743): existing cards are kept. *)
Definition displayAppointments_app (l : list jsval) (container : string) : CM St unit :=
  if bool_decide (l = []) then set_inner container no_appointments else
  views <- read_ui ui_views ;;
  if view_has_card (default (VHtml "") (views !! container)) then ret tt else
  set_inner container (VCards []) ;;;
  append_cards container l.

(** [displayAppointments] of somefile.js (lines 856-872). *)
Definition displayAppointments_sf (l : list jsval) (container : string) : CM St unit :=
  if bool_decide (l = []) then set_inner container no_appointments else
  set_inner container (VCards []) ;;;
  append_cards container l.

Definition search_failed : View :=
  VEmpty "Search Failed" "Unable to search appointments. Please try again.".

(** The two demo appointments of app.js's search, for the patient id
    searched; [bookedAt] is the browser's clock. *)
Definition sampleAppointments (patientId : string) (now : Z) : list jsval :=
  [ JObj [("appointmentId", JStr "APT1703123456789"); ("doctorName", JStr "Dr. Bob Smith");
          ("dateTime", JStr "2024-01-15"); ("time", JStr "09:00 AM"); ("status", JStr "confirmed");
          ("queueNumber", JStr "Q001"); ("bookedAt", JStr (to_iso_string now));
          ("patientId", JStr patientId)];
    JObj [("appointmentId", JStr "APT1703123456790"); ("doctorName", JStr "Dr. Alice Johnson");
          ("dateTime", JStr "2024-01-20"); ("time", JStr "02:00 PM"); ("status", JStr "completed");
          ("queueNumber", JStr "Q002"); ("bookedAt", JStr (to_iso_string now));
          ("patientId", JStr patientId)] ].

(** [searchAppointments()] of app.js (lines 671-721); [input] is the
    value of [#search-patient-id].  The one-second delay is not
    modelled. *)
Definition searchAppointments_app (input : string) : CM St unit :=
  let patientId := trim input in
  if bool_decide (patientId = "") then
    showModal "Validation Error" (CText "Please enter a Patient ID to search.")
  else
  set_inner "appointments-list" (VPulse "Searching appointments...") ;;;
  try_catch (
    now <- read_ui ui_now ;;
    displayAppointments_app (sampleAppointments patientId now) "appointments-list"
  ) (fun _ => set_inner "appointments-list" search_failed).

(** [searchAppointments()] of somefile.js (lines 814-854). *)
Definition searchAppointments_sf (input : string) : CM St unit :=
  let patientIdSearch := trim input in
  if bool_decide (patientIdSearch = "") then
    showModal "Validation Error" (CText "Please enter a Patient ID to search.")
  else
  set_inner "appointments-list" (VPulse "Searching appointments...") ;;;
  try_catch (
    response <- fetch GET (API_BASE +:+ "/appointments?patientId=" +:+ patientIdSearch) (JObj []) ;;
    data <- response_json response ;;
    match data with
    | JArr l => if response_ok response then displayAppointments_sf l "appointments-list"
                else set_inner "appointments-list" no_appointments
    | _ => set_inner "appointments-list" no_appointments
    end
  ) (fun _ => set_inner "appointments-list" search_failed).
End Cards.

(** ** The booking form (app.js lines 326-550; somefile.js lines
    434-751) *)

Definition set_selection (doctor : jsval) (date time : string) (g : Globals) : Globals :=
  mkGlobals g.(g_nav) g.(g_loggedIn) g.(g_patientId) g.(g_patientName) g.(g_patientEmail)
    g.(g_storage) doctor date time.

Definition set_nav (n : Nav) (g : Globals) : Globals :=
  mkGlobals n g.(g_loggedIn) g.(g_patientId) g.(g_patientName) g.(g_patientEmail)
    g.(g_storage) g.(g_selectedDoctor) g.(g_selectedDate) g.(g_selectedTime).

Section Booking.
Context {St : Type} `{HttpServer St}.

(** [selectDate(dateStr, element)]: a disabled day is ignored. *)
Definition selectDate (dateStr : string) (classes : list string) : CM St unit :=
  if bool_decide ("disabled" ∈ classes) then ret tt else
  g_update (fun g => set_selection g.(g_selectedDoctor) dateStr g.(g_selectedTime) g).

(** [selectTimeSlot(slot)]: [selectedTime = slot.dataset.time]. *)
Definition selectTimeSlot (time : string) : CM St unit :=
  g_update (fun g => set_selection g.(g_selectedDoctor) g.(g_selectedDate) time g).

(** [selectDoctor(doctor)] of app.js: the selection, then
    [showPage('booking')] ([has_page] is the document). *)
Definition selectDoctor (has_page : string -> bool) (doctor : jsval) : CM St unit :=
  g_update (fun g => set_selection doctor g.(g_selectedDate) g.(g_selectedTime) g) ;;;
  g_update (fun g => set_nav (showPage has_page "booking" g.(g_nav)) g).

(** [resetBookingForm()]: the selection is cleared and the stack is
    reset to [['home']]. *)
Definition resetBookingForm_ui : CM St unit :=
  g_update (fun g => set_nav (resetBookingForm g.(g_nav)) (set_selection (JObj []) "" "" g)).

(** The request of [confirmAppointment()] after its checks, the same in
    both scripts (app.js lines 497-549, somefile.js lines 659-711). *)
Definition book_request (patientId body : jsval) : CM St unit :=
  showLoading ;;;
  try_catch (
    response <- fetch POST (API_BASE +:+ "/appointments/book") body ;;
    data <- response_json response ;;
    hideLoading ;;;
    ok <- ok_and_success response data ;;
    if ok then
      id <- prop data "appointmentId" ;;
      generateQueue id ;;;
      id' <- prop data "appointmentId" ;;
      doctor <- read_g g_selectedDoctor ;;
      name <- prop doctor "name" ;;
      date <- read_g g_selectedDate ;;
      time <- read_g g_selectedTime ;;
      showModal "Appointment Confirmed! 🎉" (CBooked id' name date time patientId) ;;;
      resetBookingForm_ui ;;;
      setTimeout (TShowPage "check-appointments")
    else show_failure "Booking Failed" "Failed to book appointment." data
  ) (network_error "Unable to connect to server. Please try again later.").

(** [confirmAppointment()] of app.js (lines 471-550): the checks and the
    body of [confirm_request], on the value of [#patient-id-input]. *)
Definition confirmAppointment_app (patientInput : string) : CM St unit :=
  doctor <- read_g g_selectedDoctor ;;
  date <- read_g g_selectedDate ;;
  time <- read_g g_selectedTime ;;
  match confirm_request patientInput doctor date time with
  | inl msg => showModal "Validation Error" (CText msg)
  | inr body => book_request (JStr (trim patientInput)) body
  end.

(** [confirmAppointment()] of somefile.js (lines 633-712): the patient
    is the logged-in one. *)
Definition confirmAppointment_sf : CM St unit :=
  patientId <- read_g g_patientId ;;
  if negb (truthy patientId) then
    showModal "Validation Error" (CText "Please login to book an appointment.") else
  doctor <- read_g g_selectedDoctor ;;
  doctorId <- prop doctor "doctorId" ;;
  if negb (truthy doctorId) then showModal "Validation Error" (CText "Please select a doctor.") else
  date <- read_g g_selectedDate ;;
  if bool_decide (date = "") then
    showModal "Validation Error" (CText "Please select an appointment date.") else
  time <- read_g g_selectedTime ;;
  if bool_decide (time = "") then showModal "Validation Error" (CText "Please select a time slot.") else
  book_request patientId
    (JObj [("patientId", patientId); ("doctorId", doctorId);
           ("dateTime", JStr (appointment_dateTime date time))]).

(** ** The lists of somefile.js: doctors (lines 464-493), time slots
    (lines 586-619), queue (lines 754-794) *)

(** Build one element per item, reading the properties its template
    reads (a [null] item throws). *)
Fixpoint read_items (keys : list string) (items : list jsval) : CM St unit :=
  match items with
  | [] => ret tt
  | it :: items' =>
      (fix go (ks : list string) : CM St unit :=
         match ks with [] => ret tt | k :: ks' => prop it k ;;; go ks' end) keys ;;;
      read_items keys items'
  end.

(** [if (!container) return;] then the pulse, the request (its URL is
    computed inside the [try]), and the items, the empty state or the
    error state. *)
Definition load_list (container : string) (url : CM St string) (pulse : string) (keys : list string)
    (empty error : View) : CM St unit :=
  views <- read_ui ui_views ;;
  if negb (bool_decide (is_Some (views !! container))) then ret tt else
  set_inner container (VPulse pulse) ;;;
  try_catch (
    u <- url ;;
    response <- fetch GET u (JObj []) ;;
    data <- response_json response ;;
    match data with
    | JArr items =>
        if response_ok response
        then set_inner container (VItems []) ;;; read_items keys items ;;; set_inner container (VItems items)
        else set_inner container empty
    | _ => set_inner container empty
    end
  ) (fun _ => set_inner container error).

Definition loadDoctors : CM St unit :=
  load_list "doctors-grid" (ret (API_BASE +:+ "/doctor")) "Loading doctors..."
    ["avatar"; "name"; "specialty"; "experience"; "availability"; "doctorId"]
    (VEmpty "No doctors available" "") (VEmpty "Error loading doctors" "").

Definition loadTimeSlots : CM St unit :=
  load_list "time-slots-grid"
    (doctor <- read_g g_selectedDoctor ;;
     doctorId <- prop doctor "doctorId" ;;
     date <- read_g g_selectedDate ;;
     ret (API_BASE +:+ "/doctors/" +:+ js_to_string doctorId +:+ "/slots?date=" +:+ date))
    "Loading time slots..." [] (VEmpty "No time slots available" "") (VEmpty "Error loading time slots" "").

Definition loadQueueList : CM St unit :=
  load_list "queue-list"
    (patientId <- read_g g_patientId ;; ret (API_BASE +:+ "/queue?patientId=" +:+ js_to_string patientId))
    "Loading queue information..." ["queueNumber"; "doctorName"; "waitingTime"]
    (VEmpty "No patients in queue" "The queue is currently empty.")
    (VEmpty "Unable to load queue" "Please try again later.").
End Booking.

(** ** Running the handlers *)

Section Run.
Context {St : Type} `{HttpServer St}.

(** [fetch] changes the server, not the page. *)
Lemma fetch_browser (m : Method) (u : string) (body : jsval) (b : Browser) (s : St) :
  exists o s', fetch m u body (b, s) = (o, (b, s')).
Proof.
  unfold fetch. destruct (negb _); [eauto|]. destruct (url_segments u); [|eauto].
  destruct (serve _ _ _ _) as [[[r|]|e] s']; eauto.
Qed.

(** [response.ok] of a 2xx answer. *)
Lemma response_ok_2xx (status : Z) (j : option jsval) :
  200 <= status <= 299 -> response_ok (mkHttpResponse status j) = true.
Proof. intros Hs. unfold response_ok. simpl. apply andb_true_iff. split; apply Z.leb_le; lia. Qed.
End Run.

Arguments fetch : simpl never.

(** Execute a handler on a symbolic page and server: each [fetch] is
    split on its outcome (an exception, a JSON answer, an HTML page), and
    each test on the data on its value. *)
Ltac client_run :=
  repeat (simpl; match goal with
   | |- context [fetch ?m ?u ?body (?b, ?s)] =>
       let o := fresh "o" in let s' := fresh "s" in let E := fresh "E" in
       destruct (fetch_browser m u body b s) as (o & s' & E); rewrite E; clear E;
       destruct o as [[? [?|]]|?]
   | |- context [match ?x with JUndefined => _ | _ => _ end] => destruct x
   | |- context [if ?c then _ else _] => destruct c
   end).

Ltac client_unfold :=
  unfold cancelAppointment_ui, modifyAppointment_ui, checkInPatient_ui, book_request, generateQueue,
    resetBookingForm_ui, ok_and_success, show_failure, network_error, prop, read_g, try_catch, bind.

(** The overlay is hidden and a modal tells the outcome. *)
Definition settled (b : Browser) : Prop :=
  b.(br_ui).(ui_loading) = false /\ is_Some b.(br_ui).(ui_modal).

Section Settle.
Context {St : Type} `{HttpServer St}.

(** C31: for every server that implements the interface, once the user
    has confirmed (or typed a new date), the cancel, modify and check-in
    buttons and the booking request always finish normally with the
    loading overlay hidden and the result modal open, whatever the server
    answers, on the network failure, on an HTML answer and on a body
    without the expected fields. *)
Theorem actions_settle (b : Browser) (s : St) (id input : string) (patientId body : jsval) :
  input <> "" ->
  (exists b' s', cancelAppointment_ui true id (b, s) = (Ok tt, (b', s')) /\ settled b') /\
  (exists b' s', modifyAppointment_ui (Some input) id (b, s) = (Ok tt, (b', s')) /\ settled b') /\
  (exists b' s', checkInPatient_ui true id (b, s) = (Ok tt, (b', s')) /\ settled b') /\
  (exists b' s', book_request patientId body (b, s) = (Ok tt, (b', s')) /\ settled b').
Proof.
  intros Hin. split_and!; client_unfold; [| rewrite bool_decide_eq_false_2 by done | |];
    client_run; eexists _, _; (split; [reflexivity | split; simpl; eauto]).
Qed.
End Settle.

(** ** The browser against the Express server *)

(** A path segment with no [/] and no [?]. *)
Fixpoint plain (s : string) : bool :=
  match s with
  | EmptyString => true
  | String c s' => negb (bool_decide (c = "/"%char)) && negb (bool_decide (c = "?"%char)) && plain s'
  end.

Lemma plain_cons (c : ascii) (s : string) :
  plain (String c s) = true -> c <> "/"%char /\ c <> "?"%char /\ plain s = true.
Proof. simpl. do 2 case_bool_decide; simpl; naive_solver. Qed.

Lemma split_first_plain (s r : string) :
  plain s = true -> split_first "?" (s +:+ r) = s +:+ split_first "?" r.
Proof.
  induction s as [|c s IH]; [done|]. intros (Hs & Hq & Hp)%plain_cons.
  rewrite !string_app_cons. simpl. rewrite bool_decide_eq_false_2 by congruence. by rewrite IH.
Qed.

Lemma split_first_plain_end (s : string) : plain s = true -> split_first "?" s = s.
Proof. intros Hp. rewrite <- (string_app_nil_r s) at 1. by rewrite split_first_plain, string_app_nil_r. Qed.

Lemma split_on_plain (s r : string) :
  plain s = true -> split_on "/" (s +:+ String "/" r) = s :: split_on "/" r.
Proof.
  induction s as [|c s IH]; [done|]. intros (Hs & Hq & Hp)%plain_cons.
  rewrite string_app_cons. simpl. rewrite bool_decide_eq_false_2 by congruence. by rewrite IH.
Qed.

Lemma split_on_plain_end (s : string) : plain s = true -> split_on "/" s = [s].
Proof.
  induction s as [|c s IH]; [done|]. intros (Hs & Hq & Hp)%plain_cons.
  simpl. rewrite bool_decide_eq_false_2 by congruence. by rewrite IH.
Qed.

Lemma strip_str_app (p s : string) : strip_str p (p +:+ s) = Some s.
Proof. induction p as [|c p IH]; [done|]. rewrite string_app_cons. simpl. by rewrite bool_decide_eq_true_2. Qed.

(** The URL [`${API_BASE}/appointments/${id}/${act}`] is routed on the
    segments [api], [appointments], [id], [act]. *)
Lemma url_segments_action (id act : string) :
  id <> "" -> plain id = true -> act <> "" -> plain act = true ->
  url_segments (API_BASE +:+ "/appointments/" +:+ id +:+ String "/" act) =
    Some ["api"; "appointments"; id; act].
Proof.
  intros Hid Hpid Hact Hpact. unfold url_segments, API_BASE.
  rewrite !string_app_assoc, strip_str_app. repeat rewrite ?string_app_cons, ?string_app_nil_l.
  simpl. rewrite split_first_plain by done. simpl.
  rewrite split_first_plain_end by done. simpl.
  rewrite split_on_plain, split_on_plain_end by done. simpl.
  destruct act as [|c act]; [done|]. by destruct id.
Qed.

Section Express.
Context (uptime : Z).
#[local] Existing Instance express_server.

(** The request reaches the handler of its route. *)
Lemma fetch_express (m : Method) (url : string) (body : jsval) (xs : list string) (e : Endpoint)
    (b : Browser) (w w' : World) (resp : Response) :
  b.(br_ui).(ui_online) = true -> url_segments url = Some xs -> dispatch m xs = Some e ->
  handle uptime body e w = (Ok resp, w') ->
  fetch (H := express_server uptime) m url body (b, w) =
    (Ok (mkHttpResponse resp.(res_status) (Some resp.(res_body))), (b, w')).
Proof.
  intros Hon Hurl Hd Hh. unfold fetch. rewrite Hon, Hurl. simpl. unfold express_app.
  rewrite Hd. unfold bind. by rewrite Hh.
Qed.
(** The modal of a successful cancellation. *)
Definition cancelled_modal : option (string * Content) :=
  Some ("Appointment Cancelled", CText "Your appointment has been cancelled successfully.").

(** C30: cancelling from the card, end to end.  With the network up and
    a live appointment stored under a plain id, the browser's Cancel
    button (confirmed) sends [DELETE /api/appointments/:id/cancel], the
    server records the cancellation, and the page hides the overlay,
    shows "Appointment Cancelled" and schedules the reload; pressing
    Cancel again changes nothing on the server and shows "Cancellation
    Failed" with the server's message. *)
Theorem client_cancel_flow (b : Browser) (w : World) (id : string) (a : Appointment) :
  b.(br_ui).(ui_online) = true -> w.(w_db_fault) = None -> id <> "" -> plain id = true ->
  w.(w_appointments) !! id = Some a -> a.(appointmentId) = id -> appt_validate a = None ->
  a.(status) <> Cancelled ->
  let w1 := with_appointments (<[id := cancel_record w.(w_clock) a]> w.(w_appointments)) w in
  let u1 := push_timer TReload (set_modal cancelled_modal (set_loading false b.(br_ui))) in
  @cancelAppointment_ui World (express_server uptime) true id (b, w) = (Ok tt, (mkBrowser u1 b.(br_g), w1)) /\
  @cancelAppointment_ui World (express_server uptime) true id (mkBrowser u1 b.(br_g), w1) =
    (Ok tt, (mkBrowser (set_modal (Some ("Cancellation Failed", CText "Appointment is already cancelled"))
                          (set_loading false u1)) b.(br_g), w1)).
Proof.
  intros Hon Hdb Hid Hpl Hk Hkey Hv Hst w1 u1.
  pose proof (url_segments_action id "cancel" Hid Hpl ltac:(done) eq_refl) as Hurl.
  assert (Hd : dispatch DELETE ["api"; "appointments"; id; "cancel"] = Some (ECancel id)).
  { rewrite dispatch_api by done. simpl. by rewrite bool_decide_eq_false_2. }
  split.
  - unfold cancelAppointment_ui, try_catch, bind. simpl.
    erewrite fetch_express; [| done | exact Hurl | exact Hd |].
    2: { unfold handle, bind. by rewrite (cancel_ok w id Hdb Hid a Hk Hkey Hv Hst). }
    reflexivity.
  - unfold cancelAppointment_ui, try_catch, bind. simpl.
    erewrite fetch_express; [| done | exact Hurl | exact Hd |].
    2: { unfold handle, bind.
         rewrite (cancel_already w1 id Hdb Hid (cancel_record (w_clock w) a)); [reflexivity | |done].
         unfold w1. simpl. apply lookup_insert_eq. }
    reflexivity.
Qed.
End Express.

(** ** Appointment cards *)

Arguments get_prop : simpl never.

Section CardProps.
Context {St : Type} `{HttpServer St}.

(** C32: the buttons of an appointment card.  For an appointment object
    whose [status] is a string, the card shows that status and offers
    Modify, Cancel and Check In on the appointment's id exactly when the
    status is ["confirmed"]; otherwise one disabled button labelled with
    the capitalized status.  A [status] that is not a string (missing,
    [null], a number) makes [createAppointmentCard] throw. *)
Theorem card_buttons (fs : list (string * jsval)) (b : Browser) (s : St) :
  let a := JObj fs in
  let id := js_to_string (get_prop a "appointmentId") in
  (forall x, get_prop a "status" = JStr x ->
     exists c, createAppointmentCard a (b, s) = (Ok c, (b, s)) /\ c.(card_status) = x /\
       c.(card_actions) = if bool_decide (x = "confirmed") then [AModify id; ACancel id; ACheckIn id]
                          else [ADisabled (capitalize x)]) /\
  (typeof (get_prop a "status") <> "string" -> exists e, createAppointmentCard a (b, s) = (Throw e, (b, s))).
Proof.
  intros a id. unfold createAppointmentCard, prop, status_label, bind, ret, a. simpl. split.
  - intros x Hx. rewrite Hx. simpl. case_bool_decide as Hc; simpl; eexists; (split; [reflexivity|]).
    + by subst.
    + done.
  - intros Ht. destruct (get_prop (JObj fs) "status"); simpl in *; try done; eexists; reflexivity.
Qed.
End CardProps.

(** ** Worked examples *)

(** A page with the four containers, the network up, nobody logged in. *)
Definition sample_browser : Browser :=
  mkBrowser
    (mkUI true 1762646400000 false None [] []
       (list_to_map [("appointments-list", VHtml ""); ("doctors-grid", VHtml "");
                     ("time-slots-grid", VHtml ""); ("queue-list", VHtml "")]))
    (mkGlobals (initial_nav (Some "home")) false (JStr "") (JStr "") (JStr "") ∅ (JObj []) "" "").

Lemma client_cancel_flow_witness :
  let w1 := with_appointments (<["APT1" := cancel_record appt_world.(w_clock) sample_appt]>
                                 appt_world.(w_appointments)) appt_world in
  let u1 := push_timer TReload (set_modal cancelled_modal (set_loading false sample_browser.(br_ui))) in
  @cancelAppointment_ui World (express_server 0) true "APT1" (sample_browser, appt_world) =
    (Ok tt, (mkBrowser u1 sample_browser.(br_g), w1)) /\
  @cancelAppointment_ui World (express_server 0) true "APT1" (mkBrowser u1 sample_browser.(br_g), w1) =
    (Ok tt, (mkBrowser (set_modal (Some ("Cancellation Failed", CText "Appointment is already cancelled"))
                          (set_loading false u1)) sample_browser.(br_g), w1)).
Proof.
  apply (client_cancel_flow 0 sample_browser appt_world "APT1" sample_appt);
    [reflexivity | reflexivity | discriminate | reflexivity | reflexivity | reflexivity | reflexivity
    | discriminate].
Defined.

Lemma actions_settle_witness :
  (exists b' s', @cancelAppointment_ui World (express_server 0) true "APT1" (sample_browser, appt_world) =
                 (Ok tt, (b', s')) /\ settled b') /\
  (exists b' s', @modifyAppointment_ui World (express_server 0) (Some "2025-11-20 10:00") "APT1"
                   (sample_browser, appt_world) = (Ok tt, (b', s')) /\ settled b') /\
  (exists b' s', @checkInPatient_ui World (express_server 0) true "APT1" (sample_browser, appt_world) =
                 (Ok tt, (b', s')) /\ settled b') /\
  (exists b' s', @book_request World (express_server 0) (JStr "P1") (JObj []) (sample_browser, appt_world) =
                 (Ok tt, (b', s')) /\ settled b').
Proof. apply actions_settle. discriminate. Defined.

Lemma card_buttons_witness :
  exists c, @createAppointmentCard World
              (JObj [("appointmentId", JStr "APT1"); ("status", JStr "cancelled")])
              (sample_browser, appt_world) = (Ok c, (sample_browser, appt_world)) /\
            c.(card_status) = "cancelled" /\ c.(card_actions) = [ADisabled "Cancelled"].
Proof.
  apply (card_buttons (St := World) [("appointmentId", JStr "APT1"); ("status", JStr "cancelled")]
           sample_browser appt_world).
  reflexivity.
Defined.
