(* ===== verification/Session.v ===== *)
(** * Session: log-in, sign-up, log-out and the restored session
      (public/js/somefile.js lines 4-168; public/js/app.js lines 41-100)

    [somefile.js] keeps the session in the globals [loggedIn],
    [patientId], [patientName], [patientEmail] and copies the three
    values into [localStorage].  On [DOMContentLoaded] it reads them back
    ([getItem(k) || '']) and shows ['home'] when [patientId] is set,
    ['login'] otherwise.  [handleLogin] and [handleSignup] post the form
    to [/api/user/login] or [/api/user/signup]; on [response.ok] they set
    [loggedIn], read [data.patient.id], [.name] and [.email], persist
    them ([setItem] stores [String(value)]), alert and show ['home'];
    otherwise they alert the server's message; any exception alerts a
    network error.  [logout()] clears the globals and the storage.

    [app.js] has only the form checks: its log-in and sign-up handlers
    alert success without any request, and its page load shows ['home']
    or ['login'] from [localStorage] alone.

    [toggleHeader()] only styles the navigation links and is not
    modelled. *)

From S2P Require Import Prelude JsString JsDate IsoRoundtrip Json Mongoose Schemas Db Lifecycle LifecycleProps Availability Notify Routes Api Navigation Calendar Client.

Definition set_session (loggedIn : bool) (pid pname pemail : jsval) (g : Globals) : Globals :=
  mkGlobals g.(g_nav) loggedIn pid pname pemail g.(g_storage)
    g.(g_selectedDoctor) g.(g_selectedDate) g.(g_selectedTime).

Definition set_storage (st : gmap string string) (g : Globals) : Globals :=
  mkGlobals g.(g_nav) g.(g_loggedIn) g.(g_patientId) g.(g_patientName) g.(g_patientEmail) st
    g.(g_selectedDoctor) g.(g_selectedDate) g.(g_selectedTime).

(** [localStorage.getItem(k) || ''] *)
Definition stored (st : gmap string string) (k : string) : jsval := JStr (default "" (st !! k)).

Section Session.
Context {St : Type} `{HttpServer St}.
Variable has_page : string -> bool.

(** somefile.js's [showPage(p)], with the globals of the moment. *)
Definition show_sf (p : string) : CM St unit :=
  g_update (fun g => set_nav (showPage_sf has_page g.(g_patientId) g.(g_patientName) p g.(g_nav)) g).

Definition set_loggedIn (b : bool) : CM St unit :=
  g_update (fun g => set_session b g.(g_patientId) g.(g_patientName) g.(g_patientEmail) g).
Definition set_patientId (v : jsval) : CM St unit :=
  g_update (fun g => set_session g.(g_loggedIn) v g.(g_patientName) g.(g_patientEmail) g).
Definition set_patientName (v : jsval) : CM St unit :=
  g_update (fun g => set_session g.(g_loggedIn) g.(g_patientId) v g.(g_patientEmail) g).
Definition set_patientEmail (v : jsval) : CM St unit :=
  g_update (fun g => set_session g.(g_loggedIn) g.(g_patientId) g.(g_patientName) v g).

(** [localStorage.setItem(k, v)] *)
Definition setItem (k : string) (v : jsval) : CM St unit :=
  g_update (fun g => set_storage (<[k := js_to_string v]> g.(g_storage)) g).

(** [localStorage.removeItem(k)] *)
Definition removeItem (k : string) : CM St unit :=
  g_update (fun g => set_storage (delete k g.(g_storage)) g).

(** The window's [DOMContentLoaded] listener (lines 17-33). *)
Definition restore_session : CM St unit :=
  st <- read_g g_storage ;;
  set_patientId (stored st "patientId") ;;;
  set_patientName (stored st "patientName") ;;;
  set_patientEmail (stored st "patientEmail") ;;;
  (if truthy (stored st "patientId") then set_loggedIn true else ret tt) ;;;
  loggedIn <- read_g g_loggedIn ;;
  if loggedIn then show_sf "home" else show_sf "login".

(** The body of [handleLogin] (lines 37-73) and [handleSignup] (lines
    75-112), which differ only in the URL, the body and the texts. *)
Definition auth_request (path : string) (body : jsval) (success fallback : string) : CM St unit :=
  try_catch (
    response <- fetch POST (API_BASE +:+ path) body ;;
    data <- response_json response ;;
    if response_ok response then
      set_loggedIn true ;;;
      patient <- prop data "patient" ;; id <- prop patient "id" ;; set_patientId id ;;;
      patient <- prop data "patient" ;; name <- prop patient "name" ;; set_patientName name ;;;
      patient <- prop data "patient" ;; email <- prop patient "email" ;; set_patientEmail email ;;;
      setItem "patientId" id ;;;
      setItem "patientName" name ;;;
      setItem "patientEmail" email ;;;
      alert success ;;;
      show_sf "home"
    else
      msg <- prop data "message" ;;
      alert (js_to_string (js_or msg (JStr fallback)))
  ) (fun _ => alert "Network error. Please check your connection and try again.").

Definition handleLogin (email password : string) : CM St unit :=
  auth_request "/user/login" (JObj [("email", JStr email); ("password", JStr password)])
    "Login successful!" "Login failed. Please try again.".

Definition handleSignup (name email password : string) : CM St unit :=
  auth_request "/user/signup"
    (JObj [("name", JStr name); ("email", JStr email); ("password", JStr password)])
    "Signup successful!" "Signup failed. Please try again.".

(** The submit listeners (lines 116-147), on the raw input values. *)
Definition login_submit (emailInput passwordInput : string) : CM St unit :=
  let email := trim emailInput in
  let password := trim passwordInput in
  if bool_decide (email = "") || bool_decide (password = "") then
    alert "Please enter both email and password."
  else handleLogin email password.

Definition signup_submit (nameInput emailInput passwordInput : string) : CM St unit :=
  let name := trim nameInput in
  let email := trim emailInput in
  let password := trim passwordInput in
  if bool_decide (name = "") || bool_decide (email = "") || bool_decide (password = "") then
    alert "Please fill out all fields."
  else handleSignup name email password.

(** [logout()] (lines 149-158) *)
Definition logout : CM St unit :=
  set_loggedIn false ;;;
  set_patientId (JStr "") ;;;
  set_patientEmail (JStr "") ;;;
  set_patientName (JStr "") ;;;
  removeItem "patientId" ;;;
  removeItem "patientName" ;;;
  removeItem "patientEmail" ;;;
  show_sf "login".

(** ** app.js (lines 41-100) *)

(** The window's [DOMContentLoaded] listener of app.js. *)
Definition restore_app : CM St unit :=
  st <- read_g g_storage ;;
  let show p := g_update (fun g => set_nav (showPage has_page p g.(g_nav)) g) in
  if bool_decide (is_Some (st !! "patientId")) && negb (bool_decide (st !! "patientId" = Some ""))
  then show "home" else show "login".

Definition login_submit_app (emailInput passwordInput : string) : CM St unit :=
  let email := trim emailInput in
  let password := trim passwordInput in
  if bool_decide (email = "") || bool_decide (password = "") then
    alert "Please enter both email and password."
  else alert "Login successful!" ;;; g_update (fun g => set_nav (showPage has_page "home" g.(g_nav)) g).

Definition signup_submit_app (nameInput emailInput passwordInput : string) : CM St unit :=
  let name := trim nameInput in
  let email := trim emailInput in
  let password := trim passwordInput in
  if bool_decide (name = "") || bool_decide (email = "") || bool_decide (password = "") then
    alert "Please fill out all fields."
  else alert "Signup successful! Please login." ;;;
       g_update (fun g => set_nav (showPage has_page "login" g.(g_nav)) g).
End Session.

(** A new page load keeps only [localStorage]. *)
Definition reload (start : option string) (b : Browser) : Browser :=
  mkBrowser b.(br_ui)
    (mkGlobals (initial_nav start) false (JStr "") (JStr "") (JStr "") b.(br_g).(g_storage)
       (JObj []) "" "").

(** ** Properties *)

Arguments get_prop : simpl never.

Ltac session_unfold :=
  unfold handleLogin, handleSignup, auth_request, restore_session, logout, login_submit, signup_submit,
    show_sf, set_loggedIn, set_patientId, set_patientName, set_patientEmail, setItem, removeItem,
    alert, prop, read_g, g_update, ui_update, try_catch, bind, ret.

Section Generic.
Context {St : Type} `{HttpServer St}.
Variable has_page : string -> bool.

Definition network_alert : string := "Network error. Please check your connection and try again.".

(** C33: a successful log-in survives a reload.  When the server answers
    the log-in with a 2xx status and a patient whose id (not empty), name
    and e-mail are strings, [handleLogin] logs the visitor in with these
    values; loading the page again restores from [localStorage] exactly
    the same session, logged in. *)
Theorem login_reload_roundtrip (b : Browser) (s s' : St) (email password : string) (status : Z)
    (fs pf : list (string * jsval)) (i n e : string) (start : option string) :
  fetch POST (API_BASE +:+ "/user/login") (JObj [("email", JStr email); ("password", JStr password)]) (b, s) =
    (Ok (mkHttpResponse status (Some (JObj fs))), (b, s')) ->
  (200 <= status <= 299) ->
  get_prop (JObj fs) "patient" = JObj pf ->
  get_prop (JObj pf) "id" = JStr i -> get_prop (JObj pf) "name" = JStr n ->
  get_prop (JObj pf) "email" = JStr e -> i <> "" ->
  exists b1, handleLogin has_page email password (b, s) = (Ok tt, (b1, s')) /\
    b1.(br_g).(g_loggedIn) = true /\ b1.(br_g).(g_patientId) = JStr i /\
    b1.(br_g).(g_patientName) = JStr n /\ b1.(br_g).(g_patientEmail) = JStr e /\
    exists b2, restore_session has_page (reload start b1, s') = (Ok tt, (b2, s')) /\
      b2.(br_g).(g_loggedIn) = true /\ b2.(br_g).(g_patientId) = JStr i /\
      b2.(br_g).(g_patientName) = JStr n /\ b2.(br_g).(g_patientEmail) = JStr e.
Proof.
  intros Hf Hst Hp Hi Hn He Hne. session_unfold. rewrite Hf. unfold response_json. simpl.
  rewrite response_ok_2xx by done.
  rewrite Hp. simpl. rewrite Hi, Hn, He. simpl. eexists. split; [reflexivity|]. simpl. split_and!; try done.
  unfold stored. simplify_map_eq. rewrite bool_decide_eq_false_2 by done.
  eexists. split; [reflexivity|]. done.
Qed.
(** C34: a 2xx answer without a [patient] object (for instance
    [{ success: true }]) sets [loggedIn] before [data.patient.id] throws;
    the [catch] reports a network error, and the page is left logged in
    with the previous patient id, name and e-mail and nothing stored. *)
Theorem login_without_patient (b : Browser) (s s' : St) (email password : string) (status : Z)
    (fs : list (string * jsval)) :
  fetch POST (API_BASE +:+ "/user/login") (JObj [("email", JStr email); ("password", JStr password)]) (b, s) =
    (Ok (mkHttpResponse status (Some (JObj fs))), (b, s')) ->
  (200 <= status <= 299) ->
  get_prop (JObj fs) "patient" = JUndefined ->
  handleLogin has_page email password (b, s) =
    (Ok tt, (mkBrowser (push_alert network_alert b.(br_ui))
               (set_session true b.(br_g).(g_patientId) b.(br_g).(g_patientName)
                  b.(br_g).(g_patientEmail) b.(br_g)), s')).
Proof.
  intros Hf Hst Hp. session_unfold. rewrite Hf. unfold response_json. simpl.
  rewrite response_ok_2xx by done.
  rewrite Hp. reflexivity.
Qed.
End Generic.

(** ** Against the Express server *)

(** The visitor's actions on the session. *)
Inductive session_action : Type :=
| SLogin (email password : string)
| SSignup (name email password : string)
| SLogout
| SReload (start : option string).

Section Express.
Variables (uptime : Z) (has_page : string -> bool).
#[local] Existing Instance express_server.

Definition session_step (a : session_action) (bw : Browser * World) : Browser * World :=
  match a with
  | SLogin e p => snd (@login_submit World (express_server uptime) has_page e p bw)
  | SSignup n e p => snd (@signup_submit World (express_server uptime) has_page n e p bw)
  | SLogout => snd (logout (St := World) has_page bw)
  | SReload start => snd (restore_session (St := World) has_page (reload start bw.1, bw.2))
  end.

Definition run_session (bw : Browser * World) (acts : list session_action) : Browser * World :=
  foldl (fun bw a => session_step a bw) bw acts.

(** A request to a path the server does not route only alerts. *)
Lemma auth_unrouted (path : string) (body : jsval) (success fallback : string) (xs : list string)
    (b : Browser) (w : World) :
  url_segments (API_BASE +:+ path) = Some xs -> dispatch POST xs = None ->
  @auth_request World (express_server uptime) has_page path body success fallback (b, w) =
    (Ok tt, (mkBrowser (push_alert network_alert b.(br_ui)) b.(br_g), w)).
Proof.
  intros Hurl Hd. session_unfold. unfold fetch. rewrite Hurl.
  destruct (ui_online (br_ui b)); simpl; [|reflexivity].
  unfold express_app. rewrite Hd. reflexivity.
Qed.

Lemma login_signup_unrouted :
  (exists xs, url_segments (API_BASE +:+ "/user/login") = Some xs /\ dispatch POST xs = None) /\
  (exists xs, url_segments (API_BASE +:+ "/user/signup") = Some xs /\ dispatch POST xs = None).
Proof. split; eexists; split; vm_compute; reflexivity. Qed.

Definition logged_out (b : Browser) : Prop :=
  b.(br_g).(g_loggedIn) = false /\ b.(br_g).(g_storage) !! "patientId" = None.

Lemma session_step_logged_out (a : session_action) (b : Browser) (w : World) :
  logged_out b -> logged_out (session_step a (b, w)).1 /\ (session_step a (b, w)).2 = w.
Proof.
  intros [Hl Hs]. destruct login_signup_unrouted as [(xs & Hx & Hd) (ys & Hy & Hd')].
  destruct a as [e p|n e p| |start]; simpl.
  - unfold login_submit. destruct (_ || _); [done|].
    unfold handleLogin. by rewrite (auth_unrouted _ _ _ _ xs).
  - unfold signup_submit. destruct (_ || _); [done|].
    unfold handleSignup. by rewrite (auth_unrouted _ _ _ _ ys).
  - split; [|done]. split; [done|]. simpl. by rewrite lookup_delete_ne, lookup_delete_ne, lookup_delete_eq.
  - unfold restore_session, reload, read_g, bind. simpl. unfold stored. rewrite Hs. simpl.
    split; [|done]. by split.
Qed.

(** C35: with this server, no one can log in.  Starting logged out with
    no stored patient, any sequence of log-ins, sign-ups, log-outs and
    page reloads leaves the page logged out with nothing stored, and
    leaves the database as it was: the log-in and sign-up requests all
    end in Express's 404 page and the "Network error" alert. *)
Theorem session_never_logged_in (b : Browser) (w : World) (acts : list session_action) :
  logged_out b -> logged_out (run_session (b, w) acts).1 /\ (run_session (b, w) acts).2 = w.
Proof.
  unfold run_session. revert b. induction acts as [|a acts IH]; intros b Hb; [done|]. simpl.
  destruct (session_step_logged_out a b w Hb) as [Hb' Hw].
  destruct (session_step a (b, w)) as [b' w'] eqn:E. simpl in *. subst w'. by apply IH.
Qed.
End Express.

(** ** Worked examples *)

(** A server that answers every request with status 200 and [data]: the
    log-in service that [somefile.js] expects. *)
Definition answer_server (data : jsval) : HttpServer unit.
Proof. refine {| serve := fun _ _ _ s => (Ok (Some (mkResponse 200 data)), s) |}. eauto. Defined.

Definition ann_answer : jsval :=
  JObj [("success", JBool true);
        ("patient", JObj [("id", JStr "P1"); ("name", JStr "Ann"); ("email", JStr "ann@example.org")])].

Lemma login_reload_roundtrip_witness :
  exists b1, handleLogin (H := answer_server ann_answer) sample_pages "ann@example.org" "pw"
               (sample_browser, tt) = (Ok tt, (b1, tt)) /\
    b1.(br_g).(g_loggedIn) = true /\ b1.(br_g).(g_patientId) = JStr "P1" /\
    b1.(br_g).(g_patientName) = JStr "Ann" /\ b1.(br_g).(g_patientEmail) = JStr "ann@example.org" /\
    exists b2, restore_session (St := unit) sample_pages (reload None b1, tt) = (Ok tt, (b2, tt)) /\
      b2.(br_g).(g_loggedIn) = true /\ b2.(br_g).(g_patientId) = JStr "P1" /\
      b2.(br_g).(g_patientName) = JStr "Ann" /\ b2.(br_g).(g_patientEmail) = JStr "ann@example.org".
Proof.
  apply (login_reload_roundtrip (H := answer_server ann_answer) sample_pages sample_browser tt tt
           "ann@example.org" "pw" 200
           [("success", JBool true);
            ("patient", JObj [("id", JStr "P1"); ("name", JStr "Ann"); ("email", JStr "ann@example.org")])]
           [("id", JStr "P1"); ("name", JStr "Ann"); ("email", JStr "ann@example.org")]);
    try (vm_compute; reflexivity); [lia | discriminate].
Defined.

Lemma login_without_patient_witness :
  handleLogin (H := answer_server (JObj [("success", JBool true)])) sample_pages "ann@example.org" "pw"
    (sample_browser, tt) =
    (Ok tt, (mkBrowser (push_alert network_alert sample_browser.(br_ui))
               (set_session true (JStr "") (JStr "") (JStr "") sample_browser.(br_g)), tt)).
Proof.
  apply (login_without_patient (H := answer_server (JObj [("success", JBool true)])) sample_pages
           sample_browser tt tt "ann@example.org" "pw" 200 [("success", JBool true)]);
    [vm_compute; reflexivity | lia | vm_compute; reflexivity].
Defined.

Lemma session_never_logged_in_witness :
  logged_out (run_session 0 sample_pages (sample_browser, appt_world)
                [SLogin "ann@example.org" "pw"; SReload None; SSignup "Ann" "ann@example.org" "pw"; SLogout]).1 /\
  (run_session 0 sample_pages (sample_browser, appt_world)
     [SLogin "ann@example.org" "pw"; SReload None; SSignup "Ann" "ann@example.org" "pw"; SLogout]).2 = appt_world.
Proof. apply session_never_logged_in. split; reflexivity. Defined.
